(** * Shift compliance and coverage engine of pixlcat-sling-api

    A shallow embedding of the rule evaluation in the Express server
    ([getShiftTemplates], [matchesTemplate], [findCoverage] and the handler of
    [POST /schedule/validate]) together with the helpers they call
    ([resolveEmployeeId], [getOrgCalendar], [getDayRange], [getWeekRange]),
    and of the read-only endpoints of the scheduling engine
    ([/availability/:date], [/conflicts], [/weekly-hours/:userId],
    [/schedule/coverage/:date], [/schedule/consecutive/:userId]).

    Conventions of the embedding.
    - A [Date] is its time value, an integer number of milliseconds ([Instant]).
      ISO strings that only carry an instant between two calls are the instant.
    - Hours are exact rationals ([Qc]); the source computes them in binary
      floating point, whose rounding is not modelled.
    - What the JavaScript runtime and the Sling service answer is a parameter
      ([Platform], [Sling]); what the repository computes from those answers
      is a definition.
    - Human-readable message strings are left out; rule codes, severities and
      the numbers attached to a violation are kept.
    - A loop that moves a [Date] by one day at a time over a fixed span of
      days is a loop over the day numbers it stands on. *)

From Stdlib Require Import Ascii String DecimalString QArith Qround Qcanon.
From stdpp Require Import base numbers list strings gmap sets sorting.

Local Open Scope Z_scope.

(** ** JavaScript strings and values *)
Module Js.

Definition lower_ascii (c : ascii) : ascii :=
  let n := Ascii.N_of_ascii c in
  if ((65 <=? n) && (n <=? 90))%N then Ascii.ascii_of_N (n + 32) else c.

(** [s.toLowerCase()], on ASCII. *)
Fixpoint toLowerCase (s : string) : string :=
  match s with
  | EmptyString => EmptyString
  | String c s' => String (lower_ascii c) (toLowerCase s')
  end.

Fixpoint trimStart (s : string) : string :=
  match s with
  | EmptyString => EmptyString
  | String c s' => if Ascii.is_space c then trimStart s' else s
  end.

(** [s.trim()], on ASCII white space. *)
Definition trim (s : string) : string :=
  String.rev (trimStart (String.rev (trimStart s))).

(** [s.includes(sub)]. *)
Fixpoint includes (s sub : string) : bool :=
  String.prefix sub s ||
  match s with
  | EmptyString => false
  | String _ s' => includes s' sub
  end.

Fixpoint digits (acc : option Z) (s : string) : option Z :=
  match s with
  | EmptyString => acc
  | String c s' =>
      match Ascii.is_nat c with
      | Some d => digits (Some (10 * default 0 acc + Z.of_nat d)) s'
      | None => acc
      end
  end.

(** [parseInt(s, 10)] on a string: leading white space, an optional sign,
    then the longest run of decimal digits. [None] is [NaN]. *)
Definition parseIntStr (s : string) : option Z :=
  match trimStart s with
  | String "-"%char s' => Z.opp <$> digits None s'
  | String "+"%char s' => digits None s'
  | s' => digits None s'
  end.

(** A JSON field of the request body: absent, a number or a string. *)
Inductive value :=
  | Undefined
  | Num (n : Z)
  | Str (s : string).

Definition truthy (v : value) : bool :=
  match v with
  | Undefined => false
  | Num n => negb (n =? 0)
  | Str s => negb (String.eqb s "")
  end.

(** [parseInt(v, 10)]: a number is first printed, then read back. *)
Definition parseInt (v : value) : option Z :=
  match v with
  | Undefined => None
  | Num n => Some n
  | Str s => parseIntStr s
  end.

(** [!n] for a number that may be [NaN] or [null] ([None]). *)
Definition falsyNum (n : option Z) : bool :=
  match n with
  | None => true
  | Some k => k =? 0
  end.

(** [String(v || '')]. *)
Definition stringOr (v : value) : string :=
  match v with
  | Str s => s
  | _ => EmptyString
  end.

(** [xs.sort(cmp)]: the sort is stable, and for a consistent comparator
    every stable sort returns the same array; this is insertion from the
    right, an element staying in front of those it ties with. *)
Section Sort.
Context {A : Type} (cmp : A → A → Qc).

Fixpoint insert_sorted (x : A) (l : list A) : list A :=
  match l with
  | [] => [x]
  | y :: l' =>
      if decide (cmp x y ≤ 0)%Qc then x :: y :: l'
      else y :: insert_sorted x l'
  end.

Definition sort (l : list A) : list A := foldr insert_sorted [] l.

(** [cmp(a, b) <= 0]: the comparator lets [a] stay before [b]. *)
Definition ordered (a b : A) : Prop := (cmp a b ≤ 0)%Qc.
End Sort.

End Js.

(** ** Scheduling engine constants (v2.0) *)

Definition LOCATIONS_CLEMENT : Z := 16124319.
Definition LOCATIONS_NINTH : Z := 16128300.

Definition EMPLOYEE_NAMES : list (Z * string) :=
  [ (12302285, "David"); (13125426, "Maya L"); (16159503, "Jesus");
    (16422126, "Anya"); (16764426, "Saige"); (19506789, "James");
    (19763164, "Jeffrey"); (19838518, "Hayden"); (21868029, "Brianna");
    (22563123, "Jessica"); (22635995, "Clayton"); (24605713, "Emily");
    (24949126, "Sara"); (24950241, "Otilia"); (24950518, "Maya M") ]%string.

Definition CROSS_LOCATION_POOL : list Z :=
  [ 24949126; 21868029; 19506789; 24605713; 22635995; 12302285 ].

Definition MAX_WEEKLY_HOURS : Qc := Qc_of_Z 40.
Definition MAX_CONSECUTIVE_DAYS : Z := 7.
Definition WARN_CONSECUTIVE_DAYS : Z := 6.

(** ** Time *)

Definition Instant := Z.
Definition MS_DAY : Z := 86400000.

(** What the runtime answers. The process's zone and the Pacific zone have an
    offset that may change from one instant to the next. *)
Record Platform := {
  (** [new Date()] *)
  Date_now : Instant;
  (** offset of the process's local zone at an instant, in ms *)
  tzOffset : Instant → Z;
  (** offset of America/Los_Angeles at an instant, in ms *)
  ptOffset : Instant → Z;
  (** the instant of a local wall-clock reading ([new Date(y, m, d, ...)],
      and a date-time string without zone) *)
  fromWall : Z → Instant;
  (** [new Date(str)]; [None] is an Invalid Date *)
  Date_parse : string → option Instant;
  (** [isNaN(str)] *)
  isNaN : string → bool;
}.

Section Clock.
Context (P : Platform).

Definition wall (t : Instant) : Z := t + tzOffset P t.

(** The civil date of [t] in the local zone, as a day number: two dates
    have the same [toDateString()] exactly when they have the same day. *)
Definition toDateString (t : Instant) : Z := wall t `div` MS_DAY.
Definition getDay (t : Instant) : Z := (toDateString t + 4) `mod` 7.
Definition getHours (t : Instant) : Z := (wall t `mod` MS_DAY) `div` 3600000.
Definition getMinutes (t : Instant) : Z := (wall t `mod` 3600000) `div` 60000.


(** [d.setDate(d.getDate() + n)] *)
Definition addDays (t : Instant) (n : Z) : Instant :=
  fromWall P (wall t + n * MS_DAY).
(** [d.setHours(0, 0, 0, 0)] and [d.setHours(23, 59, 59, 999)] *)
Definition startOfDay (t : Instant) : Instant :=
  fromWall P (toDateString t * MS_DAY).
Definition endOfDay (t : Instant) : Instant :=
  fromWall P (toDateString t * MS_DAY + (MS_DAY - 1)).

(** [new Date(d.toLocaleString('en-US', { timeZone: TZ }))]: the Pacific
    wall clock of [d], to the second, read back as a local time. *)
Definition asPT (t : Instant) : Instant :=
  fromWall P ((t + ptOffset P t) `div` 1000 * 1000).

Definition getNowPT : Instant := asPT (Date_now P).

Record DayRange := {
  dr_start : Instant;
  dr_end : Instant;
  (** the [y-m-d] string, as the civil day it names *)
  isoDate : Z;
  dayOfWeek : Z;
}.

Definition days : list string :=
  [ "sunday"; "monday"; "tuesday"; "wednesday"; "thursday"; "friday";
    "saturday" ]%string.

Fixpoint indexOf (l : list string) (s : string) : option Z :=
  match l with
  | [] => None
  | x :: l' => if String.eqb x s then Some 0 else Z.succ <$> indexOf l' s
  end.

(** The [target] of [getDayRange]. *)
Definition resolveTarget (dateStr : string) : option Instant :=
  let nowPT := getNowPT in
  let lower := Js.trim (Js.toLowerCase dateStr) in
  if String.eqb lower "today" then Some nowPT
  else if String.eqb lower "tomorrow" then Some (addDays nowPT 1)
  else if String.eqb lower "yesterday" then Some (addDays nowPT (-1))
  else match indexOf days lower with
       | Some dayIdx =>
           let diff := dayIdx - getDay nowPT in
           Some (addDays nowPT (if diff <=? 0 then diff + 7 else diff))
       | None => Date_parse P dateStr
       end.

(** [getDayRange] from the point where [target] is a valid date. *)
Definition dayRangeOf (target : Instant) : DayRange :=
  let day := toDateString target in
  let startLocal := fromWall P (day * MS_DAY) in
  let endLocal := fromWall P (day * MS_DAY + (MS_DAY - 1)) in
  let ptOffsetMs := startLocal - asPT startLocal in
  {| dr_start := startLocal + ptOffsetMs;
     dr_end := endLocal + ptOffsetMs;
     isoDate := day;
     dayOfWeek := getDay target |}.

(** [getDayRange(dateStr)]. On an Invalid Date every field read is [NaN]
    and [toISOString()] throws a [RangeError]: that is [None]. *)
Definition getDayRange (dateStr : string) : option DayRange :=
  dayRangeOf <$> resolveTarget dateStr.

(** [getWeekRange(isoDate)]. A date-only ISO string is read by
    [new Date] as midnight UTC of that day. *)
Definition getWeekRange (iso : Z) : Instant * Instant :=
  let center := dr_start (dayRangeOf (iso * MS_DAY)) in
  let day := getDay center in
  let monday := startOfDay (addDays center (- (if day =? 0 then 6 else day - 1))) in
  let sunday := endOfDay (addDays monday 6) in
  (monday, sunday).

End Clock.

(** ** What Sling answers, and what [getOrgCalendar] makes of it *)

(** An entry of [GET /:org/calendar/:user]. *)
Record Event := {
  ev_type : string;
  ev_id : Z;
  ev_user : option Z;
  ev_position : option Z;
  ev_location : option Z;
  dtstart : Instant;
  dtend : Instant;
  ev_status : string;
  ev_fullDay : bool;
  ev_summary : string;
  ev_approved : bool;
}.

Record User := { u_id : Z; u_name : string; u_lname : string }.
Record Group := { g_id : Z; g_type : string; g_name : string }.

Record Sling := {
  (** the calendar entries of a date range *)
  calendar : Instant → Instant → list Event;
  (** [GET /users] *)
  users : list User;
  (** [GET /groups] *)
  groups : list Group;
}.

Record Shift := {
  s_id : Z;
  s_employee : string;
  s_employeeId : option Z;
  s_position : option string;
  s_location : option string;
  s_locationId : option Z;
  s_start : Instant;
  s_end : Instant;
  s_duration : Qc;
  s_published : bool;
}.

Record Leave := {
  l_employee : string;
  l_employeeId : option Z;
  l_start : Instant;
  l_end : Instant;
  l_fullDay : bool;
  l_note : string;
  l_approved : bool;
}.

Record Availability := {
  a_employee : string;
  a_employeeId : option Z;
  a_start : Instant;
  a_end : Instant;
  a_fullDay : bool;
}.


Record OrgCalendar := {
  shifts : list Shift;
  leaves : list Leave;
  availability : list Availability;
}.

(** [(end - start) / 3600000] *)
Definition hoursBetween (t1 t2 : Instant) : Qc :=
  (Qc_of_Z (t2 - t1) / Qc_of_Z 3600000)%Qc.

(** [`${u.name || ''} ${u.lname || ''}`.trim()] *)
Definition fullName (u : User) : string :=
  Js.trim (u_name u +:+ " " +:+ u_lname u).

(** [xs.forEach((x) => { map[x.id] = x; })]: a later entry overwrites. *)
Definition indexById {A} (id : A → Z) (xs : list A) : gmap Z A :=
  foldl (λ m x, <[id x := x]> m) ∅ xs.

Section Calendar.
Context (S : Sling).

Definition getOrgCalendar (dateStart dateEnd : Instant) : OrgCalendar :=
  let calData := calendar S dateStart dateEnd in
  let userMap := indexById u_id (users S) in
  let posMap :=
    indexById g_id (filter (λ x, g_type x = "position"%string) (groups S)) in
  let locMap :=
    indexById g_id (filter (λ x, g_type x = "location"%string) (groups S)) in
  let userOf (e : Event) := ev_user e ≫= λ i, userMap !! i in
  {| shifts :=
       (λ e,
          {| s_id := ev_id e;
             s_employee := from_option fullName "Unassigned"%string (userOf e);
             s_employeeId := ev_user e;
             s_position := g_name <$> (ev_position e ≫= λ i, posMap !! i);
             s_location := g_name <$> (ev_location e ≫= λ i, locMap !! i);
             s_locationId := ev_location e;
             s_start := dtstart e;
             s_end := dtend e;
             s_duration := hoursBetween (dtstart e) (dtend e);
             s_published := bool_decide (ev_status e = "published"%string) |})
       <$> filter (λ e, ev_type e = "shift"%string) calData;
     leaves :=
       (λ e,
          {| l_employee := from_option fullName "Unknown"%string (userOf e);
             l_employeeId := ev_user e;
             l_start := dtstart e;
             l_end := dtend e;
             l_fullDay := ev_fullDay e;
             l_note := ev_summary e;
             l_approved := ev_approved e |})
       <$> filter (λ e, ev_type e = "leave"%string) calData;
     availability :=
       (λ e,
          {| a_employee := from_option fullName "Unknown"%string (userOf e);
             a_employeeId := ev_user e;
             a_start := dtstart e;
             a_end := dtend e;
             a_fullDay := ev_fullDay e |})
       <$> filter (λ e, ev_type e = "availability"%string) calData |}.

End Calendar.

(** [(s.location || '').includes(name)] *)
Definition locationIncludes (s : Shift) (name : string) : bool :=
  Js.includes (default EmptyString (s_location s)) name.

(** ** Shift templates *)

Record Template := {
  t_position : string;
  t_startTime : string;
  t_endTime : string;
  t_hours : Qc;
  t_dayType : string;
  t_count : Z;
}.

Definition bump (t : Template) : Template :=
  {| t_position := t_position t; t_startTime := t_startTime t;
     t_endTime := t_endTime t; t_hours := t_hours t;
     t_dayType := t_dayType t; t_count := t_count t + 1 |}.

(** [String(n)] for an integer. *)
Definition numStr (n : Z) : string := NilZero.string_of_int (Z.to_int n).

(** [s.padStart(2, '0')] *)
Definition padStart2 (s : string) : string :=
  if (String.length s <? 2)%nat then "0" +:+ s else s.

(** [s.position || 'Unknown'] *)
Definition positionOrUnknown (s : Shift) : string :=
  match s_position s with
  | Some p => if String.eqb p "" then "Unknown" else p
  | None => "Unknown"
  end.

(** A JavaScript object used as a map with keys that are never array
    indices: [Object.values] lists the values in the order the keys were
    first written. *)
Definition slots := list (string * Template).

Fixpoint slotLookup (key : string) (m : slots) : option Template :=
  match m with
  | [] => None
  | (k, t) :: m' => if String.eqb k key then Some t else slotLookup key m'
  end.

Fixpoint slotAlter (f : Template → Template) (key : string) (m : slots) : slots :=
  match m with
  | [] => []
  | (k, t) :: m' =>
      if String.eqb k key then (k, f t) :: m' else (k, t) :: slotAlter f key m'
  end.




Section Templates.
Context (P : Platform) (S : Sling).

(** [`${d.getHours()}:${String(d.getMinutes()).padStart(2, '0')}`] *)
Definition timeOfDay (d : Instant) : string :=
  numStr (getHours P d) +:+ ":" +:+ padStart2 (numStr (getMinutes P d)).

Definition dayTypeOf (d : Instant) : string :=
  if (getDay P d =? 0) || (getDay P d =? 6) then "weekend" else "weekday".

Definition slotKey (s : Shift) : string :=
  positionOrUnknown s +:+ "|" +:+ timeOfDay (s_start s) +:+ "|" +:+
  timeOfDay (s_end s) +:+ "|" +:+ dayTypeOf (s_start s).

(** The body of the [forEach] in [getShiftTemplates]. *)
Definition countSlot (slotCounts : slots) (s : Shift) : slots :=
  let key := slotKey s in
  let slotCounts :=
    match slotLookup key slotCounts with
    | Some _ => slotCounts
    | None =>
        slotCounts ++
        [ (key,
           {| t_position := positionOrUnknown s;
              t_startTime := timeOfDay (s_start s);
              t_endTime := timeOfDay (s_end s);
              t_hours := hoursBetween (s_start s) (s_end s);
              t_dayType := dayTypeOf (s_start s);
              t_count := 0 |}) ]
    end in
  slotAlter bump key slotCounts.



(** The shifts both [getShiftTemplates] and [getHistoricalAvgHours] read:
    the last 28 days at Clement. *)
Definition clementHistory : list Shift :=
  let now := Date_now P in
  let fourWeeksAgo := startOfDay P (addDays P now (-28)) in
  filter (λ s, locationIncludes s "Clement")
         (shifts (getOrgCalendar S fourWeeksAgo now)).

Definition templatesOf (clementShifts : list Shift) : list Template :=
  Js.sort (λ a b, Qc_of_Z (t_count b - t_count a))
          (filter (λ t, 3 ≤ t_count t) (snd <$> foldl countSlot [] clementShifts)).

Definition getShiftTemplates : list Template := templatesOf clementHistory.

Inductive Match := Exact | Position | Time | NoMatch.

Definition matchesTemplate (shiftToCover : Shift) (templates : list Template)
  : Match * option Template :=
  let dayType := dayTypeOf (s_start shiftToCover) in
  let startTime := timeOfDay (s_start shiftToCover) in
  let endTime := timeOfDay (s_end shiftToCover) in
  match
    list_find (λ t, Some (t_position t) = s_position shiftToCover ∧
                    t_startTime t = startTime ∧ t_endTime t = endTime ∧
                    t_dayType t = dayType) templates
  with
  | Some (_, t) => (Exact, Some t)
  | None =>
      match
        list_find (λ t, Some (t_position t) = s_position shiftToCover ∧
                        t_dayType t = dayType) templates
      with
      | Some (_, t) => (Position, Some t)
      | None =>
          match
            list_find (λ t, t_startTime t = startTime ∧
                            t_endTime t = endTime ∧ t_dayType t = dayType)
                      templates
          with
          | Some (_, t) => (Time, Some t)
          | None => (NoMatch, None)
          end
      end
  end.

End Templates.

(** ** Historical weekly hours *)

Record Hist := { avg : Qc; min : Qc; max : Qc; weeks : nat }.

Definition Qcmin (x y : Qc) : Qc := if decide (x ≤ y)%Qc then x else y.
Definition Qcmax (x y : Qc) : Qc := if decide (x ≤ y)%Qc then y else x.
Definition Qcsum (l : list Qc) : Qc := foldr Qcplus 0%Qc l.

(** [s.employeeId] when it is truthy. *)
Definition truthyId (i : option Z) : option Z :=
  i ≫= λ k, if k =? 0 then None else Some k.

Section History.
Context (P : Platform) (S : Sling).

(** [toISODatePT(d)], as the Pacific civil day it names. *)
Definition toISODatePT (d : Instant) : Z := (d + ptOffset P d) `div` MS_DAY.

Definition getWeekKey (date : Instant) : Z :=
  let d := asPT P date in
  toISODatePT (addDays P d (- getDay P d)).

Definition addWeekHours (byEmployee : gmap Z (gmap Z Qc)) (s : Shift)
  : gmap Z (gmap Z Qc) :=
  match truthyId (s_employeeId s) with
  | None => byEmployee
  | Some empId =>
      let weeksOf := default ∅ (byEmployee !! empId) in
      let wk := getWeekKey (s_start s) in
      let sofar := default 0%Qc (weeksOf !! wk) in
      <[empId := <[wk := (sofar + hoursBetween (s_start s) (s_end s))%Qc]> weeksOf]>
        byEmployee
  end.

Definition histOf (weeksOf : gmap Z Qc) : option Hist :=
  match (map_to_list weeksOf).*2 with
  | [] => None
  | h :: hrs =>
      Some {| avg := (Qcsum (h :: hrs) / Qc_of_Z (Z.of_nat (length (h :: hrs))))%Qc;
              min := foldr Qcmin h hrs;
              max := foldr Qcmax h hrs;
              weeks := length (h :: hrs) |}
  end.

Definition getHistoricalAvgHours : gmap Z Hist :=
  omap histOf (foldl addWeekHours ∅ (clementHistory P S)).

End History.

(** ** Coverage finder *)

Inductive Reason :=
  | AlreadyWorkingOverlaps
  | OnLeave (note : string)
  | OnlyAvailable
  | NoAvailabilitySet (day : Z)
  | WouldHit (hrs : Qc)
  | WouldBeConsecutive (n : Z).

Inductive Caution :=
  | DoublePossible
  | NthConsecutiveDay (n : Z)
  | SixthShiftThisWeek
  | ShiftNumberThisWeek (n : Z)
  | AboveUsual (delta usual : Qc).

Inductive Note :=
  | WindowCoversShift
  | Usually (h : Hist)
  | HoursIfCovering (current projected : Qc).

Global Instance Reason_eq_dec : EqDecision Reason.
Proof. solve_decision. Defined.

Record Candidate := {
  c_employee : string;
  c_employeeId : Z;
  available : bool;
  reasons : list Reason;
  c_warnings : list Caution;
  notes : list Note;
  c_weeklyHours : Qc;
  c_projectedHours : Qc;
  historicalAvg : option Qc;
}.

Record Coverage := {
  shiftToCover : Shift;
  shiftHours : Qc;
  templateMatch : option (Match * Template);
  candidates : list Candidate;
}.

Inductive CoverageResult :=
  | CoverageThrows
  | NoShiftFound
  | Covered (c : Coverage).

(** [set.add(x)] on a [Set] that is later iterated: insertion order. *)
Definition setAdd (ids : list Z) (x : Z) : list Z :=
  if decide (x ∈ ids) then ids else ids ++ [x].

(** The comparator handed to [candidates.sort]. *)
Definition compareCandidates (a b : Candidate) : Qc :=
  if available a && negb (available b) then (-1)%Qc
  else if negb (available a) && available b then 1%Qc
  else if available a && available b
       then (c_projectedHours a - c_projectedHours b)%Qc
       else 0%Qc.

Section Coverage.
Context (P : Platform) (S : Sling).

(** The [for] loop over the thirteen days around the target: the longest
    run of worked days, the loop variable being the day it stands on. *)
Definition longestRun (worked : gset Z) (first : Z) (n : nat) : Z :=
  fst (foldl (λ '(maxConsecutive, current) d,
                if decide (d ∈ worked)
                then (Z.max maxConsecutive (current + 1), current + 1)
                else (maxConsecutive, 0))
             (0, 0) (seqZ first (Z.of_nat n))).

Section Candidate.
Context (targetDate : Instant) (cover : Shift)
        (weekShifts streakShifts : list Shift) (weekLeaves : list Leave)
        (weekAvail : list Availability) (hist : option Hist).

Definition shiftDateStr : Z := toDateString P targetDate.

(** Already working? *)
Definition checkAlreadyWorking (empId : Z) : list Reason * list Caution :=
  let alreadyWorking :=
    filter (λ s, s_employeeId s = Some empId ∧
                 toDateString P (s_start s) = shiftDateStr) weekShifts in
  match alreadyWorking with
  | existing :: _ =>
      if bool_decide (s_start existing < s_end cover) &&
         bool_decide (s_start cover < s_end existing)
      then ([AlreadyWorkingOverlaps], [])
      else ([], [DoublePossible])
  | [] => ([], [])
  end.

(** On leave? *)
Definition checkLeave (empId : Z) : list Reason :=
  match
    list_find (λ l, l_employeeId l = Some empId ∧
                    l_start l ≤ targetDate ∧ targetDate ≤ l_end l) weekLeaves
  with
  | Some (_, leave) => [OnLeave (l_note leave)]
  | None => []
  end.

(** Availability? *)
Definition dayAvailOf (empId : Z) : list Availability :=
  filter (λ a, a_employeeId a = Some empId ∧
               toDateString P (a_start a) = shiftDateStr) weekAvail.

Definition checkAvailability (empId : Z) : list Reason * list Note :=
  let dayAvail := dayAvailOf empId in
  match dayAvail with
  | _ :: _ =>
      let hasFullDay := existsb a_fullDay dayAvail in
      if hasFullDay then ([], [])
      else
        let fits :=
          existsb (λ a, bool_decide (a_start a ≤ s_start cover) &&
                        bool_decide (s_end cover ≤ a_end a)) dayAvail in
        if fits then ([], [WindowCoversShift]) else ([OnlyAvailable], [])
  | [] =>
      if existsb (λ a, bool_decide (a_employeeId a = Some empId)) weekAvail
      then ([NoAvailabilitySet (getDay P targetDate)], [])
      else ([], [])
  end.

(** 40hr cap? *)
Definition candidateWeeklyHours (empId : Z) : Qc :=
  foldl (λ weeklyHours s, (weeklyHours + hoursBetween (s_start s) (s_end s))%Qc)
        0%Qc (filter (λ s, s_employeeId s = Some empId) weekShifts).

Definition candidateProjectedHours (empId : Z) : Qc :=
  (candidateWeeklyHours empId + hoursBetween (s_start cover) (s_end cover))%Qc.

Definition checkCap (projectedHours : Qc) : list Reason :=
  if decide (Qc_of_Z 40 < projectedHours)%Qc then [WouldHit projectedHours] else [].

(** Consecutive? *)
Definition checkStreak (empId : Z) : list Reason * list Caution :=
  let streakDatesWorked : gset Z :=
    list_to_set ((λ s, toDateString P (s_start s)) <$>
                 filter (λ s, s_employeeId s = Some empId) streakShifts)
    ∪ {[ shiftDateStr ]} in
  let maxConsecutive := longestRun streakDatesWorked (shiftDateStr - 6) 13 in
  if MAX_CONSECUTIVE_DAYS <=? maxConsecutive
  then ([WouldBeConsecutive maxConsecutive], [])
  else if WARN_CONSECUTIVE_DAYS <=? maxConsecutive
       then ([], [NthConsecutiveDay maxConsecutive])
       else ([], []).

Definition checkShiftCount (empId : Z) : list Caution :=
  let shiftsThisWeek :=
    Z.of_nat (length (filter (λ s, s_employeeId s = Some empId) weekShifts)) in
  if shiftsThisWeek + 1 =? 6 then [SixthShiftThisWeek]
  else if 6 <? shiftsThisWeek + 1 then [ShiftNumberThisWeek (shiftsThisWeek + 1)]
       else [].

Definition checkHistory (projectedHours : Qc) : list Caution * list Note :=
  match hist with
  | Some h =>
      (if decide (Qc_of_Z 8 < projectedHours - avg h)%Qc
       then [AboveUsual (projectedHours - avg h) (avg h)] else [],
       [Usually h])
  | None => ([], [])
  end.

(** The body of the loop over [clementEmployeeIds], after the user was
    found: the checks in the order of the source, each pushing onto
    [reasons], [warnings] and [notes]. *)
Definition checkCandidate (empId : Z) (user : User) : Candidate :=
  let weeklyHours := candidateWeeklyHours empId in
  let projectedHours := candidateProjectedHours empId in
  let reasons :=
    (checkAlreadyWorking empId).1 ++ checkLeave empId ++
    (checkAvailability empId).1 ++ checkCap projectedHours ++
    (checkStreak empId).1 in
  {| c_employee := fullName user;
     c_employeeId := empId;
     available := bool_decide (reasons = []);
     reasons := reasons;
     c_warnings :=
       (checkAlreadyWorking empId).2 ++ (checkStreak empId).2 ++
       checkShiftCount empId ++ (checkHistory projectedHours).1;
     notes :=
       (checkAvailability empId).2 ++ (checkHistory projectedHours).2 ++
       [HoursIfCovering weeklyHours projectedHours];
     c_weeklyHours := weeklyHours;
     c_projectedHours := projectedHours;
     historicalAvg := avg <$> hist |}.
End Candidate.

(** The two calendars [findCoverage] fetches around the target date. *)
Definition coverWeek (targetDate : Instant) : OrgCalendar :=
  let weekStart := startOfDay P (addDays P targetDate (- getDay P targetDate)) in
  let weekEnd := endOfDay P (addDays P weekStart 6) in
  getOrgCalendar S weekStart weekEnd.

Definition coverStreakShifts (targetDate : Instant) : list Shift :=
  let streakStart := startOfDay P (addDays P targetDate (-6)) in
  let streakEnd := endOfDay P (addDays P targetDate 6) in
  shifts (getOrgCalendar S streakStart streakEnd).

(** [targetShifts]: the shifts of the target date, of the named employee
    when a name is given. *)
Definition targetShiftsOf (targetDate : Instant)
    (targetEmployeeName : option string) : list Shift :=
  let named (s : Shift) : bool :=
    match targetEmployeeName with
    | None => true
    | Some name =>
        String.eqb name "" ||
        Js.includes (Js.toLowerCase (s_employee s)) (Js.toLowerCase name)
    end in
  filter (λ s, toDateString P (s_start s) = toDateString P targetDate ∧
               named s = true) (shifts (coverWeek targetDate)).

(** [clementEmployeeIds], in insertion order. *)
Definition clementEmployeeIdsOf (targetDate : Instant) : list Z :=
  let atClement := filter (λ s, locationIncludes s "Clement") in
  foldl setAdd
    (foldl setAdd
       (foldl setAdd []
          (omap (truthyId ∘ s_employeeId) (atClement (shifts (coverWeek targetDate)))))
       (omap (truthyId ∘ s_employeeId) (atClement (coverStreakShifts targetDate))))
    (omap (truthyId ∘ a_employeeId) (availability (coverWeek targetDate))).

(** One turn of the loop over [clementEmployeeIds]; [None] is [continue]. *)
Definition candidateFor (targetDate : Instant) (cover : Shift) (empId : Z)
  : option Candidate :=
  if decide (Some empId = s_employeeId cover) then None
  else
    checkCandidate targetDate cover (shifts (coverWeek targetDate))
                   (coverStreakShifts targetDate) (leaves (coverWeek targetDate))
                   (availability (coverWeek targetDate))
                   (getHistoricalAvgHours P S !! empId) empId
    <$> (snd <$> list_find (λ u, u_id u = empId) (users S)).

Definition findCoverage (targetDay : string) (targetEmployeeName : option string)
  : CoverageResult :=
  match getDayRange P targetDay with
  | None => CoverageThrows
  | Some range =>
      let targetDate := dr_start range in
      let shiftTemplates := getShiftTemplates P S in
      match targetShiftsOf targetDate targetEmployeeName with
      | [] => NoShiftFound
      | cover :: _ =>
          let candidates :=
            omap (candidateFor targetDate cover) (clementEmployeeIdsOf targetDate) in
          let tm := matchesTemplate P cover shiftTemplates in
          Covered
            {| shiftToCover := cover;
               shiftHours := hoursBetween (s_start cover) (s_end cover);
               templateMatch :=
                 match tm with
                 | (NoMatch, _) => None
                 | (m, Some t) => Some (m, t)
                 | (_, None) => None
                 end;
               candidates := Js.sort compareCandidates candidates |}
      end
  end.

End Coverage.

(** ** POST /schedule/validate *)

Inductive Severity := RED | ORANGE | YELLOW.

Inductive Rule :=
  | LEAVE_001 | AVAIL_001 | XLOC_001 | HOURS_001 | CONSEC_001 | CONSEC_002
  | AVAIL_FALLBACK.

(** The numbers a violation carries besides its message. *)
Inductive Detail :=
  | NoDetail
  | HoursDetail (currentHours projectedHours : Qc)
  | StreakDetail (consecutiveDays : Z).

Record Violation := { rule : Rule; severity : Severity; detail : Detail }.

(** A violation or warning that carries no number. *)
Definition flag (r : Rule) (sev : Severity) : Violation :=
  {| rule := r; severity := sev; detail := NoDetail |}.

Inductive Status := BLOCKED | NEEDS_APPROVAL | UNCONFIRMED | APPROVED.

Global Instance Severity_eq_dec : EqDecision Severity.
Proof. solve_decision. Defined.
Global Instance Rule_eq_dec : EqDecision Rule.
Proof. solve_decision. Defined.
Global Instance Status_eq_dec : EqDecision Status.
Proof. solve_decision. Defined.

(** A time string [H:MM] after [split(':').map(Number)]: the hour and, when
    the string has a second part, the minute. Strings whose parts are not
    integer numerals are outside the model. *)
Record HM := { hm_h : Z; hm_m : option Z }.

(** [h * 60 + (m || 0)] *)
Definition minutesOf (t : HM) : Z := hm_h t * 60 + default 0 (hm_m t).

(** The request body. An absent or empty time string is [None]. *)
Record Request := {
  employeeId : Js.value;
  employee : Js.value;
  date : option string;
  startTime : option HM;
  endTime : option HM;
  location : Js.value;
}.

Record Verdict := {
  status : Status;
  v_employeeId : Z;
  v_date : Z;
  violations : list Violation;
  warnings : list Violation;
  weeklyHours : Qc;
  projectedHours : Qc;
  consecutiveDays : Z;
}.

Inductive Response :=
  | EmployeeNotFound   (* 400 *)
  | DateRequired       (* 400 *)
  | Thrown             (* 500, from the catch block *)
  | Ok (v : Verdict).

(** [Math.round(x * 100) / 100] *)
Definition round2 (x : Qc) : Qc :=
  (Qc_of_Z (Qfloor (x * Qc_of_Z 100 + Q2Qc (1 # 2))%Qc) / Qc_of_Z 100)%Qc.

(** [a || b] on numbers. *)
Definition orNum (a b : Qc) : Qc := if decide (a = 0%Qc) then b else a.

(** One of the two [while (true)] loops of gate 4: [checkDate] moves by
    [step] days for as long as the day it reaches is a work date. The loop
    has no bound of its own; [None] is a run of more than [fuel] days. *)
Fixpoint walk (fuel : nat) (workDates : gset Z) (step checkDate streak : Z)
  : option Z :=
  match fuel with
  | O => None
  | Datatypes.S fuel' =>
      let checkDate := checkDate + step in
      if decide (checkDate ∈ workDates)
      then walk fuel' workDates step checkDate (streak + 1)
      else Some streak
  end.

(** [violations.filter(...)] then the chain of [if]s. *)
Definition resolveStatus (violations warnings : list Violation) : Status :=
  let redV := filter (λ v, severity v = RED) violations in
  let orangeV := filter (λ v, severity v = ORANGE) violations in
  if decide (0 < length redV)%nat then BLOCKED
  else if decide (0 < length orangeV)%nat then NEEDS_APPROVAL
  else if decide (0 < length warnings)%nat then UNCONFIRMED
  else APPROVED.

Section Validate.
Context (P : Platform) (S : Sling).

(** [Object.entries] lists integer keys in ascending order, which is the
    order of [EMPLOYEE_NAMES]. *)
Definition resolveEmployeeId (nameOrId : Js.value) : option Z :=
  let byName :=
    let lower := Js.trim (Js.toLowerCase (Js.stringOr nameOrId)) in
    (λ m, fst (snd m)) <$>
    list_find (λ e, Js.toLowerCase (snd e) = lower) EMPLOYEE_NAMES in
  match nameOrId with
  | Js.Num n => Some n
  | Js.Str s => if negb (isNaN P s) then Js.parseIntStr s else byName
  | Js.Undefined => byName
  end.

Definition resolveUser (req : Request) : option Z :=
  if Js.truthy (employeeId req) then Js.parseInt (employeeId req)
  else resolveEmployeeId (employee req).

Definition targetLocIdOf (location : Js.value) : Z :=
  if Js.truthy location then
    match location with
    | Js.Str s =>
        if Js.includes (Js.toLowerCase s) "9th" then LOCATIONS_NINTH
        else LOCATIONS_CLEMENT
    | Js.Num n => n
    | Js.Undefined => LOCATIONS_CLEMENT
    end
  else LOCATIONS_CLEMENT.

(** Gate 1: availability and leave. *)
Definition gate1 (userId : Z) (dayLeaves : list Leave)
    (dayAvails : list Availability) (startTime endTime : option HM)
  : list Violation * list Violation :=
  let hasLeave := list_find (λ l, l_employeeId l = Some userId) dayLeaves in
  let leaveV :=
    if hasLeave is Some _ then [ flag LEAVE_001 RED ]
    else [] in
  let empAvails := filter (λ a, a_employeeId a = Some userId) dayAvails in
  match empAvails, startTime, endTime with
  | _ :: _, Some st, Some et =>
      if negb (existsb a_fullDay empAvails) then
        let shiftStartMin := minutesOf st in
        let shiftEndMin := minutesOf et in
        let fitsAny :=
          existsb (λ a,
                     let aS := a_start a in
                     let aE := a_end a in
                     bool_decide (getHours P aS * 60 + getMinutes P aS ≤ shiftStartMin) &&
                     bool_decide (shiftEndMin ≤ getHours P aE * 60 + getMinutes P aE))
                  empAvails in
        if negb fitsAny
        then (leaveV ++ [ flag AVAIL_001 RED ], [])
        else (leaveV, [])
      else (leaveV, [])
  | [], _, _ =>
      if hasLeave is Some _ then (leaveV, [])
      else (leaveV, [ flag AVAIL_FALLBACK YELLOW ])
  | _, _, _ => (leaveV, [])
  end.

(** Gate 2: cross-location. *)
Definition gate2 (userId targetLocId : Z) (dayShifts : list Shift)
  : list Violation :=
  if decide (userId ∈ CROSS_LOCATION_POOL) then
    let otherLocId :=
      if targetLocId =? LOCATIONS_CLEMENT then LOCATIONS_NINTH
      else LOCATIONS_CLEMENT in
    let otherLocShift :=
      list_find
        (λ s, s_employeeId s = Some userId ∧
              (s_locationId s = Some otherLocId ∨
               (otherLocId = LOCATIONS_NINTH ∧ locationIncludes s "9th" = true) ∨
               (otherLocId = LOCATIONS_CLEMENT ∧ locationIncludes s "Clement" = true)))
        dayShifts in
    if otherLocShift is Some _
    then [ flag XLOC_001 RED ]
    else []
  else [].

(** Gate 3: weekly hours. *)
Definition weeklyHoursOf (userId : Z) (weekShifts : list Shift) : Qc :=
  foldl (λ sum s,
           (sum + orNum (s_duration s) (hoursBetween (s_start s) (s_end s)))%Qc)
        0%Qc (filter (λ s, s_employeeId s = Some userId) weekShifts).

Definition proposedHoursOf (startTime endTime : option HM) : Qc :=
  match startTime, endTime with
  | Some st, Some et => (Qc_of_Z (minutesOf et - minutesOf st) / Qc_of_Z 60)%Qc
  | _, _ => 0%Qc
  end.

Definition gate3 (weeklyHours projectedHours : Qc) : list Violation :=
  if decide (MAX_WEEKLY_HOURS < projectedHours)%Qc
  then [ {| rule := HOURS_001; severity := ORANGE;
            detail := HoursDetail (round2 weeklyHours) (round2 projectedHours) |} ]
  else [].

(** Gate 4: consecutive days. [checkDate] is followed by its day. *)
Definition workDatesOf (userId : Z) (start : Instant) (streakShifts : list Shift)
  : gset Z :=
  list_to_set ((λ s, toDateString P (s_start s)) <$>
               filter (λ s, s_employeeId s = Some userId) streakShifts)
  ∪ {[ toDateString P start ]}.

Definition streakOf (workDates : gset Z) (start : Instant) : option Z :=
  let fuel := Datatypes.S (size workDates) in
  back ← walk fuel workDates (-1) (toDateString P start) 1;
  walk fuel workDates 1 (toDateString P start) back.

Definition gate4 (streak : Z) : list Violation :=
  if MAX_CONSECUTIVE_DAYS <=? streak
  then [ {| rule := CONSEC_001; severity := RED; detail := StreakDetail streak |} ]
  else if WARN_CONSECUTIVE_DAYS <=? streak
       then [ {| rule := CONSEC_002; severity := ORANGE; detail := StreakDetail streak |} ]
       else [].

(** The three calendars the handler fetches. *)
Definition dayCalendar (range : DayRange) : OrgCalendar :=
  getOrgCalendar S (dr_start range) (dr_end range).

Definition weekShiftsOf (range : DayRange) : list Shift :=
  let '(weekStart, weekEnd) := getWeekRange P (isoDate range) in
  shifts (getOrgCalendar S weekStart weekEnd).

Definition streakShiftsOf (range : DayRange) : list Shift :=
  let start := dr_start range in
  shifts (getOrgCalendar S (addDays P start (-8)) (addDays P start 8)).

(** The handler from the point where the request passed the input checks
    and the date was resolved. *)
Definition runGates (userId : Z) (range : DayRange) (req : Request)
  : option Verdict :=
  let start := dr_start range in
  let targetLocId := targetLocIdOf (location req) in
  let day := dayCalendar range in
  let '(violations1, warnings) :=
    gate1 userId (leaves day) (availability day) (startTime req) (endTime req) in
  let violations2 := gate2 userId targetLocId (shifts day) in
  let weeklyHours := weeklyHoursOf userId (weekShiftsOf range) in
  let projectedHours := (weeklyHours + proposedHoursOf (startTime req) (endTime req))%Qc in
  let violations3 := gate3 weeklyHours projectedHours in
  streak ← streakOf (workDatesOf userId start (streakShiftsOf range)) start;
  let violations := violations1 ++ violations2 ++ violations3 ++ gate4 streak in
  Some {| status := resolveStatus violations warnings;
          v_employeeId := userId;
          v_date := isoDate range;
          violations := violations;
          warnings := warnings;
          weeklyHours := round2 weeklyHours;
          projectedHours := round2 projectedHours;
          consecutiveDays := streak |}.

(** The handler. [None]: a streak walk did not finish. *)
Definition validate (req : Request) : option Response :=
  let userId := resolveUser req in
  match userId with
  | Some uid =>
      if uid =? 0 then Some EmployeeNotFound
      else
        match date req with
        | None => Some DateRequired
        | Some d =>
            if String.eqb d "" then Some DateRequired
            else
              match getDayRange P d with
              | None => Some Thrown
              | Some range => Ok <$> runGates uid range req
              end
        end
  | None => Some EmployeeNotFound
  end.

(** The request passes the input checks: its employee resolves to the
    non-zero id [userId] and its date to [range]. *)
Definition accepted (req : Request) (userId : Z) (range : DayRange) : Prop :=
  resolveUser req = Some userId ∧ userId ≠ 0 ∧
  ∃ d, date req = Some d ∧ d ≠ EmptyString ∧ getDayRange P d = Some range.

(** The streak calendar holds a shift of the employee [k] days from the
    target day. *)
Definition worksOn (userId : Z) (range : DayRange) (k : Z) : Prop :=
  Exists (λ s, s_employeeId s = Some userId ∧
               toDateString P (s_start s) = toDateString P (dr_start range) + k)
         (streakShiftsOf range).

End Validate.

(** ** Helpers and read-only endpoints around the rule engine *)

(** The local clock of the process has neither a skipped nor a repeated
    hour: a wall-clock reading is shown by the instant it names. *)
Definition civil (P : Platform) : Prop := ∀ w, wall P (fromWall P w) = w.

(** [findUserByName(users, name)] *)
Definition findUserByName (users : list User) (name : string) : option User :=
  let lower := Js.trim (Js.toLowerCase name) in
  snd <$>
  list_find (λ u,
               let fullName := Js.toLowerCase (u_name u +:+ " " +:+ u_lname u) in
               let firstName := Js.toLowerCase (u_name u) in
               let lastName := Js.toLowerCase (u_lname u) in
               firstName = lower ∨ lastName = lower ∨
               Js.includes fullName lower = true) users.

(** [findPositionByName(positions, name)] *)
Definition findPositionByName (positions : list Group) (name : string)
  : option Group :=
  let lower := Js.trim (Js.toLowerCase name) in
  snd <$>
  list_find (λ p, Js.includes (Js.toLowerCase (g_name p)) lower = true) positions.

(** The range of the week calendar of [findCoverage]. *)
Definition coverWeekRange (P : Platform) (targetDate : Instant)
  : Instant * Instant :=
  let weekStart := startOfDay P (addDays P targetDate (- getDay P targetDate)) in
  let weekEnd := endOfDay P (addDays P weekStart 6) in
  (weekStart, weekEnd).

(** [getWeekRange(dateStr)] for a non-empty [dateStr] of any form. *)
Definition getWeekRangeOf (P : Platform) (dateStr : string)
  : option (Instant * Instant) :=
  (λ range,
     let center := dr_start range in
     let day := getDay P center in
     let monday :=
       startOfDay P (addDays P center (- (if day =? 0 then 6 else day - 1))) in
     let sunday := endOfDay P (addDays P monday 6) in
     (monday, sunday)) <$> getDayRange P dateStr.

(** [isWeekend] of [getDayRange]. *)
Definition isWeekend (range : DayRange) : bool :=
  (dayOfWeek range =? 0) || (dayOfWeek range =? 6).

(** [s.employeeId === userId], where [userId] is the result of a
    [parseInt]: [NaN] ([None]) equals nothing. *)
Definition shiftsOfUser (userId : option Z) (shifts : list Shift) : list Shift :=
  match userId with
  | Some uid => filter (λ s, s_employeeId s = Some uid) shifts
  | None => []
  end.

(** *** GET /availability/:date *)
Module AvailabilityDay.

Inductive Status :=
  | ON_LEAVE
  | AVAILABLE_FULL_DAY
  | AVAILABLE_PARTIAL
  | NO_AVAILABILITY_SUBMITTED.

(** A window is shown by its two clock times; they are kept as the
    instants they are formatted from. *)
Inductive Window :=
  | WholeDay
  | Between (start finish : Instant).

Record Entry := {
  userId : Z;
  name : string;
  status : Status;
  windows : list Window;
  note : option string;
}.

(** The function mapped over [Object.entries(EMPLOYEE_NAMES)]. *)
Definition entryOf (leaves : list Leave) (availability : list Availability)
    (e : Z * string) : Entry :=
  let uid := e.1 in
  match list_find (λ l, l_employeeId l = Some uid) leaves with
  | Some (_, hasLeave) =>
      {| userId := uid; name := e.2; status := ON_LEAVE; windows := [];
         note := Some (l_note hasLeave) |}
  | None =>
      let empAvails := filter (λ a, a_employeeId a = Some uid) availability in
      if decide (0 < length empAvails)%nat then
        if existsb a_fullDay empAvails then
          {| userId := uid; name := e.2; status := AVAILABLE_FULL_DAY;
             windows := [WholeDay]; note := None |}
        else
          {| userId := uid; name := e.2; status := AVAILABLE_PARTIAL;
             windows := (λ a, Between (a_start a) (a_end a)) <$> empAvails;
             note := None |}
      else
        {| userId := uid; name := e.2; status := NO_AVAILABILITY_SUBMITTED;
           windows := []; note := None |}
  end.

(** The [employees] of the answer, before they are put in the order of
    their names; [None] is the 500 of a date that cannot be read. *)
Definition employees (P : Platform) (S : Sling) (date : string)
  : option (list Entry) :=
  (λ range,
     let cal := getOrgCalendar S (dr_start range) (dr_end range) in
     entryOf (leaves cal) (availability cal) <$> EMPLOYEE_NAMES)
  <$> getDayRange P date.

End AvailabilityDay.

(** *** GET /weekly-hours/:userId *)
Module WeeklyHours.

Record DayShift := {
  ds_start : Instant;
  ds_end : Instant;
  ds_hours : Qc;
  ds_position : option string;
  ds_location : option string;
}.

Record Day := { d_shifts : list DayShift; d_totalHours : Qc }.

(** The three sums and the breakdown object the loop builds. *)
Record Sums := {
  totalHours : Qc;
  clementHours : Qc;
  ninthHours : Qc;
  dailyBreakdown : list (Z * Day);
}.

Record Report := {
  employeeId : option Z;
  r_totalHours : Qc;
  r_clementHours : Qc;
  ninthStHours : Qc;
  remainingBeforeOT : Qc;
  wouldExceedCap : bool;
  shiftCount : nat;
  r_dailyBreakdown : list (Z * Day);
}.

(** [dailyBreakdown[dateKey]] is created on its first shift, at the end of
    the object, and extended by the later ones. *)
Fixpoint addToDay (dateKey : Z) (sh : DayShift) (hours : Qc)
    (breakdown : list (Z * Day)) : list (Z * Day) :=
  match breakdown with
  | [] => [ (dateKey, {| d_shifts := [sh]; d_totalHours := (0 + hours)%Qc |}) ]
  | (k, d) :: rest =>
      if decide (k = dateKey)
      then (k, {| d_shifts := d_shifts d ++ [sh];
                  d_totalHours := (d_totalHours d + hours)%Qc |}) :: rest
      else (k, d) :: addToDay dateKey sh hours rest
  end.

Section WeeklyHours.
Context (P : Platform) (S : Sling).

(** One turn of [empShifts.forEach]. *)
Definition addShift (acc : Sums) (s : Shift) : Sums :=
  let hours := orNum (s_duration s) (hoursBetween (s_start s) (s_end s)) in
  let dateKey := toISODatePT P (s_start s) in
  let atClement :=
    bool_decide (s_locationId s = Some LOCATIONS_CLEMENT) ||
    locationIncludes s "Clement" in
  let atNinth :=
    bool_decide (s_locationId s = Some LOCATIONS_NINTH) ||
    locationIncludes s "9th" in
  {| totalHours := (totalHours acc + hours)%Qc;
     clementHours :=
       if atClement then (clementHours acc + hours)%Qc else clementHours acc;
     ninthHours :=
       if atClement then ninthHours acc
       else if atNinth then (ninthHours acc + hours)%Qc else ninthHours acc;
     dailyBreakdown :=
       addToDay dateKey
                {| ds_start := s_start s; ds_end := s_end s;
                   ds_hours := round2 hours; ds_position := s_position s;
                   ds_location := s_location s |}
                hours (dailyBreakdown acc) |}.

Definition sumsOf (empShifts : list Shift) : Sums :=
  foldl addShift
        {| totalHours := 0; clementHours := 0; ninthHours := 0;
           dailyBreakdown := [] |}%Qc empShifts.

Definition reportOf (userId : option Z) (empShifts : list Shift) : Report :=
  let sums := sumsOf empShifts in
  {| employeeId := userId;
     r_totalHours := round2 (totalHours sums);
     r_clementHours := round2 (clementHours sums);
     ninthStHours := round2 (ninthHours sums);
     remainingBeforeOT :=
       round2 (Qcmax 0%Qc (MAX_WEEKLY_HOURS - totalHours sums)%Qc);
     wouldExceedCap := bool_decide (MAX_WEEKLY_HOURS < totalHours sums)%Qc;
     shiftCount := length empShifts;
     r_dailyBreakdown :=
       (λ kd, (kd.1, {| d_shifts := d_shifts kd.2;
                        d_totalHours := round2 (d_totalHours kd.2) |}))
       <$> dailyBreakdown sums |}.

(** The handler; [week] is the query parameter, ['today'] when absent or
    empty. [None] is the 500 of a date that cannot be read. *)
Definition report (userId : option Z) (week : option string) : option Report :=
  let week :=
    match week with
    | Some w => if String.eqb w "" then "today"%string else w
    | None => "today"%string
    end in
  (λ r, reportOf userId (shiftsOfUser userId (shifts (getOrgCalendar S r.1 r.2))))
  <$> getWeekRangeOf P week.

End WeeklyHours.
End WeeklyHours.

(** *** GET /schedule/consecutive/:userId *)
Module Consecutive.

(** The three arrays of the loop over [allDates]. *)
Record Streaks := {
  centerStreak : list Z;
  activeStreak : list Z;
  longestStreak : list Z;
}.

Record Report := {
  employeeId : option Z;
  centerDate : Z;
  currentStreak : nat;
  currentStreakDates : list Z;
  r_longestStreak : nat;
  longestStreakDates : list Z;
  hardBlock : bool;
  needsApproval : bool;
  workDatesInRange : list Z;
}.

Section Consecutive.
Context (P : Platform) (S : Sling).

(** [toISODatePT(date)] for the element of [allDates] that stands on the
    local day [day]: the Pacific date of its local midnight. *)
Definition label (day : Z) : Z := toISODatePT P (fromWall P (day * MS_DAY)).

(** The two tests made when a run of work days ends. *)
Definition closeRun (centerKey : Z) (st : Streaks) : Streaks :=
  {| longestStreak :=
       if decide (length (longestStreak st) < length (activeStreak st))%nat
       then activeStreak st else longestStreak st;
     centerStreak :=
       if decide (centerKey ∈ activeStreak st)
       then activeStreak st else centerStreak st;
     activeStreak := activeStreak st |}.

(** One turn of the loop over [allDates]. *)
Definition visit (workDates : gset Z) (centerKey : Z) (st : Streaks) (day : Z)
  : Streaks :=
  if decide (day ∈ workDates)
  then {| centerStreak := centerStreak st;
          activeStreak := activeStreak st ++ [label day];
          longestStreak := longestStreak st |}
  else let st' := closeRun centerKey st in
       {| centerStreak := centerStreak st';
          activeStreak := [];
          longestStreak := longestStreak st' |}.

(** The loop over the 21 days from ten before to ten after the day of
    [centerDate], then the two tests once more. *)
Definition streaksOf (workDates : gset Z) (centerDate : Instant) : Streaks :=
  let centerKey := toISODatePT P centerDate in
  closeRun centerKey
    (foldl (visit workDates centerKey)
           {| centerStreak := []; activeStreak := []; longestStreak := [] |}
           (seqZ (toDateString P centerDate - 10) 21)).

Definition reportOf (userId : option Z) (centerDate : Instant)
    (empShifts : list Shift) : Report :=
  let worked := (λ s, toDateString P (s_start s)) <$> empShifts in
  let st := streaksOf (list_to_set worked) centerDate in
  let n := Z.of_nat (length (centerStreak st)) in
  {| employeeId := userId;
     centerDate := toISODatePT P centerDate;
     currentStreak := length (centerStreak st);
     currentStreakDates := centerStreak st;
     r_longestStreak := length (longestStreak st);
     longestStreakDates := longestStreak st;
     hardBlock := MAX_CONSECUTIVE_DAYS <=? n;
     needsApproval := (WARN_CONSECUTIVE_DAYS <=? n) && (n <? MAX_CONSECUTIVE_DAYS);
     workDatesInRange :=
       Js.sort (λ a b, Qc_of_Z (a - b)) (label <$> foldl setAdd [] worked) |}.

(** The handler; [None] is the 500 of a date that cannot be read. *)
Definition report (userId : option Z) (date : option string) : option Report :=
  centerDate ←
    match date with
    | Some d =>
        if String.eqb d "" then Some (Date_now P)
        else dr_start <$> getDayRange P d
    | None => Some (Date_now P)
    end;
  let rangeStart := startOfDay P (addDays P centerDate (-10)) in
  let rangeEnd := endOfDay P (addDays P centerDate 10) in
  Some (reportOf userId centerDate
          (shiftsOfUser userId (shifts (getOrgCalendar S rangeStart rangeEnd)))).

End Consecutive.
End Consecutive.

(** *** GET /schedule/coverage/:date *)
Module Floor.

Definition COVERAGE_MINS_CLEMENT_WEEKDAY : nat := 2.
Definition COVERAGE_MINS_CLEMENT_WEEKEND : nat := 2.
Definition COVERAGE_MINS_NINTH_WEEKDAY : nat := 1.
Definition COVERAGE_MINS_NINTH_WEEKEND : nat := 2.

Record Side := { count : nat; employees : list (string * option string) }.

(** A half hour of the day, named by its hour and minute. *)
Record Slot := { time : Z * Z; clement : Side; ninthSt : Side }.

Inductive Issue :=
  | ClementStaff (count min : nat)
  | NinthStaff (count min : nat).

Record Warning := { w_time : Z * Z; issue : Issue }.

Record Summary := {
  clementPeak : nat;
  clementMin : nat;
  ninthStPeak : nat;
  warningCount : nat;
}.

Record Report := {
  r_isWeekend : bool;
  coverage : list Slot;
  warnings : list Warning;
  summary : Summary;
}.

(** The times of the two nested loops: 06:00, 06:30, ... 18:30. *)
Definition times : list (Z * Z) :=
  h ← seqZ 6 13; m ← [0; 30]; [ (h, m) ].

Definition sideOf (onFloor : list Shift) : Side :=
  {| count := length onFloor;
     employees := (λ s, (s_employee s, s_position s)) <$> onFloor |}.

(** [Math.max(...xs)] and [Math.min(...xs)] on a non-empty array, after
    the test [xs.length ? ... : 0]. *)
Definition peakOf (xs : list nat) : nat :=
  match xs with
  | [] => 0%nat
  | x :: xs' => foldr Nat.max x xs'
  end.
Definition leastOf (xs : list nat) : nat :=
  match xs with
  | [] => 0%nat
  | x :: xs' => foldr Nat.min x xs'
  end.

Section Floor.
Context (P : Platform) (S : Sling).

(** [timeDate]: the day of [start] in the local zone, at [h:m]. *)
Definition timeDateOf (start : Instant) (t : Z * Z) : Instant :=
  fromWall P (toDateString P start * MS_DAY + t.1 * 3600000 + t.2 * 60000).

Definition onFloor (shifts : list Shift) (place : string) (timeDate : Instant)
  : list Shift :=
  filter (λ s, locationIncludes s place = true ∧
               s_start s ≤ timeDate ∧ timeDate < s_end s) shifts.

(** One turn of the inner loop; [None] when nothing is pushed. *)
Definition slotOf (shifts : list Shift) (start : Instant) (t : Z * Z)
  : option Slot :=
  let timeDate := timeDateOf start t in
  let clementOnFloor := onFloor shifts "Clement" timeDate in
  let ninthOnFloor := onFloor shifts "9th" timeDate in
  if bool_decide (0 < length clementOnFloor)%nat ||
     bool_decide (0 < length ninthOnFloor)%nat
  then Some {| time := t; clement := sideOf clementOnFloor;
               ninthSt := sideOf ninthOnFloor |}
  else None.

Definition short (side : Side) (least : nat) : bool :=
  bool_decide (0 < count side)%nat && bool_decide (count side < least)%nat.

Definition warningOf (clementMin ninthMin : nat) (h : Slot) : Warning :=
  {| w_time := time h;
     issue :=
       if short (clement h) clementMin
       then ClementStaff (count (clement h)) clementMin
       else NinthStaff (count (ninthSt h)) ninthMin |}.

Definition reportOf (range : DayRange) (shifts : list Shift) : Report :=
  let hours := omap (slotOf shifts (dr_start range)) times in
  let clementMin :=
    if isWeekend range then COVERAGE_MINS_CLEMENT_WEEKEND
    else COVERAGE_MINS_CLEMENT_WEEKDAY in
  let ninthMin :=
    if isWeekend range then COVERAGE_MINS_NINTH_WEEKEND
    else COVERAGE_MINS_NINTH_WEEKDAY in
  let warnings :=
    warningOf clementMin ninthMin <$>
    filter (λ h, short (clement h) clementMin || short (ninthSt h) ninthMin = true)
           hours in
  let cc :=
    (λ h, count (clement h)) <$> filter (λ h, (0 < count (clement h))%nat) hours in
  let nc :=
    (λ h, count (ninthSt h)) <$> filter (λ h, (0 < count (ninthSt h))%nat) hours in
  {| r_isWeekend := isWeekend range;
     coverage := hours;
     warnings := warnings;
     summary :=
       {| clementPeak := peakOf cc; clementMin := leastOf cc;
          ninthStPeak := peakOf nc; warningCount := length warnings |} |}.

(** The handler; [None] is the 500 of a date that cannot be read. *)
Definition report (date : string) : option Report :=
  (λ range,
     reportOf range (shifts (getOrgCalendar S (dr_start range) (dr_end range))))
  <$> getDayRange P date.

End Floor.
End Floor.

(** *** GET /conflicts *)
Module Conflicts.

Inductive Kind :=
  | LEAVE_CONFLICT
  | AVAILABILITY_CONFLICT
  | CROSS_LOCATION_CONFLICT.

Global Instance Kind_eq_dec : EqDecision Kind.
Proof. solve_decision. Defined.

Record Conflict := {
  type : Kind;
  c_severity : Severity;
  employee : string;
  employeeId : Z;
  date : Z;
}.

Record Report := {
  days : Z;
  conflictCount : nat;
  conflicts : list Conflict;
}.

(** The string [`${c.type}-${c.employeeId}-${c.date}`], as the three
    values it is built from. *)
Definition keyOf (c : Conflict) : Kind * Z * Z := (type c, employeeId c, date c).

(** [conflicts.filter] with the [seen] set: the first conflict of each key
    stays. *)
Fixpoint uniqueFrom (seen : list (Kind * Z * Z)) (conflicts : list Conflict)
  : list Conflict :=
  match conflicts with
  | [] => []
  | c :: rest =>
      if decide (keyOf c ∈ seen) then uniqueFrom seen rest
      else c :: uniqueFrom (keyOf c :: seen) rest
  end.

Definition unique (conflicts : list Conflict) : list Conflict :=
  uniqueFrom [] conflicts.

(** [xs.sort((a, b) => a.date.localeCompare(b.date))] on ISO dates. *)
Definition byDate (a b : Conflict) : Qc := Qc_of_Z (date a - date b).

Section Conflicts.
Context (P : Platform) (S : Sling).

(** The loop [for (d = s; d <= e; d.setDate(d.getDate() + 1))], giving the
    days [d] stands on. The loop has no bound of its own; [None] is a loop
    of more than [fuel] turns. *)
Fixpoint leaveDaysFrom (fuel : nat) (d e : Instant) : option (list Z) :=
  match fuel with
  | O => None
  | Datatypes.S fuel' =>
      if d <=? e
      then cons (toDateString P d) <$> leaveDaysFrom fuel' (addDays P d 1) e
      else Some []
  end.

(** A turn of the loop moves [d] by a calendar day, which is never less
    than an hour: the hours of the leave bound the turns. *)
Definition leaveDays (l : Leave) : option (list Z) :=
  leaveDaysFrom (Datatypes.S (Z.to_nat ((l_end l - l_start l) `div` 3600000 + 1)))
                (l_start l) (l_end l).

(** The keys [`${id}-${day}`] are the pairs they are built from. *)
Definition leaveByUserDateOf (leaves : list Leave)
  : option (gmap (option Z * Z) Leave) :=
  foldl (λ acc l,
           m ← acc;
           ds ← leaveDays l;
           Some (foldl (λ m d, <[(l_employeeId l, d) := l]> m) m ds))
        (Some ∅) leaves.

Definition availByUserDateOf (availability : list Availability)
  : gmap (option Z * Z) (list Availability) :=
  foldl (λ m a,
           let key := (a_employeeId a, toDateString P (a_start a)) in
           <[key := default [] (m !! key) ++ [a]]> m)
        ∅ availability.

(** [shifts.filter((s) => s.employeeId)] *)
Definition assignedOf (shifts : list Shift) : list Shift :=
  filter (λ s, is_Some (truthyId (s_employeeId s))) shifts.

(** One turn of [assignedShifts.forEach], for a shift of employee [uid]. *)
Definition conflictsOf (leaveByUserDate : gmap (option Z * Z) Leave)
    (availByUserDate : gmap (option Z * Z) (list Availability))
    (assignedShifts : list Shift) (shift : Shift) (uid : Z) : list Conflict :=
  let shiftDateStr := toDateString P (s_start shift) in
  let shiftDate := toISODatePT P (s_start shift) in
  let conflict (k : Kind) :=
    {| type := k; c_severity := RED; employee := s_employee shift;
       employeeId := uid; date := shiftDate |} in
  (if leaveByUserDate !! (Some uid, shiftDateStr) is Some _
   then [conflict LEAVE_CONFLICT] else []) ++
  (match availByUserDate !! (Some uid, shiftDateStr) with
   | Some avails =>
       if bool_decide (0 < length avails)%nat && negb (existsb a_fullDay avails)
       then
         let fits :=
           existsb (λ a, bool_decide (a_start a ≤ s_start shift) &&
                         bool_decide (s_end shift ≤ a_end a)) avails in
         if negb fits then [conflict AVAILABILITY_CONFLICT] else []
       else []
   | None => []
   end) ++
  (if decide (uid ∈ CROSS_LOCATION_POOL) then
     let sameDay :=
       filter (λ s, s_employeeId s = Some uid ∧
                    toDateString P (s_start s) = shiftDateStr ∧
                    s_locationId s ≠ s_locationId shift ∧
                    is_Some (truthyId (s_locationId s)) ∧
                    is_Some (truthyId (s_locationId shift)))
              assignedShifts in
     if bool_decide (0 < length sameDay)%nat &&
        bool_decide (s_locationId shift = Some LOCATIONS_CLEMENT)
     then [conflict CROSS_LOCATION_CONFLICT] else []
   else []).

(** The conflicts pushed over all assigned shifts, in their order. *)
Definition allConflicts (cal : OrgCalendar) : option (list Conflict) :=
  leaveByUserDate ← leaveByUserDateOf (leaves cal);
  let availByUserDate := availByUserDateOf (availability cal) in
  let assignedShifts := assignedOf (shifts cal) in
  Some (shift ← assignedShifts;
        from_option
          (conflictsOf leaveByUserDate availByUserDate assignedShifts shift)
          [] (s_employeeId shift)).

(** The handler; [daysParam] is [parseInt(req.query.days, 10)]. [None]: a
    loop over the days of a leave did not finish. *)
Definition report (daysParam : option Z) : option Report :=
  let days := if Js.falsyNum daysParam then 7 else default 7 daysParam in
  let now := Date_now P in
  let endDate := endOfDay P (addDays P now days) in
  found ← allConflicts (getOrgCalendar S now endDate);
  let unique := unique found in
  Some {| days := days;
          conflictCount := length unique;
          conflicts := Js.sort byDate unique |}.

End Conflicts.
End Conflicts.

(** ** A deployment and a week of February 2025, for the examples *)
Module Example.

Definition HOUR : Z := 3600000.

(** Midnight UTC of a civil day, plus hours and minutes. *)
Definition at_ (day h m : Z) : Instant := day * MS_DAY + h * HOUR + m * 60000.

(** Saturday 15 February 2025; the Monday before is day 20129. *)
Definition sat : Z := 20134.

Definition isDigits (s : string) : bool :=
  forallb (λ c, bool_decide (is_Some (Ascii.is_nat c))) (list_ascii_of_string s).

(** A process running on UTC, Pacific time at UTC-8, and the answers of
    [new Date] and [isNaN] on the strings used below. *)
Definition utc : Platform :=
  {| Date_now := at_ sat 20 0;
     tzOffset := λ _, 0;
     ptOffset := λ _, -8 * HOUR;
     fromWall := λ w, w;
     Date_parse := λ s, if String.eqb s "2025-02-15" then Some (at_ sat 0 0) else None;
     isNaN := λ s, negb (isDigits s) |}.

Definition JESUS : Z := 16159503.
Definition SARA : Z := 24949126.
Definition EMILY : Z := 24605713.
Definition BRIANNA : Z := 21868029.
Definition BARISTA : Z := 501.

Definition event (type : string) (id user : Z) (loc : Z) (t1 t2 : Instant)
    (fullDay : bool) : Event :=
  {| ev_type := type; ev_id := id; ev_user := Some user;
     ev_position := Some BARISTA; ev_location := Some loc;
     dtstart := t1; dtend := t2; ev_status := "published";
     ev_fullDay := fullDay; ev_summary := ""; ev_approved := false |}.

Definition staff : list User :=
  [ {| u_id := JESUS; u_name := "Jesus"; u_lname := "" |};
    {| u_id := SARA; u_name := "Sara"; u_lname := "" |};
    {| u_id := EMILY; u_name := "Emily"; u_lname := "" |};
    {| u_id := BRIANNA; u_name := "Brianna"; u_lname := "" |} ].

Definition places : list Group :=
  [ {| g_id := LOCATIONS_CLEMENT; g_type := "location"; g_name := "Clement Pixlcat" |};
    {| g_id := LOCATIONS_NINTH; g_type := "location"; g_name := "9th st Pixlcat" |};
    {| g_id := BARISTA; g_type := "position"; g_name := "Barista" |} ].

(** A service that holds [events] and answers a range with the entries
    that start in it. *)
Definition sling (events : list Event) : Sling :=
  {| calendar := λ t1 t2, filter (λ e, t1 ≤ dtstart e ∧ dtstart e ≤ t2) events;
     users := staff;
     groups := places |}.

(** A shift of [user] at Clement on [day], Pacific hours [h1] to [h2]. *)
Definition shiftOn (user day h1 h2 : Z) : Event :=
  event "shift" day user LOCATIONS_CLEMENT (at_ day (h1 + 8) 0) (at_ day (h2 + 8) 0) false.

(** Jesus works 7am to 1pm, Monday 10 to Friday 14 February. *)
Definition monToFri : list Event :=
  (λ d, shiftOn JESUS d 7 13) <$> seqZ (sat - 5) 5.

Definition request (user : Z) (t1 t2 : option HM) : Request :=
  {| employeeId := Js.Num user; employee := Js.Undefined;
     date := Some "2025-02-15"%string; startTime := t1; endTime := t2;
     location := Js.Undefined |}.

Definition hm (h m : Z) : option HM := Some {| hm_h := h; hm_m := Some m |}.


(** The Saturday shift of Jesus, 7am to 1pm, is to be covered. Sara has
    worked Monday and Tuesday, Emily Monday; Brianna works that Saturday
    from 8am to noon. *)
Definition toCover : list Event :=
  [ shiftOn JESUS sat 7 13;
    shiftOn SARA (sat - 5) 7 13; shiftOn SARA (sat - 4) 7 13;
    shiftOn EMILY (sat - 5) 7 13;
    shiftOn BRIANNA sat 8 12 ].





(** Jesus works 7am to 2pm, Monday to Friday: 35 hours. *)
Definition thirtyFive : list Event :=
  (λ d, shiftOn JESUS d 7 14) <$> seqZ (sat - 5) 5.


(** A request that names its employee. *)
Definition named (name : string) : Request :=
  {| employeeId := Js.Undefined; employee := Js.Str name;
     date := Some "2025-02-15"%string; startTime := hm 9 0; endTime := hm 13 0;
     location := Js.Undefined |}.

(** A request for Jesus with another date field. *)
Definition dated (d : option string) : Request :=
  {| employeeId := Js.Num JESUS; employee := Js.Undefined;
     date := d; startTime := hm 9 0; endTime := hm 13 0;
     location := Js.Undefined |}.

(** Jesus for Saturday, 9am to 1pm. *)
Definition satRequest : Request := request JESUS (hm 9 0) (hm 13 0).

(** Monday 17 February: Sara is on leave for the Pacific day and yet has
    two shifts at Clement, 7am to 1pm and 2pm to 4pm, and one at 9th
    street, 2pm to 6pm. *)
Definition doubleBooked : list Event :=
  [ shiftOn SARA (sat + 2) 7 13;
    event "shift" 11 SARA LOCATIONS_NINTH (at_ (sat + 2) 22 0) (at_ (sat + 2) 26 0) false;
    event "leave" 12 SARA LOCATIONS_CLEMENT (at_ (sat + 2) 8 0) (at_ (sat + 3) 8 0 - 1) true;
    shiftOn SARA (sat + 2) 14 16 ].

(** The first two of these shifts as [getOrgCalendar] returns them. *)
Definition saraClement : Shift :=
  {| s_id := sat + 2; s_employee := "Sara"; s_employeeId := Some SARA;
     s_position := Some "Barista"%string;
     s_location := Some "Clement Pixlcat"%string;
     s_locationId := Some LOCATIONS_CLEMENT;
     s_start := at_ (sat + 2) 15 0; s_end := at_ (sat + 2) 21 0;
     s_duration := hoursBetween (at_ (sat + 2) 15 0) (at_ (sat + 2) 21 0);
     s_published := true |}.
Definition saraNinth : Shift :=
  {| s_id := 11; s_employee := "Sara"; s_employeeId := Some SARA;
     s_position := Some "Barista"%string;
     s_location := Some "9th st Pixlcat"%string;
     s_locationId := Some LOCATIONS_NINTH;
     s_start := at_ (sat + 2) 22 0; s_end := at_ (sat + 2) 26 0;
     s_duration := hoursBetween (at_ (sat + 2) 22 0) (at_ (sat + 2) 26 0);
     s_published := true |}.

(** What [getDayRange] makes of ["2025-02-15"] on [utc]: the Pacific day. *)
Definition satRange : DayRange :=
  {| dr_start := at_ sat 8 0; dr_end := at_ (sat + 1) 8 0 - 1;
     isoDate := sat; dayOfWeek := 6 |}.

End Example.

(** ** Tactics for the examples *)

(** Evaluation of a decidable statement about the example data. *)
Ltac evaluate := apply (bool_decide_unpack _); vm_compute; exact I.

(** The input checks on a concrete request. *)
Ltac accept :=
  split; [vm_compute; reflexivity|]; split; [done|]; eexists;
  split; [reflexivity|]; split; [done|]; vm_compute; reflexivity.

(** The premises about the days around the target, on concrete data. *)
Ltac week_premises :=
  repeat match goal with
    | |- _ ∧ _ => split
    | |- accepted _ _ _ _ => accept
    | |- ∀ k : Z, _ ≤ k ≤ _ → worksOn _ _ _ _ k =>
        let k := fresh "k" in
        let Hk := fresh "Hk" in
        intros k Hk;
        assert (k = -5 ∨ k = -4 ∨ k = -3 ∨ k = -2 ∨ k = -1) as [->|[->|[->|[->| ->]]]] by lia;
        evaluate
    | |- ¬ worksOn _ _ _ _ _ => evaluate
    | |- ∀ x, x ∈ _ → _ ≠ _ => apply Forall_forall; evaluate
    end.

(** * Properties *)

(** ** The streak walk *)
Section WalkFacts.
Implicit Types (workDates X : gset Z) (step d streak : Z).

(** A walk over days that are all in [X] ends within [size X] steps. *)
Lemma walk_finishes fuel X workDates step d streak :
  step ≠ 0 →
  (∀ k, 0 < k → d + k * step ∈ workDates → d + k * step ∈ X) →
  (size X < fuel)%nat →
  is_Some (walk fuel workDates step d streak).
Proof.
  revert X d streak.
  induction fuel as [|fuel IH]; intros X d streak Hstep HX Hsize; [lia|].
  simpl. destruct (decide (d + step ∈ workDates)) as [Hin|]; [|by eexists].
  assert (d + step ∈ X) as HinX.
  { specialize (HX 1). rewrite Z.mul_1_l in HX. apply HX; [lia|done]. }
  apply (IH (X ∖ {[d + step]})); [done| |].
  - intros k Hk Hk'.
    replace (d + step + k * step) with (d + (k + 1) * step) in * by lia.
    apply elem_of_difference. split; [apply HX; [lia|done]|].
    rewrite elem_of_singleton. nia.
  - assert (size X ≠ 0)%nat by (intros ?%size_empty_inv; set_solver).
    rewrite size_difference by set_solver. rewrite size_singleton. lia.
Qed.

(** What a finished walk returns: the length [n] of the run of work dates
    next to [d] in the direction of [step]. *)
Lemma walk_run fuel workDates step d streak r :
  walk fuel workDates step d streak = Some r →
  ∃ n, 0 ≤ n ∧ r = streak + n ∧
       (∀ k, 1 ≤ k ≤ n → d + k * step ∈ workDates) ∧
       d + (n + 1) * step ∉ workDates.
Proof.
  revert d streak. induction fuel as [|fuel IH]; intros d streak; [done|].
  simpl. destruct (decide (d + step ∈ workDates)) as [Hin|Hout].
  - intros (n & Hn & -> & Hall & Hstop)%IH. exists (n + 1).
    split; [lia|]. split; [lia|]. split.
    + intros k Hk. destruct (decide (k = 1)) as [->|]; [by rewrite Z.mul_1_l|].
      replace (d + k * step) with (d + step + (k - 1) * step) by lia.
      apply Hall. lia.
    + by replace (d + (n + 1 + 1) * step) with (d + step + (n + 1) * step) by lia.
  - intros [= <-]. exists 0. split; [done|]. split; [lia|]. split; [lia|].
    by rewrite Z.add_0_l, Z.mul_1_l.
Qed.

(** The run next to [d] has one length only. *)
Lemma run_unique workDates step d n m :
  0 ≤ n → 0 ≤ m →
  (∀ k, 1 ≤ k ≤ n → d + k * step ∈ workDates) → d + (n + 1) * step ∉ workDates →
  (∀ k, 1 ≤ k ≤ m → d + k * step ∈ workDates) → d + (m + 1) * step ∉ workDates →
  n = m.
Proof.
  intros Hn Hm Hall1 Hstop1 Hall2 Hstop2.
  destruct (Z.lt_trichotomy n m) as [?|[?|?]]; [|done|].
  - destruct Hstop1. apply Hall2. lia.
  - destruct Hstop2. apply Hall1. lia.
Qed.
End WalkFacts.

(** ** The handler's frame: input checks, totality, status *)
Section ValidateFacts.
Context (P : Platform) (S : Sling).

Lemma streakOf_total workDates start : is_Some (streakOf P workDates start).
Proof.
  unfold streakOf.
  destruct (walk_finishes (Datatypes.S (size workDates)) workDates workDates
              (-1) (toDateString P start) 1) as [back Hback]; [done|done|lia|].
  rewrite Hback. cbn [mbind option_bind].
  apply (walk_finishes _ workDates); [done|done|lia].
Qed.

(** The streak is one more than the two runs of work dates next to the
    target day. *)
Lemma streakOf_runs workDates start (before after : Z) :
  0 ≤ before → 0 ≤ after →
  (∀ k, 1 ≤ k ≤ before → toDateString P start - k ∈ workDates) →
  toDateString P start - (before + 1) ∉ workDates →
  (∀ k, 1 ≤ k ≤ after → toDateString P start + k ∈ workDates) →
  toDateString P start + (after + 1) ∉ workDates →
  streakOf P workDates start = Some (1 + before + after).
Proof.
  intros Hb Ha Hbefore Hstop1 Hafter Hstop2.
  destruct (streakOf_total workDates start) as [r Hr]. rewrite Hr.
  unfold streakOf in Hr.
  destruct (walk _ _ (-1) _ _) as [back|] eqn:Hback; [|done].
  cbn [mbind option_bind] in Hr.
  apply walk_run in Hback as (n & Hn & -> & Hall1 & Hend1).
  apply walk_run in Hr as (m & Hm & -> & Hall2 & Hend2).
  assert (n = before) as ->.
  { apply (run_unique workDates (-1) (toDateString P start)); try done.
    - intros k Hk. replace (toDateString P start + k * -1)
        with (toDateString P start - k) by lia. by apply Hbefore.
    - by replace (toDateString P start + (before + 1) * -1)
        with (toDateString P start - (before + 1)) by lia. }
  assert (m = after) as ->.
  { apply (run_unique workDates 1 (toDateString P start)); try done.
    - intros k Hk. rewrite Z.mul_1_r. by apply Hafter.
    - by rewrite Z.mul_1_r. }
  done.
Qed.

Lemma runGates_total userId range req : is_Some (runGates P S userId range req).
Proof.
  unfold runGates. destruct (gate1 _ _ _ _ _) as [violations1 warnings1].
  destruct (streakOf_total
              (workDatesOf P userId (dr_start range) (streakShiftsOf P S range))
              (dr_start range)) as [streak ->].
  by eexists.
Qed.

Lemma validate_accepted req userId range :
  accepted P req userId range →
  validate P S req = Ok <$> runGates P S userId range req.
Proof.
  intros (Huser & Hnz & d & Hdate & Hd & Hrange). unfold validate.
  rewrite Huser. apply Z.eqb_neq in Hnz as ->. rewrite Hdate.
  apply String.eqb_neq in Hd as ->. by rewrite Hrange.
Qed.

Lemma resolveStatus_priority vs ws :
  ((∃ x, x ∈ vs ∧ severity x = RED) → resolveStatus vs ws = BLOCKED) ∧
  ((∀ x, x ∈ vs → severity x ≠ RED) →
   (∃ x, x ∈ vs ∧ severity x = ORANGE) → resolveStatus vs ws = NEEDS_APPROVAL) ∧
  ((∀ x, x ∈ vs → severity x ≠ RED ∧ severity x ≠ ORANGE) →
   ws ≠ [] → resolveStatus vs ws = UNCONFIRMED) ∧
  ((∀ x, x ∈ vs → severity x ≠ RED ∧ severity x ≠ ORANGE) →
   ws = [] → resolveStatus vs ws = APPROVED).
Proof.
  assert (∀ sev, (0 < length (filter (λ v, severity v = sev) vs))%nat ↔
                 ∃ x, x ∈ vs ∧ severity x = sev) as Hlen.
  { intros sev. split.
    - destruct (filter _ vs) as [|x l] eqn:Hf; simpl; [lia|]. intros _.
      assert (x ∈ filter (λ v, severity v = sev) vs) as Hx by (rewrite Hf; left).
      apply list_elem_of_filter in Hx as [??]. by exists x.
    - intros (x & Hx & Hsev).
      assert (x ∈ filter (λ v, severity v = sev) vs) as Hx'
        by (apply list_elem_of_filter; done).
      destruct (filter _ vs); [by apply elem_of_nil in Hx'|simpl; lia]. }
  assert (∀ sev, (∀ x, x ∈ vs → severity x ≠ sev) →
                 ¬ (0 < length (filter (λ v, severity v = sev) vs))%nat) as Hnot.
  { intros sev Hno (x & Hx & Hsev)%Hlen. by apply (Hno x). }
  unfold resolveStatus. repeat split.
  - intros Hred%Hlen. by rewrite decide_True.
  - intros Hnored Horange%Hlen. rewrite decide_False by by apply Hnot.
    by rewrite decide_True.
  - intros Hnone Hws.
    rewrite !decide_False by (apply Hnot; intros x Hx; by apply Hnone).
    rewrite decide_True; [done|]. destruct ws; [done|simpl; lia].
  - intros Hnone ->.
    rewrite !decide_False by (apply Hnot; intros x Hx; by apply Hnone).
    by rewrite decide_False by (simpl; lia).
Qed.

(** The verdict of an accepted request, gate by gate. *)
Lemma validate_verdict req userId range :
  accepted P req userId range →
  ∃ v streak,
    validate P S req = Some (Ok v) ∧
    streakOf P (workDatesOf P userId (dr_start range) (streakShiftsOf P S range))
             (dr_start range) = Some streak ∧
    let day := dayCalendar S range in
    let g1 := gate1 P userId (leaves day) (availability day)
                    (startTime req) (endTime req) in
    let weekly := weeklyHoursOf userId (weekShiftsOf P S range) in
    let projected := (weekly + proposedHoursOf (startTime req) (endTime req))%Qc in
    violations v =
      g1.1 ++ gate2 userId (targetLocIdOf (location req)) (shifts day) ++
      gate3 weekly projected ++ gate4 streak ∧
    warnings v = g1.2 ∧
    status v = resolveStatus (violations v) (warnings v) ∧
    weeklyHours v = round2 weekly ∧
    projectedHours v = round2 projected ∧
    consecutiveDays v = streak.
Proof.
  intros Hacc. rewrite (validate_accepted _ _ _ Hacc). unfold runGates.
  destruct (gate1 _ _ _ _ _) as [violations1 warnings1] eqn:Hg1.
  destruct (streakOf_total
              (workDatesOf P userId (dr_start range) (streakShiftsOf P S range))
              (dr_start range)) as [streak Hstreak].
  rewrite Hstreak. cbn [mbind option_bind fmap option_fmap option_map].
  eexists _, streak. split; [done|]. split; [done|].
  cbn [violations warnings status weeklyHours projectedHours consecutiveDays].
  done.
Qed.

End ValidateFacts.

(** C1. For every call of Validate that passes the input checks there is a
    verdict, and its status follows the priority: a RED violation gives
    BLOCKED; otherwise an ORANGE violation gives NEEDS_APPROVAL; otherwise a
    warning gives UNCONFIRMED; otherwise the status is APPROVED. *)
Theorem validate_status_priority (P : Platform) (S : Sling) (req : Request)
    (userId : Z) (range : DayRange) :
  accepted P req userId range →
  ∃ v, validate P S req = Some (Ok v) ∧
    ((∃ x, x ∈ violations v ∧ severity x = RED) → status v = BLOCKED) ∧
    ((∀ x, x ∈ violations v → severity x ≠ RED) →
     (∃ x, x ∈ violations v ∧ severity x = ORANGE) → status v = NEEDS_APPROVAL) ∧
    ((∀ x, x ∈ violations v → severity x ≠ RED ∧ severity x ≠ ORANGE) →
     warnings v ≠ [] → status v = UNCONFIRMED) ∧
    ((∀ x, x ∈ violations v → severity x ≠ RED ∧ severity x ≠ ORANGE) →
     warnings v = [] → status v = APPROVED).
Proof.
  intros Hacc.
  destruct (validate_verdict P S req userId range Hacc)
    as (v & streak & Hv & _ & _ & _ & Hstatus & _).
  exists v. split; [done|]. rewrite Hstatus. apply resolveStatus_priority.
Qed.

Lemma validate_status_priority_witness :
  accepted Example.utc Example.satRequest Example.JESUS Example.satRange ∧
  ∃ v, validate Example.utc (Example.sling Example.monToFri) Example.satRequest
       = Some (Ok v) ∧
       status v = NEEDS_APPROVAL.
Proof.
  assert (accepted Example.utc Example.satRequest Example.JESUS Example.satRange)
    as Hacc.
  { split; [reflexivity|]. split; [done|]. eexists. split; [reflexivity|].
    split; [done|]. vm_compute. reflexivity. }
  split; [exact Hacc|].
  destruct (validate_status_priority Example.utc (Example.sling Example.monToFri)
              _ _ _ Hacc) as (v & Hv & _ & Horange & _).
  exists v. split; [exact Hv|].
  vm_compute in Hv. injection Hv as <-. apply Horange.
  - intros x ->%list_elem_of_singleton. discriminate.
  - eexists. split; [apply list_elem_of_singleton; reflexivity|reflexivity].
Defined.

(** ** The four gates *)
Section GateFacts.
Context (P : Platform).

Lemma filter_none {A} (Q : A → Prop) `{∀ x, Decision (Q x)} (l : list A) :
  (∀ x, x ∈ l → ¬ Q x) → filter Q l = [].
Proof.
  intros Hno. destruct (filter Q l) as [|x l'] eqn:Hf; [done|].
  assert (x ∈ filter Q l) as [HQ Hx]%list_elem_of_filter by (rewrite Hf; left).
  by destruct (Hno x).
Qed.

Lemma find_none {A} (Q : A → Prop) `{∀ x, Decision (Q x)} (l : list A) :
  (∀ x, x ∈ l → ¬ Q x) → list_find Q l = None.
Proof. intros Hno. apply list_find_None, Forall_forall. exact Hno. Qed.

(** Gate 1 raises LEAVE-001 and AVAIL-001, both RED, and warns with
    AVAIL-FALLBACK only. *)
Lemma gate1_range userId dayLeaves dayAvails st et :
  (∀ x, x ∈ (gate1 P userId dayLeaves dayAvails st et).1 →
        x = flag LEAVE_001 RED ∨ x = flag AVAIL_001 RED) ∧
  (∀ x, x ∈ (gate1 P userId dayLeaves dayAvails st et).2 →
        x = flag AVAIL_FALLBACK YELLOW).
Proof.
  unfold gate1. repeat case_match; simpl; split; intros x Hx;
    repeat (apply elem_of_cons in Hx as [->|Hx] || apply elem_of_app in Hx as [Hx|Hx]);
    auto; by apply elem_of_nil in Hx.
Qed.

(** No availability record and no leave: nothing but the warning. *)
Lemma gate1_unsubmitted userId dayLeaves dayAvails st et :
  (∀ a, a ∈ dayAvails → a_employeeId a ≠ Some userId) →
  (∀ l, l ∈ dayLeaves → l_employeeId l ≠ Some userId) →
  gate1 P userId dayLeaves dayAvails st et = ([], [flag AVAIL_FALLBACK YELLOW]).
Proof.
  intros Havail Hleave. unfold gate1.
  rewrite (filter_none _ dayAvails) by done.
  by rewrite (find_none _ dayLeaves) by done.
Qed.

(** Without both times, gate 1 does not look at the windows. *)
Lemma gate1_unspecified userId dayLeaves dayAvails st et :
  st = None ∨ et = None →
  flag AVAIL_001 RED ∉ (gate1 P userId dayLeaves dayAvails st et).1.
Proof.
  intros Hmiss. unfold gate1.
  destruct (list_find _ dayLeaves), (filter _ dayAvails), st, et;
    simpl; try (by destruct Hmiss);
    intros Hx; repeat (apply elem_of_cons in Hx as [?|Hx]); try done;
    by apply elem_of_nil in Hx.
Qed.

Lemma gate2_range userId targetLocId dayShifts x :
  x ∈ gate2 userId targetLocId dayShifts → x = flag XLOC_001 RED.
Proof.
  unfold gate2. repeat case_match; intros Hx;
    repeat (apply elem_of_cons in Hx as [->|Hx]); auto; by apply elem_of_nil in Hx.
Qed.


Lemma gate2_free userId targetLocId dayShifts :
  (∀ s, s ∈ dayShifts → s_employeeId s ≠ Some userId) →
  gate2 userId targetLocId dayShifts = [].
Proof.
  intros Hfree. unfold gate2. case_decide; [|done].
  rewrite find_none; [done|]. intros s Hs [Hmine _]. by apply (Hfree s).
Qed.

Lemma gate3_range weekly projected x :
  x ∈ gate3 weekly projected →
  rule x = HOURS_001 ∧ severity x = ORANGE ∧ (MAX_WEEKLY_HOURS < projected)%Qc.
Proof.
  unfold gate3. case_decide; [|by intros ?%elem_of_nil].
  by intros ->%list_elem_of_singleton.
Qed.

Lemma gate3_over weekly projected :
  (MAX_WEEKLY_HOURS < projected)%Qc →
  gate3 weekly projected =
    [ {| rule := HOURS_001; severity := ORANGE;
         detail := HoursDetail (round2 weekly) (round2 projected) |} ].
Proof. intros Hover. unfold gate3. by rewrite decide_True. Qed.

Lemma gate4_range streak x :
  x ∈ gate4 streak →
  (rule x = CONSEC_001 ∧ severity x = RED ∧ MAX_CONSECUTIVE_DAYS ≤ streak) ∨
  (rule x = CONSEC_002 ∧ severity x = ORANGE ∧
   WARN_CONSECUTIVE_DAYS ≤ streak < MAX_CONSECUTIVE_DAYS).
Proof.
  unfold gate4.
  destruct (Z.leb_spec MAX_CONSECUTIVE_DAYS streak);
    [|destruct (Z.leb_spec WARN_CONSECUTIVE_DAYS streak)].
  - intros ->%list_elem_of_singleton. by left.
  - intros ->%list_elem_of_singleton. right. simpl.
    unfold MAX_CONSECUTIVE_DAYS, WARN_CONSECUTIVE_DAYS in *.
    repeat split; lia.
  - by intros ?%elem_of_nil.
Qed.

Lemma elem_of_workDatesOf userId start streakShifts d :
  d ∈ workDatesOf P userId start streakShifts ↔
  d = toDateString P start ∨
  Exists (λ s, s_employeeId s = Some userId ∧ toDateString P (s_start s) = d)
         streakShifts.
Proof.
  unfold workDatesOf.
  rewrite elem_of_union, elem_of_singleton, elem_of_list_to_set, list_elem_of_fmap.
  rewrite Exists_exists. split.
  - intros [(s & -> & [Hmine Hs]%list_elem_of_filter) | ->]; [right|by left].
    by exists s.
  - intros [-> | (s & Hs & Hmine & <-)]; [by right|left].
    exists s. split; [done|]. by apply list_elem_of_filter.
Qed.
End GateFacts.

(** C2, as the code has it. An employee with shifts on each of the five days
    before the target day, none on the day before those and none on the day
    after, with no shift, no availability record and no leave on the target
    day itself: Validate reports consecutiveDays = 6; the streak of 6 reaches
    the warn threshold, so CONSEC-002 (ORANGE) is raised and the status is
    NEEDS_APPROVAL; the YELLOW missing-availability warning is the only
    warning, and no violation is RED. (The weekday of the target plays no
    part; Monday to Friday before a Saturday is one instance.) *)
Theorem sixth_day_needs_approval (P : Platform) (S : Sling) (req : Request)
    (userId : Z) (range : DayRange) :
  accepted P req userId range →
  (∀ k, -5 ≤ k ≤ -1 → worksOn P S userId range k) →
  ¬ worksOn P S userId range (-6) →
  ¬ worksOn P S userId range 1 →
  (∀ s, s ∈ shifts (dayCalendar S range) → s_employeeId s ≠ Some userId) →
  (∀ a, a ∈ availability (dayCalendar S range) → a_employeeId a ≠ Some userId) →
  (∀ l, l ∈ leaves (dayCalendar S range) → l_employeeId l ≠ Some userId) →
  ∃ v, validate P S req = Some (Ok v) ∧
       consecutiveDays v = 6 ∧
       {| rule := CONSEC_002; severity := ORANGE; detail := StreakDetail 6 |}
         ∈ violations v ∧
       (∀ x, x ∈ violations v → severity x = ORANGE) ∧
       warnings v = [flag AVAIL_FALLBACK YELLOW] ∧
       status v = NEEDS_APPROVAL.
Proof.
  intros Hacc Hworks Hbefore Hafter Hshifts Havail Hleave.
  destruct (validate_verdict P S req userId range Hacc)
    as (v & streak & Hv & Hstreak & Hviol & Hwarn & Hstatus & _ & _ & Hdays).
  cbv zeta in Hviol.
  rewrite (gate1_unsubmitted P userId) in Hviol, Hwarn by done.
  rewrite gate2_free in Hviol by done. simpl in Hviol, Hwarn.
  rewrite (streakOf_runs P _ _ 5 0) in Hstreak; [|lia|lia|..].
  - injection Hstreak as <-. change (gate4 (1 + 5 + 0)) with
      [ {| rule := CONSEC_002; severity := ORANGE; detail := StreakDetail 6 |} ]
      in Hviol.
    assert (∀ x, x ∈ violations v → severity x = ORANGE) as Horange.
    { intros x. rewrite Hviol. intros [Hx| ->%list_elem_of_singleton]%elem_of_app; [|done].
      by apply gate3_range in Hx as (_ & ? & _). }
    exists v. split; [done|]. split; [done|]. split.
    { rewrite Hviol. apply elem_of_app. right. by left. }
    split; [done|]. split; [done|].
    rewrite Hstatus. apply resolveStatus_priority.
    + intros x Hx. by rewrite (Horange x Hx).
    + eexists. split; [rewrite Hviol; apply elem_of_app; right; by left|done].
  - intros k Hk. apply elem_of_workDatesOf. right.
    specialize (Hworks (- k)). unfold worksOn in Hworks.
    replace (toDateString P (dr_start range) - k)
      with (toDateString P (dr_start range) + - k) by lia.
    apply Hworks. lia.
  - intros [?|Hin]%elem_of_workDatesOf; [lia|]. apply Hbefore. unfold worksOn.
    by replace (toDateString P (dr_start range) + -6)
      with (toDateString P (dr_start range) - (5 + 1)) by lia.
  - intros k Hk. lia.
  - intros [?|Hin]%elem_of_workDatesOf; [lia|]. by apply Hafter.
Qed.

Lemma sixth_day_needs_approval_witness :
  (accepted Example.utc Example.satRequest Example.JESUS Example.satRange ∧
   (∀ k, -5 ≤ k ≤ -1 →
         worksOn Example.utc (Example.sling Example.monToFri) Example.JESUS
                 Example.satRange k) ∧
   ¬ worksOn Example.utc (Example.sling Example.monToFri) Example.JESUS
             Example.satRange (-6) ∧
   ¬ worksOn Example.utc (Example.sling Example.monToFri) Example.JESUS
             Example.satRange 1 ∧
   (∀ s, s ∈ shifts (dayCalendar (Example.sling Example.monToFri) Example.satRange) →
         s_employeeId s ≠ Some Example.JESUS) ∧
   (∀ a, a ∈ availability (dayCalendar (Example.sling Example.monToFri) Example.satRange) →
         a_employeeId a ≠ Some Example.JESUS) ∧
   (∀ l, l ∈ leaves (dayCalendar (Example.sling Example.monToFri) Example.satRange) →
         l_employeeId l ≠ Some Example.JESUS)) ∧
  ∃ v, validate Example.utc (Example.sling Example.monToFri) Example.satRequest
       = Some (Ok v) ∧
       consecutiveDays v = 6 ∧ status v = NEEDS_APPROVAL.
Proof.
  split; [week_premises|].
  destruct (sixth_day_needs_approval Example.utc (Example.sling Example.monToFri)
              Example.satRequest Example.JESUS Example.satRange)
    as (v & Hv & Hdays & _ & _ & _ & Hstatus); [week_premises..|].
  exists v. split; [exact Hv|]. split; [exact Hdays|exact Hstatus].
Defined.

(** C2, as stated, fails: Jesus works Monday 10 to Friday 14 February 2025
    and nothing else, has no availability record and no leave for Saturday
    15; Validate for that Saturday counts 6 consecutive days, and the status
    is NEEDS_APPROVAL, not UNCONFIRMED. *)
Lemma sixth_day_not_unconfirmed :
  (∀ k, -5 ≤ k ≤ -1 →
        worksOn Example.utc (Example.sling Example.monToFri) Example.JESUS
                Example.satRange k) ∧
  ¬ worksOn Example.utc (Example.sling Example.monToFri) Example.JESUS
            Example.satRange (-6) ∧
  ¬ worksOn Example.utc (Example.sling Example.monToFri) Example.JESUS
            Example.satRange 1 ∧
  availability (dayCalendar (Example.sling Example.monToFri) Example.satRange) = [] ∧
  leaves (dayCalendar (Example.sling Example.monToFri) Example.satRange) = [] ∧
  ∃ v, validate Example.utc (Example.sling Example.monToFri) Example.satRequest
       = Some (Ok v) ∧
       consecutiveDays v = 6 ∧
       rule <$> violations v = [CONSEC_002] ∧
       rule <$> warnings v = [AVAIL_FALLBACK] ∧
       status v = NEEDS_APPROVAL ∧
       status v ≠ UNCONFIRMED.
Proof.
  split; [week_premises|]. split; [week_premises|]. split; [week_premises|].
  split; [vm_compute; reflexivity|]. split; [vm_compute; reflexivity|].
  eexists. split; [vm_compute; reflexivity|]. by repeat split.
Qed.

(** C10. A request that passes the employee and date checks but lacks
    startTime or endTime: the availability-fit check of gate 1 is skipped, so
    AVAIL-001 is not raised; the proposed shift counts for 0 hours, so the
    reported projectedHours is the reported weeklyHours and HOURS-001 is
    raised exactly when the week's own total exceeds the cap. *)
Theorem unspecified_window_skips_fit (P : Platform) (S : Sling) (req : Request)
    (userId : Z) (range : DayRange) :
  accepted P req userId range →
  startTime req = None ∨ endTime req = None →
  ∃ v, validate P S req = Some (Ok v) ∧
       (∀ x, x ∈ violations v → rule x ≠ AVAIL_001) ∧
       projectedHours v = weeklyHours v ∧
       ((∃ x, x ∈ violations v ∧ rule x = HOURS_001) ↔
        (MAX_WEEKLY_HOURS < weeklyHoursOf userId (weekShiftsOf P S range))%Qc).
Proof.
  intros Hacc Hmiss.
  destruct (validate_verdict P S req userId range Hacc)
    as (v & streak & Hv & _ & Hviol & _ & _ & Hweekly & Hprojected & _).
  cbv zeta in Hviol.
  assert (proposedHoursOf (startTime req) (endTime req) = 0%Qc) as Hzero.
  { unfold proposedHoursOf. destruct Hmiss as [-> | ->]; [done|by case_match]. }
  rewrite Hzero, Qcplus_0_r in Hviol, Hprojected.
  exists v. split; [done|]. split; [|split; [congruence|]].
  - intros x. rewrite Hviol, !elem_of_app.
    intros [Hx|[Hx|[Hx|Hx]]].
    + pose proof (gate1_unspecified P userId (leaves (dayCalendar S range))
                    (availability (dayCalendar S range)) _ _ Hmiss) as Hnot.
      pose proof Hx as [->| ->]%gate1_range; [done|]. by destruct Hnot.
    + by apply gate2_range in Hx as ->.
    + apply gate3_range in Hx as (-> & _). done.
    + apply gate4_range in Hx as [(-> & _)|(-> & _)]; done.
  - split.
    + intros (x & Hx & Hrule). revert Hx. rewrite Hviol, !elem_of_app.
      intros [Hx|[Hx|[Hx|Hx]]].
      * apply gate1_range in Hx as [->| ->]; discriminate.
      * apply gate2_range in Hx as ->. discriminate.
      * by apply gate3_range in Hx as (_ & _ & ?).
      * apply gate4_range in Hx as [(Hr & _)|(Hr & _)]; congruence.
    + intros Hover. eexists. split; [|shelve].
      rewrite Hviol, (gate3_over _ _ Hover), !elem_of_app. right. right. left. by left.
      Unshelve. done.
Qed.

Lemma unspecified_window_skips_fit_witness :
  (accepted Example.utc (Example.request Example.JESUS None (Example.hm 13 0))
            Example.JESUS Example.satRange ∧
   (startTime (Example.request Example.JESUS None (Example.hm 13 0)) = None ∨
    endTime (Example.request Example.JESUS None (Example.hm 13 0)) = None)) ∧
  ∃ v, validate Example.utc (Example.sling Example.monToFri)
                (Example.request Example.JESUS None (Example.hm 13 0)) = Some (Ok v) ∧
       (∀ x, x ∈ violations v → rule x ≠ AVAIL_001) ∧
       projectedHours v = weeklyHours v.
Proof.
  split; [split; [accept|by left]|].
  destruct (unspecified_window_skips_fit Example.utc (Example.sling Example.monToFri)
              (Example.request Example.JESUS None (Example.hm 13 0))
              Example.JESUS Example.satRange)
    as (v & Hv & Havail & Hhours & _); [accept|by left|].
  exists v. split; [exact Hv|]. split; [exact Havail|exact Hhours].
Defined.



(** ** Sorting with a comparator *)
Section SortFacts.
Context {A : Type} (cmp : A → A → Qc).

Lemma insert_sorted_perm x l : Js.insert_sorted cmp x l ≡ₚ x :: l.
Proof.
  induction l as [|y l IH]; simpl; [done|].
  case_decide; [done|]. rewrite IH. apply Permutation_swap.
Qed.

Lemma sort_perm l : Js.sort cmp l ≡ₚ l.
Proof.
  induction l as [|x l IH]; simpl; [done|].
  by rewrite insert_sorted_perm, IH.
Qed.

Lemma elem_of_sort x l : x ∈ Js.sort cmp l ↔ x ∈ l.
Proof. by rewrite sort_perm. Qed.

Context `{!Total (Js.ordered cmp), !Transitive (Js.ordered cmp)}.

Lemma insert_sorted_keeps x l :
  StronglySorted (Js.ordered cmp) l →
  StronglySorted (Js.ordered cmp) (Js.insert_sorted cmp x l).
Proof.
  induction 1 as [|y l Hl IH Hy]; simpl; [by repeat constructor|].
  case_decide as Hxy.
  - constructor; [by constructor|]. constructor; [done|].
    eapply Forall_impl; [exact Hy|]. intros z Hyz. by trans y.
  - constructor; [done|]. rewrite insert_sorted_perm. constructor; [|done].
    by destruct (total (Js.ordered cmp) x y).
Qed.

Lemma sort_sorted l : StronglySorted (Js.ordered cmp) (Js.sort cmp l).
Proof.
  induction l as [|x l IH]; simpl; [constructor|]. by apply insert_sorted_keeps.
Qed.

Lemma sorted_lookup (l : list A) i j a b :
  StronglySorted (Js.ordered cmp) l →
  (i < j)%nat → l !! i = Some a → l !! j = Some b → Js.ordered cmp a b.
Proof.
  intros Hl. revert i j. induction Hl as [|x l Hl IH Hx]; intros i j Hij Hi Hj.
  - by rewrite lookup_nil in Hi.
  - destruct j as [|j]; [lia|]. destruct i as [|i]; simpl in *.
    + injection Hi as ->. rewrite Forall_forall in Hx. apply Hx.
      by eapply list_elem_of_lookup_2.
    + apply (IH i j); [lia|done..].
Qed.
End SortFacts.

(** ** The coverage finder *)
Section CoverageFacts.
Context (P : Platform) (S : Sling).

Lemma Qc_sub_nonpos (p q : Qc) : (p - q ≤ 0 ↔ p ≤ q)%Qc.
Proof.
  rewrite (Qcle_minus_iff p q), (Qcle_minus_iff (p - q) 0).
  by assert (0 + - (p - q) = q + - p)%Qc as -> by ring.
Qed.

(** What the comparator of [candidates.sort] orders by. *)
Lemma ordered_candidates a b :
  Js.ordered compareCandidates a b ↔
  (available a = true ∧ available b = false) ∨
  (available a = true ∧ available b = true ∧
   (c_projectedHours a ≤ c_projectedHours b)%Qc) ∨
  (available a = false ∧ available b = false).
Proof.
  unfold Js.ordered, compareCandidates.
  destruct (available a), (available b); simpl.
  - rewrite Qc_sub_nonpos. split; [auto|]. by intros [[_ [=]]|[(_ & _ & ?)|[[=] _]]].
  - split; [auto|]. intros _. by apply (bool_decide_unpack _).
  - split; [|by intros [[[=] _]|[([=] & _)|[_ [=]]]]].
    intros Hle. destruct (Qcle_not_lt _ _ Hle). by apply (bool_decide_unpack _).
  - split; [auto|]. intros _. reflexivity.
Qed.

Global Instance ordered_candidates_total : Total (Js.ordered compareCandidates).
Proof.
  intros a b. rewrite !ordered_candidates.
  destruct (available a), (available b); auto.
  destruct (Qc_le_total (c_projectedHours a) (c_projectedHours b)); auto 6.
Qed.

Global Instance ordered_candidates_trans : Transitive (Js.ordered compareCandidates).
Proof.
  intros a b c. rewrite !ordered_candidates.
  intros [[??]|[(? & ? & ?)|[??]]] [[??]|[(? & ? & ?)|[??]]]; try congruence; auto.
  right. left. split; [done|]. split; [done|]. by etrans.
Qed.

(** A successful search: the shift found and the sorted candidates. *)
Lemma findCoverage_covered targetDay name cov :
  findCoverage P S targetDay name = Covered cov →
  ∃ range,
    getDayRange P targetDay = Some range ∧
    head (targetShiftsOf P S (dr_start range) name) = Some (shiftToCover cov) ∧
    candidates cov =
      Js.sort compareCandidates
        (omap (candidateFor P S (dr_start range) (shiftToCover cov))
              (clementEmployeeIdsOf P S (dr_start range))).
Proof.
  unfold findCoverage. destruct (getDayRange P targetDay) as [range|]; [|done].
  destruct (targetShiftsOf _ _ _ _) as [|cover rest] eqn:Htarget; [done|].
  intros [= <-]. exists range. by rewrite Htarget.
Qed.

(** Every candidate returned is the outcome of the checks on one
    employee. *)
Lemma candidate_checked targetDay name cov range c :
  findCoverage P S targetDay name = Covered cov →
  getDayRange P targetDay = Some range →
  c ∈ candidates cov →
  ∃ empId user,
    c = checkCandidate P (dr_start range) (shiftToCover cov)
          (shifts (coverWeek P S (dr_start range)))
          (coverStreakShifts P S (dr_start range))
          (leaves (coverWeek P S (dr_start range)))
          (availability (coverWeek P S (dr_start range)))
          (getHistoricalAvgHours P S !! empId) empId user.
Proof.
  intros (range' & Hrange' & _ & Hcands)%findCoverage_covered Hrange.
  rewrite Hrange in Hrange'. injection Hrange' as <-.
  rewrite Hcands, elem_of_sort, list_elem_of_omap.
  intros (empId & _ & Hc). unfold candidateFor in Hc.
  case_decide; [done|].
  destruct (list_find _ (users S)) as [[i user]|]; [|done].
  injection Hc as <-. by exists empId, user.
Qed.
End CoverageFacts.

(** C6. In the candidate list of findCoverage, a candidate is eligible exactly
    when its list of blocking reasons is empty; no ineligible candidate stands
    before an eligible one; and eligible candidates stand in ascending order
    of projected weekly hours. *)
Theorem candidates_ranked (P : Platform) (S : Sling) (targetDay : string)
    (name : option string) (cov : Coverage) :
  findCoverage P S targetDay name = Covered cov →
  (∀ c, c ∈ candidates cov → (available c = true ↔ reasons c = [])) ∧
  (∀ i j a b,
     (i < j)%nat → candidates cov !! i = Some a → candidates cov !! j = Some b →
     (available b = true → available a = true) ∧
     (available a = true → available b = true →
      (c_projectedHours a ≤ c_projectedHours b)%Qc)).
Proof.
  intros Hcov. split.
  - intros c Hc.
    destruct (findCoverage_covered P S _ _ _ Hcov) as (range & Hrange & _).
    destruct (candidate_checked P S _ _ _ range c Hcov Hrange Hc)
      as (empId & user & ->).
    simpl. apply bool_decide_eq_true.
  - intros i j a b Hij Ha Hb.
    destruct (findCoverage_covered P S _ _ _ Hcov) as (range & _ & _ & Hcands).
    assert (Js.ordered compareCandidates a b) as Hab.
    { eapply (sorted_lookup compareCandidates (candidates cov)); [|done..].
      rewrite Hcands. exact (sort_sorted compareCandidates _). }
    apply ordered_candidates in Hab as [[??]|[(? & ? & ?)|[??]]];
      split; intros; congruence || done.
Qed.

Lemma candidates_ranked_witness :
  ∃ cov,
    findCoverage Example.utc (Example.sling Example.toCover) "2025-02-15"
                 (Some "Jesus"%string) = Covered cov ∧
    c_employeeId <$> candidates cov = [Example.EMILY; Example.SARA; Example.BRIANNA] ∧
    available <$> candidates cov = [true; true; false] ∧
    ∀ i j a b,
      (i < j)%nat → candidates cov !! i = Some a → candidates cov !! j = Some b →
      (available b = true → available a = true) ∧
      (available a = true → available b = true →
       (c_projectedHours a ≤ c_projectedHours b)%Qc).
Proof.
  eexists. split; [vm_compute; reflexivity|].
  split; [reflexivity|]. split; [reflexivity|].
  apply (candidates_ranked Example.utc (Example.sling Example.toCover)
           "2025-02-15" (Some "Jesus"%string)).
  vm_compute. reflexivity.
Defined.

(** ** Which check gives which reason *)
Section ReasonFacts.
Context (P : Platform) (targetDate : Instant) (cover : Shift)
        (weekShifts streakShifts : list Shift) (weekLeaves : list Leave)
        (weekAvail : list Availability) (hist : option Hist).








End ReasonFacts.




(** ** Availability: what each check looks at *)
Section AvailabilityFacts.






End AvailabilityFacts.







(** ** The input checks *)
Section InputFacts.
Context (P : Platform) (S : Sling).

Lemma validate_no_employee req :
  Js.falsyNum (resolveUser P req) = true → validate P S req = Some EmployeeNotFound.
Proof.
  unfold validate. destruct (resolveUser P req) as [uid|]; simpl; [|done].
  by intros ->.
Qed.

Lemma validate_no_date req :
  Js.falsyNum (resolveUser P req) = false →
  date req = None ∨ date req = Some EmptyString →
  validate P S req = Some DateRequired.
Proof.
  unfold validate. destruct (resolveUser P req) as [uid|]; simpl; [|done].
  intros -> [-> | ->]; done.
Qed.

Lemma validate_bad_date req d :
  Js.falsyNum (resolveUser P req) = false →
  date req = Some d → d ≠ EmptyString → resolveTarget P d = None →
  validate P S req = Some Thrown.
Proof.
  unfold validate, getDayRange.
  destruct (resolveUser P req) as [uid|]; simpl; [|done].
  intros -> -> Hd ->. by apply String.eqb_neq in Hd as ->.
Qed.

(** A string that is not one of the day words is handed to [new Date]. *)
Lemma resolveTarget_parse d :
  Js.trim (Js.toLowerCase d) ∉
    ["today"; "tomorrow"; "yesterday"; "sunday"; "monday"; "tuesday";
     "wednesday"; "thursday"; "friday"; "saturday"]%string →
  resolveTarget P d = Date_parse P d.
Proof.
  intros Hword. unfold resolveTarget, days, indexOf. cbv zeta.
  repeat match goal with
    | |- context [String.eqb ?a ?b] =>
        destruct (String.eqb_spec a b) as [Heq|_];
        [destruct Hword; first [rewrite Heq | rewrite <- Heq]; by repeat constructor|]
    end.
  done.
Qed.

Lemma proposed_nonpositive st et :
  minutesOf et ≤ minutesOf st →
  (proposedHoursOf (Some st) (Some et) ≤ 0)%Qc.
Proof.
  intros Hle. unfold proposedHoursOf, Qcdiv.
  apply Qcle_trans with (Qc_of_Z 0 * / Qc_of_Z 60)%Qc;
    [|by apply (bool_decide_unpack _)].
  apply Qcmult_le_compat_r; [|by apply (bool_decide_unpack _)].
  apply (proj1 (Z2Qc_inj_le _ _)). lia.
Qed.
End InputFacts.

(** C5, as the code has it. Validate rejects, before any gate runs and
    whatever the calendar holds, a request whose employee is missing or does
    not resolve to a non-zero id (400), a request without a date (400) and a
    request whose date does not resolve to a valid Date (500, from the
    handler's catch). The startTime/endTime window is not checked: a request
    that passes those checks gets a verdict, and a window of zero or negative
    length adds its non-positive number of hours to the week's. *)
Theorem input_checks (P : Platform) (S : Sling) (req : Request) :
  (Js.falsyNum (resolveUser P req) = true →
   validate P S req = Some EmployeeNotFound) ∧
  (Js.falsyNum (resolveUser P req) = false →
   date req = None ∨ date req = Some EmptyString →
   validate P S req = Some DateRequired) ∧
  (Js.falsyNum (resolveUser P req) = false →
   ∀ d, date req = Some d → d ≠ EmptyString → resolveTarget P d = None →
        validate P S req = Some Thrown) ∧
  (∀ userId range st et,
     accepted P req userId range →
     startTime req = Some st → endTime req = Some et →
     minutesOf et ≤ minutesOf st →
     (proposedHoursOf (Some st) (Some et) ≤ 0)%Qc ∧
     ∃ v, validate P S req = Some (Ok v) ∧
          projectedHours v =
            round2 (weeklyHoursOf userId (weekShiftsOf P S range) +
                    proposedHoursOf (Some st) (Some et))).
Proof.
  split; [apply validate_no_employee|]. split; [apply validate_no_date|].
  split; [intros Huser d; by apply validate_bad_date|].
  intros userId range st et Hacc Hst Het Hle. split; [by apply proposed_nonpositive|].
  destruct (validate_verdict P S req userId range Hacc)
    as (v & streak & Hv & _ & _ & _ & _ & _ & Hprojected & _).
  exists v. split; [done|]. by rewrite Hprojected, Hst, Het.
Qed.

Lemma input_checks_witness :
  (Js.falsyNum (resolveUser Example.utc (Example.named "Nobody")) = true ∧
   validate Example.utc (Example.sling Example.monToFri) (Example.named "Nobody")
   = Some EmployeeNotFound) ∧
  (Js.falsyNum (resolveUser Example.utc (Example.dated None)) = false ∧
   validate Example.utc (Example.sling Example.monToFri) (Example.dated None)
   = Some DateRequired) ∧
  (Js.falsyNum (resolveUser Example.utc (Example.dated (Some "someday"%string))) = false ∧
   resolveTarget Example.utc "someday" = None ∧
   validate Example.utc (Example.sling Example.monToFri)
            (Example.dated (Some "someday"%string)) = Some Thrown) ∧
  (accepted Example.utc (Example.request Example.JESUS (Example.hm 17 0) (Example.hm 9 0))
            Example.JESUS Example.satRange ∧
   ∃ v, validate Example.utc (Example.sling Example.monToFri)
                 (Example.request Example.JESUS (Example.hm 17 0) (Example.hm 9 0))
        = Some (Ok v)).
Proof.
  split; [split; [reflexivity|]|].
  { by apply (input_checks Example.utc (Example.sling Example.monToFri)
                (Example.named "Nobody")). }
  split; [split; [reflexivity|]|].
  { apply (input_checks Example.utc (Example.sling Example.monToFri)
             (Example.dated None)); [reflexivity|by left]. }
  split; [split; [reflexivity|split; [reflexivity|]]|].
  { eapply (input_checks Example.utc (Example.sling Example.monToFri)
              (Example.dated (Some "someday"%string)));
      [reflexivity|reflexivity|done|reflexivity]. }
  split; [accept|].
  destruct (input_checks Example.utc (Example.sling Example.monToFri)
              (Example.request Example.JESUS (Example.hm 17 0) (Example.hm 9 0)))
    as (_ & _ & _ & Hwindow).
  destruct (Hwindow Example.JESUS Example.satRange
              {| hm_h := 17; hm_m := Some 0 |} {| hm_h := 9; hm_m := Some 0 |})
    as (_ & v & Hv & _); [accept|reflexivity|reflexivity|vm_compute; discriminate|].
  exists v. exact Hv.
Defined.

(** C5, as stated, fails: a request for 17:00 to 09:00, a window of negative
    length, is not rejected; Jesus has 30 hours that week and the verdict
    projects 22. A window of zero length is not rejected either. *)
Lemma backward_window_is_validated :
  minutesOf {| hm_h := 9; hm_m := Some 0 |} < minutesOf {| hm_h := 17; hm_m := Some 0 |} ∧
  (∃ v, validate Example.utc (Example.sling Example.monToFri)
                 (Example.request Example.JESUS (Example.hm 17 0) (Example.hm 9 0))
        = Some (Ok v) ∧
        weeklyHours v = Qc_of_Z 30 ∧ projectedHours v = Qc_of_Z 22) ∧
  (∃ v, validate Example.utc (Example.sling Example.monToFri)
                 (Example.request Example.JESUS (Example.hm 9 0) (Example.hm 9 0))
        = Some (Ok v) ∧
        weeklyHours v = Qc_of_Z 30 ∧ projectedHours v = Qc_of_Z 30).
Proof.
  split; [vm_compute; reflexivity|].
  split; (eexists; split; [vm_compute; reflexivity|];
          split; apply Qc_is_canon; reflexivity).
Qed.

(** ** The slot key *)
Section KeyFacts.












End KeyFacts.

(** ** The slot counts *)
Section SlotFacts.
Implicit Types (m : slots) (k : string) (t : Template).





End SlotFacts.

Section TemplateFacts.
Context (P : Platform).




(** The comparator of [getShiftTemplates] orders by descending count. *)
Lemma ordered_templates a b :
  Js.ordered (λ a b, Qc_of_Z (t_count b - t_count a)) a b ↔ t_count b ≤ t_count a.
Proof.
  unfold Js.ordered. rewrite <- Z2Qc_inj_0, <- Z2Qc_inj_le. lia.
Qed.

Global Instance ordered_templates_total :
  Total (Js.ordered (λ a b, Qc_of_Z (t_count b - t_count a))).
Proof. intros a b. rewrite !ordered_templates. lia. Qed.

Global Instance ordered_templates_trans :
  Transitive (Js.ordered (λ a b, Qc_of_Z (t_count b - t_count a))).
Proof. intros a b c. rewrite !ordered_templates. lia. Qed.

End TemplateFacts.

Section TemplateTheorems.
Context (P : Platform).






End TemplateTheorems.


(** * Further properties of the helpers and of the read-only endpoints *)

(** ** Hours of calendar shifts *)

Lemma foldl_ext_in {A B} (f g : A → B → A) (l : list B) (a : A) :
  (∀ a b, b ∈ l → f a b = g a b) → foldl f a l = foldl g a l.
Proof.
  revert a. induction l as [|b l IH]; intros a Hfg; [done|].
  simpl. rewrite (Hfg a b) by left.
  apply IH. intros a' b' Hb'. apply Hfg. by right.
Qed.

Lemma orNum_same x : orNum x x = x.
Proof. unfold orNum. by destruct (decide (x = 0%Qc)). Qed.

(** [getOrgCalendar] sets the [duration] of a shift to its hours. *)
Lemma calendar_duration S t1 t2 s :
  s ∈ shifts (getOrgCalendar S t1 t2) →
  s_duration s = hoursBetween (s_start s) (s_end s).
Proof.
  unfold getOrgCalendar. cbn [shifts].
  intros (e & -> & _)%list_elem_of_fmap. reflexivity.
Qed.

(** X1. On the shifts [getOrgCalendar] returns, the sum Validate forms with
    its fallback [s.duration || (end - start) / 3600000] is the plain sum
    of [(end - start) / 3600000] that [findCoverage] forms: over one
    calendar the two weekly totals of an employee are equal. *)
Theorem weekly_totals_agree S t1 t2 uid :
  weeklyHoursOf uid (shifts (getOrgCalendar S t1 t2)) =
  candidateWeeklyHours (shifts (getOrgCalendar S t1 t2)) uid.
Proof.
  unfold weeklyHoursOf, candidateWeeklyHours.
  apply foldl_ext_in. intros a s [_ Hs]%list_elem_of_filter.
  by rewrite (calendar_duration _ _ _ _ Hs), orNum_same.
Qed.

(** ** Names of the roster *)

(** X2. A string that is not a number resolves to an employee exactly when,
    lower-cased and trimmed, it is the lower-cased name of a roster entry,
    and then to the id of that entry. *)
Theorem roster_name_resolves P s id :
  isNaN P s = true →
  resolveEmployeeId P (Js.Str s) = Some id ↔
  ∃ nm, (id, nm) ∈ EMPLOYEE_NAMES ∧
        Js.toLowerCase nm = Js.trim (Js.toLowerCase s).
Proof.
  intros HNaN. unfold resolveEmployeeId. rewrite HNaN. cbn [negb Js.stringOr].
  split.
  - destruct (list_find _ _) as [[i [id' nm]]|] eqn:Hfind; [|done].
    cbn. intros [= <-].
    apply list_find_Some in Hfind as (Hi & Hnm & _).
    exists nm. split; [by eapply list_elem_of_lookup_2|done].
  - intros (nm & Hin & Hnm). rewrite <- Hnm. clear Hnm HNaN.
    unfold EMPLOYEE_NAMES in Hin.
    repeat (apply elem_of_cons in Hin as [Hin|Hin];
            [injection Hin as -> ->; vm_compute; reflexivity|]).
    by apply elem_of_nil in Hin.
Qed.

Lemma roster_name_resolves_witness :
  resolveEmployeeId Example.utc (Js.Str "  JESUS ") = Some Example.JESUS.
Proof.
  apply (roster_name_resolves Example.utc "  JESUS " Example.JESUS).
  - vm_compute; reflexivity.
  - exists "Jesus"%string. split; [evaluate|vm_compute; reflexivity].
Defined.

(** ** Days and weeks *)

Section CivilClock.
Context (P : Platform) (Hcivil : civil P).

Lemma civil_day_fromWall w : toDateString P (fromWall P w) = w `div` MS_DAY.
Proof. unfold toDateString. by rewrite Hcivil. Qed.

Lemma civil_day_addDays t n :
  toDateString P (addDays P t n) = toDateString P t + n.
Proof.
  unfold addDays. rewrite civil_day_fromWall. unfold toDateString.
  by rewrite Z.div_add by done.
Qed.

Lemma civil_day_startOfDay t : toDateString P (startOfDay P t) = toDateString P t.
Proof.
  unfold startOfDay. rewrite civil_day_fromWall. by rewrite Z.div_mul by done.
Qed.

Lemma civil_day_endOfDay t : toDateString P (endOfDay P t) = toDateString P t.
Proof.
  unfold endOfDay. rewrite civil_day_fromWall.
  rewrite Z.add_comm, Z.div_add by done. unfold MS_DAY. reflexivity.
Qed.

Lemma getDay_range t : 0 ≤ getDay P t ≤ 6.
Proof. unfold getDay. pose proof (Z.mod_pos_bound (toDateString P t + 4) 7). lia. Qed.

End CivilClock.

Lemma indexOf_days lower i :
  indexOf days lower = Some i →
  0 ≤ i ≤ 6 ∧ String.eqb lower "today" = false ∧
  String.eqb lower "tomorrow" = false ∧ String.eqb lower "yesterday" = false.
Proof.
  unfold days. cbn [indexOf].
  repeat (destruct (String.eqb _ lower) eqn:Heq;
          [apply String.eqb_eq in Heq as <-; cbn; intros [= <-];
           repeat split; (lia || reflexivity)|clear Heq]).
  done.
Qed.

(** X3. A weekday name (in any case, with white space around it) is read by
    [getDayRange] as the next day of that name strictly after today in
    Pacific time: between one and seven days ahead, never today itself. *)
Theorem weekday_is_next P d i :
  civil P →
  indexOf days (Js.trim (Js.toLowerCase d)) = Some i →
  ∃ n, 1 ≤ n ≤ 7 ∧
       resolveTarget P d = Some (addDays P (getNowPT P) n) ∧
       toDateString P (addDays P (getNowPT P) n) = toDateString P (getNowPT P) + n ∧
       getDay P (addDays P (getNowPT P) n) = i.
Proof.
  intros Hcivil Hidx.
  destruct (indexOf_days _ _ Hidx) as (Hi & H1 & H2 & H3).
  unfold resolveTarget. rewrite H1, H2, H3, Hidx.
  pose proof (getDay_range P (getNowPT P)) as Hday.
  set (n := if i - getDay P (getNowPT P) <=? 0
            then i - getDay P (getNowPT P) + 7 else i - getDay P (getNowPT P)).
  exists n.
  assert (1 ≤ n ≤ 7 ∧ (getDay P (getNowPT P) + n) `mod` 7 = i) as [Hn Hmod].
  { subst n. destruct (Z.leb_spec (i - getDay P (getNowPT P)) 0).
    - split; [lia|].
      replace (getDay P (getNowPT P) + (i - getDay P (getNowPT P) + 7))
        with (i + 1 * 7) by lia.
      rewrite Z.mod_add by done. apply Z.mod_small. lia.
    - split; [lia|].
      replace (getDay P (getNowPT P) + (i - getDay P (getNowPT P))) with i by lia.
      apply Z.mod_small. lia. }
  split; [done|]. split; [done|].
  split; [by apply civil_day_addDays|].
  rewrite <- Hmod. unfold getDay at 1.
  rewrite civil_day_addDays by done. unfold getDay.
  replace (toDateString P (getNowPT P) + n + 4)
    with (toDateString P (getNowPT P) + 4 + n) by lia.
  by rewrite Zplus_mod_idemp_l.
Qed.

Lemma weekday_is_next_witness :
  ∃ n, 1 ≤ n ≤ 7 ∧
       resolveTarget Example.utc " Monday" =
         Some (addDays Example.utc (getNowPT Example.utc) n) ∧
       toDateString Example.utc (addDays Example.utc (getNowPT Example.utc) n) =
         toDateString Example.utc (getNowPT Example.utc) + n ∧
       getDay Example.utc (addDays Example.utc (getNowPT Example.utc) n) = 1.
Proof.
  apply (weekday_is_next Example.utc " Monday" 1).
  - intros w. vm_compute. by destruct w.
  - vm_compute; reflexivity.
Defined.

(** X4. The week whose hours Validate adds up runs from a Monday to the
    Sunday six days later, while the week [findCoverage] fetches runs from
    the Sunday on or before the target day to the Saturday after it. *)
Theorem weeks_of_the_two_engines P S iso t :
  civil P →
  let week := getWeekRange P iso in
  let cover := coverWeekRange P t in
  coverWeek P S t = getOrgCalendar S cover.1 cover.2 ∧
  getDay P week.1 = 1 ∧
  toDateString P week.2 = toDateString P week.1 + 6 ∧
  getDay P cover.1 = 0 ∧
  toDateString P cover.2 = toDateString P cover.1 + 6 ∧
  toDateString P cover.1 ≤ toDateString P t ≤ toDateString P cover.2.
Proof.
  intros Hcivil week cover. split; [reflexivity|].
  subst week cover. unfold getWeekRange, coverWeekRange. cbn [fst snd].
  set (c := dr_start (dayRangeOf P (iso * MS_DAY))).
  unfold getDay.
  repeat first [ rewrite civil_day_endOfDay by done
               | rewrite civil_day_startOfDay by done
               | rewrite civil_day_addDays by done ].
  pose proof (getDay_range P c) as Hc. pose proof (getDay_range P t) as Ht.
  unfold getDay in *.
  generalize dependent (toDateString P c). intros D HD.
  generalize dependent (toDateString P t). intros T HT.
  clear c. split; [|split; [done|split; [|split; [done|lia]]]].
  - destruct (Z.eqb_spec ((D + 4) `mod` 7) 0) as [H0|H0];
      Z.div_mod_to_equations; lia.
  - Z.div_mod_to_equations; lia.
Qed.

Lemma weeks_of_the_two_engines_witness :
  let week := getWeekRange Example.utc Example.sat in
  let cover := coverWeekRange Example.utc (Example.at_ Example.sat 8 0) in
  coverWeek Example.utc (Example.sling Example.toCover) (Example.at_ Example.sat 8 0) =
    getOrgCalendar (Example.sling Example.toCover) cover.1 cover.2 ∧
  getDay Example.utc week.1 = 1 ∧
  toDateString Example.utc week.2 = toDateString Example.utc week.1 + 6 ∧
  getDay Example.utc cover.1 = 0 ∧
  toDateString Example.utc cover.2 = toDateString Example.utc cover.1 + 6 ∧
  toDateString Example.utc cover.1 ≤ toDateString Example.utc (Example.at_ Example.sat 8 0)
    ≤ toDateString Example.utc cover.2.
Proof.
  apply (weeks_of_the_two_engines Example.utc (Example.sling Example.toCover)
           Example.sat (Example.at_ Example.sat 8 0)).
  intros w. vm_compute. by destruct w.
Defined.

(** ** The streak Validate reports *)

(** X5. For every request that passes the input checks, the consecutiveDays
    of the verdict is one (the target day) plus the two unbroken runs of
    days with a shift of the employee that end the day before the target
    and start the day after it. *)
Theorem streak_counts_adjacent_runs (P : Platform) (S : Sling) (req : Request)
    (userId : Z) (range : DayRange) :
  accepted P req userId range →
  ∃ v before after,
    validate P S req = Some (Ok v) ∧
    0 ≤ before ∧ 0 ≤ after ∧
    consecutiveDays v = 1 + before + after ∧
    (∀ k, 1 ≤ k ≤ before → worksOn P S userId range (- k)) ∧
    ¬ worksOn P S userId range (- (before + 1)) ∧
    (∀ k, 1 ≤ k ≤ after → worksOn P S userId range k) ∧
    ¬ worksOn P S userId range (after + 1).
Proof.
  intros Hacc.
  destruct (validate_verdict P S req userId range Hacc)
    as (v & streak & Hv & Hstreak & _ & _ & _ & _ & _ & Hdays).
  unfold streakOf in Hstreak.
  destruct (walk _ _ (-1) _ _) as [back|] eqn:Hback; [|done].
  cbn [mbind option_bind] in Hstreak.
  apply walk_run in Hback as (n & Hn & -> & Hall1 & Hend1).
  apply walk_run in Hstreak as (m & Hm & -> & Hall2 & Hend2).
  exists v, n, m. split; [done|]. split; [done|]. split; [done|].
  split; [by rewrite Hdays|].
  assert (∀ k, k ≠ 0 →
            toDateString P (dr_start range) + k
              ∈ workDatesOf P userId (dr_start range) (streakShiftsOf P S range) ↔
            worksOn P S userId range k) as Hworks.
  { intros k Hk. rewrite elem_of_workDatesOf. unfold worksOn. split; [|by right].
    intros [?|?]; [lia|done]. }
  repeat split.
  - intros k Hk. apply Hworks; [lia|].
    replace (toDateString P (dr_start range) + - k)
      with (toDateString P (dr_start range) + k * -1) by lia.
    by apply Hall1.
  - intros Hin. apply Hend1. apply Hworks in Hin; [|lia].
    by replace (toDateString P (dr_start range) + (n + 1) * -1)
      with (toDateString P (dr_start range) + - (n + 1)) by lia.
  - intros k Hk. apply Hworks; [lia|]. specialize (Hall2 k Hk).
    by rewrite Z.mul_1_r in Hall2.
  - intros Hin. apply Hend2. apply Hworks in Hin; [|lia]. by rewrite Z.mul_1_r.
Qed.

Lemma streak_counts_adjacent_runs_witness :
  accepted Example.utc Example.satRequest Example.JESUS Example.satRange ∧
  ∃ v before after,
    validate Example.utc (Example.sling Example.monToFri) Example.satRequest
      = Some (Ok v) ∧
    consecutiveDays v = 1 + before + after.
Proof.
  assert (accepted Example.utc Example.satRequest Example.JESUS Example.satRange)
    as Hacc by accept.
  split; [exact Hacc|].
  destruct (streak_counts_adjacent_runs Example.utc (Example.sling Example.monToFri)
              Example.satRequest Example.JESUS Example.satRange Hacc)
    as (v & before & after & Hv & _ & _ & Hdays & _).
  exists v, before, after. split; [exact Hv|exact Hdays].
Defined.

(** ** The streak window of the coverage finder *)

Section LongestRun.
Context (worked : gset Z) (first : Z).

(** The loop after [n] days: [current] is the run that ends on the last
    day, [maxConsecutive] the longest run so far. *)
Lemma longestRun_loop (n : nat) :
  ∃ maxConsecutive current,
    foldl (λ '(maxConsecutive, current) d,
             if decide (d ∈ worked)
             then (Z.max maxConsecutive (current + 1), current + 1)
             else (maxConsecutive, 0))
          (0, 0) (seqZ first (Z.of_nat n)) = (maxConsecutive, current) ∧
    0 ≤ current ≤ maxConsecutive ∧ current ≤ Z.of_nat n ∧
    (∀ d, first + Z.of_nat n - current ≤ d < first + Z.of_nat n → d ∈ worked) ∧
    (current < Z.of_nat n → first + Z.of_nat n - current - 1 ∉ worked) ∧
    (∃ a, first ≤ a ∧ a + maxConsecutive ≤ first + Z.of_nat n ∧
          ∀ d, a ≤ d < a + maxConsecutive → d ∈ worked) ∧
    (∀ a len, first ≤ a → a + len ≤ first + Z.of_nat n →
              (∀ d, a ≤ d < a + len → d ∈ worked) → len ≤ maxConsecutive).
Proof.
  induction n as [|n (mx & cur & Hfold & Hcur & Hn & Hrun & Hstop & Hmax & Hall)].
  { exists 0, 0. split; [done|]. split; [lia|]. split; [lia|].
    split; [intros; lia|]. split; [lia|]. split; [|intros; lia].
    exists first. split; [lia|]. split; [lia|]. intros; lia. }
  rewrite seqZ_S, foldl_app, Hfold. cbn [foldl].
  destruct (decide (first + Z.of_nat n ∈ worked)) as [Hin|Hout].
  - exists (Z.max mx (cur + 1)), (cur + 1). split; [done|].
    split; [lia|]. split; [lia|]. split; [|split; [|split]].
    + intros d Hd. destruct (decide (d = first + Z.of_nat n)) as [->|]; [done|].
      apply Hrun. lia.
    + intros Hlt.
      replace (first + Z.of_nat (Datatypes.S n) - (cur + 1) - 1)
        with (first + Z.of_nat n - cur - 1) by lia.
      apply Hstop. lia.
    + destruct (Z.max_spec mx (cur + 1)) as [[_ ->]|[_ ->]].
      * exists (first + Z.of_nat n - cur). split; [lia|]. split; [lia|].
        intros d Hd. destruct (decide (d = first + Z.of_nat n)) as [->|]; [done|].
        apply Hrun. lia.
      * destruct Hmax as (a & Ha1 & Ha2 & Ha3). exists a.
        split; [done|]. split; [lia|done].
    + intros a len Ha1 Ha2 Ha3.
      destruct (decide (a + len ≤ first + Z.of_nat n)) as [Hle|Hgt].
      { specialize (Hall a len Ha1 Hle Ha3). lia. }
      destruct (decide (len - 1 ≤ cur)) as [|Hlong]; [lia|].
      destruct Hstop; [lia|]. apply Ha3. lia.
  - exists mx, 0. split; [done|]. split; [lia|]. split; [lia|].
    split; [intros; lia|]. split.
    { intros _.
      by replace (first + Z.of_nat (Datatypes.S n) - 0 - 1)
        with (first + Z.of_nat n) by lia. }
    split.
    + destruct Hmax as (a & Ha1 & Ha2 & Ha3). exists a.
      split; [done|]. split; [lia|done].
    + intros a len Ha1 Ha2 Ha3.
      destruct (decide (a + len ≤ first + Z.of_nat n)) as [Hle|Hgt].
      { by apply (Hall a len). }
      destruct (decide (len ≤ 0)) as [|Hpos]; [lia|].
      destruct Hout. apply Ha3. lia.
Qed.

(** [longestRun] is the length of a run of worked days within the [n] days
    from [first], and no such run is longer. *)
Lemma longestRun_longest (n : nat) :
  (∃ a, first ≤ a ∧ a + longestRun worked first n ≤ first + Z.of_nat n ∧
        ∀ d, a ≤ d < a + longestRun worked first n → d ∈ worked) ∧
  (∀ a len, first ≤ a → a + len ≤ first + Z.of_nat n →
            (∀ d, a ≤ d < a + len → d ∈ worked) →
            len ≤ longestRun worked first n).
Proof.
  destruct (longestRun_loop n) as (mx & cur & Hfold & _ & _ & _ & _ & Hmax & Hall).
  unfold longestRun. by rewrite Hfold.
Qed.

End LongestRun.

(** X6. [findCoverage] blocks a candidate for consecutive days exactly
    when, once the covered day counts as worked, seven days in a row that
    include the target day are all worked, looking no further than six days
    to either side of the target; the count it reports is between 7 and 13. *)
Theorem streak_block_window (P : Platform) (targetDate : Instant)
    (streakShifts : list Shift) (empId : Z) :
  let target := toDateString P targetDate in
  let works (d : Z) :=
    d = target ∨
    Exists (λ s, s_employeeId s = Some empId ∧ toDateString P (s_start s) = d)
           streakShifts in
  ((checkStreak P targetDate streakShifts empId).1 ≠ [] ↔
   ∃ a, target - 6 ≤ a ≤ target ∧ ∀ d, a ≤ d < a + 7 → works d) ∧
  (∀ n, WouldBeConsecutive n ∈ (checkStreak P targetDate streakShifts empId).1 →
        7 ≤ n ≤ 13).
Proof.
  intros target works. unfold checkStreak, shiftDateStr. fold target.
  set (worked := _ ∪ {[ target ]}).
  assert (∀ d, d ∈ worked ↔ works d) as Hworked.
  { intros d. subst worked works. cbv beta.
    rewrite elem_of_union, elem_of_singleton, elem_of_list_to_set, list_elem_of_fmap.
    rewrite Exists_exists. split.
    - intros [(s & -> & [Hmine Hs]%list_elem_of_filter) | ->]; [right|by left].
      by exists s.
    - intros [-> | (s & Hs & Hmine & <-)]; [by right|left].
      exists s. split; [done|]. by apply list_elem_of_filter. }
  destruct (longestRun_longest worked (target - 6) 13) as [(a & Ha1 & Ha2 & Ha3) Hall].
  set (r := longestRun worked (target - 6) 13) in *.
  unfold MAX_CONSECUTIVE_DAYS, WARN_CONSECUTIVE_DAYS.
  split.
  - destruct (Z.leb_spec 7 r) as [Hr|Hr].
    + split; [intros _|done]. exists a. split; [lia|].
      intros d Hd. apply Hworked, Ha3. lia.
    + assert (([] : list Reason) ≠ [] ↔ False) as Hnil by (split; [congruence|done]).
      destruct (6 <=? r); cbn [fst]; rewrite Hnil; split; try done.
      all: intros (b & Hb & Hrun); specialize (Hall b 7);
        assert (7 ≤ r); [apply Hall; [lia|lia|]|lia];
        intros d Hd; by apply Hworked, Hrun.
  - intros n. destruct (Z.leb_spec 7 r) as [Hr|Hr].
    + cbn [fst]. intros [= ->]%list_elem_of_singleton. lia.
    + destruct (6 <=? r); cbn [fst]; by intros ?%elem_of_nil.
Qed.

(** ** Who is a candidate *)

Lemma setAdd_elem ids x y : y ∈ setAdd ids x ↔ y ∈ ids ∨ y = x.
Proof.
  unfold setAdd. case_decide as Hin.
  - split; [by left|]. by intros [?| ->].
  - by rewrite elem_of_app, list_elem_of_singleton.
Qed.

Lemma setAdd_NoDup ids x : NoDup ids → NoDup (setAdd ids x).
Proof.
  intros Hids. unfold setAdd. case_decide as Hin; [done|].
  apply NoDup_app. split; [done|]. split; [|apply NoDup_singleton].
  by intros y Hy ->%list_elem_of_singleton.
Qed.

Lemma foldl_setAdd_NoDup ids l : NoDup ids → NoDup (foldl setAdd ids l).
Proof.
  revert ids. induction l as [|x l IH]; intros ids Hids; [done|].
  simpl. by apply IH, setAdd_NoDup.
Qed.

Lemma foldl_setAdd_elem ids l y : y ∈ foldl setAdd ids l ↔ y ∈ ids ∨ y ∈ l.
Proof.
  revert ids. induction l as [|x l IH]; intros ids; simpl.
  - split; [by left|]. by intros [?|?%elem_of_nil].
  - rewrite IH, setAdd_elem, elem_of_cons. tauto.
Qed.

Lemma truthyId_nonzero i k : truthyId i = Some k → k ≠ 0.
Proof.
  destruct i as [j|]; [|done]. simpl. destruct (Z.eqb_spec j 0); [done|].
  by intros [= <-].
Qed.

Lemma omap_keys_sublist {A} (f : Z → option A) (key : A → Z) (ids : list Z) :
  (∀ i a, f i = Some a → key a = i) → key <$> omap f ids `sublist_of` ids.
Proof.
  intros Hkey. induction ids as [|i ids IH]; [done|]. simpl.
  destruct (f i) as [a|] eqn:Hfi.
  - csimpl. rewrite (Hkey i a Hfi). by apply sublist_skip.
  - by apply sublist_cons.
Qed.

(** X7. The candidates of [findCoverage] are other people than the one
    whose shift is covered, each is a user Sling knows, under that user's
    full name and a non-zero id, and nobody is listed twice. *)
Theorem candidates_are_other_staff (P : Platform) (S : Sling) (targetDay : string)
    (name : option string) (cov : Coverage) :
  findCoverage P S targetDay name = Covered cov →
  NoDup (c_employeeId <$> candidates cov) ∧
  ∀ c, c ∈ candidates cov →
    Some (c_employeeId c) ≠ s_employeeId (shiftToCover cov) ∧
    c_employeeId c ≠ 0 ∧
    ∃ u, u ∈ users S ∧ u_id u = c_employeeId c ∧ c_employee c = fullName u.
Proof.
  intros (range & _ & _ & Hcands)%findCoverage_covered. rewrite Hcands.
  assert (∀ i c, candidateFor P S (dr_start range) (shiftToCover cov) i = Some c →
                 c_employeeId c = i ∧ Some i ≠ s_employeeId (shiftToCover cov) ∧
                 ∃ u, u ∈ users S ∧ u_id u = i ∧ c_employee c = fullName u)
    as Hfor.
  { intros i c. unfold candidateFor. case_decide as Hother; [done|].
    destruct (list_find _ (users S)) as [[j u]|] eqn:Hfind; [|done].
    cbn. intros [= <-]. split; [done|]. split; [done|].
    apply list_find_Some in Hfind as (Hj & Hu & _).
    exists u. split; [by eapply list_elem_of_lookup_2|done]. }
  split.
  - rewrite sort_perm.
    eapply sublist_NoDup;
      [|apply omap_keys_sublist; intros i c Hc; by apply Hfor in Hc as [? _]].
    unfold clementEmployeeIdsOf. do 3 apply foldl_setAdd_NoDup. constructor.
  - intros c (i & Hi & Hc)%elem_of_sort%list_elem_of_omap.
    destruct (Hfor i c Hc) as (-> & Hother & u & Hu & Hid & Hname).
    split; [done|]. split; [|by exists u].
    unfold clementEmployeeIdsOf in Hi.
    repeat (apply foldl_setAdd_elem in Hi as [Hi|Hi]);
      [by apply elem_of_nil in Hi|..];
      apply list_elem_of_omap in Hi as (x & _ & Hx); by apply truthyId_nonzero in Hx.
Qed.

Lemma candidates_are_other_staff_witness :
  ∃ cov,
    findCoverage Example.utc (Example.sling Example.toCover) "2025-02-15"
                 (Some "Jesus"%string) = Covered cov ∧
    NoDup (c_employeeId <$> candidates cov) ∧
    ∀ c, c ∈ candidates cov →
      Some (c_employeeId c) ≠ s_employeeId (shiftToCover cov) ∧
      c_employeeId c ≠ 0 ∧
      ∃ u, u ∈ users (Example.sling Example.toCover) ∧
           u_id u = c_employeeId c ∧ c_employee c = fullName u.
Proof.
  eexists. split; [vm_compute; reflexivity|].
  apply (candidates_are_other_staff Example.utc (Example.sling Example.toCover)
           "2025-02-15" (Some "Jesus"%string)).
  vm_compute. reflexivity.
Defined.

(** ** Which shift is covered *)

Lemma elem_of_targetShiftsOf P S targetDate name s :
  s ∈ targetShiftsOf P S targetDate name ↔
  s ∈ shifts (coverWeek P S targetDate) ∧
  toDateString P (s_start s) = toDateString P targetDate ∧
  match name with
  | None => True
  | Some n =>
      n = ""%string ∨
      Js.includes (Js.toLowerCase (s_employee s)) (Js.toLowerCase n) = true
  end.
Proof.
  unfold targetShiftsOf. rewrite list_elem_of_filter.
  destruct name as [n|].
  - rewrite orb_true_iff, String.eqb_eq. tauto.
  - tauto.
Qed.

(** X8. Once the day is resolved, [findCoverage] answers that no shift was
    found exactly when the week calendar holds no shift that starts on the
    target day and, when a non-empty name is given, whose employee name
    contains it (case ignored); otherwise the shift to cover is such a
    shift, and its hours are its length. *)
Theorem shift_to_cover_found (P : Platform) (S : Sling) (targetDay : string)
    (name : option string) (range : DayRange) :
  getDayRange P targetDay = Some range →
  let matches (s : Shift) :=
    s ∈ shifts (coverWeek P S (dr_start range)) ∧
    toDateString P (s_start s) = toDateString P (dr_start range) ∧
    match name with
    | None => True
    | Some n =>
        n = ""%string ∨
        Js.includes (Js.toLowerCase (s_employee s)) (Js.toLowerCase n) = true
    end in
  (findCoverage P S targetDay name = NoShiftFound ↔ ∀ s, ¬ matches s) ∧
  (∀ cov, findCoverage P S targetDay name = Covered cov →
          matches (shiftToCover cov) ∧
          shiftHours cov =
            hoursBetween (s_start (shiftToCover cov)) (s_end (shiftToCover cov))) ∧
  findCoverage P S targetDay name ≠ CoverageThrows.
Proof.
  intros Hrange matches. unfold findCoverage. rewrite Hrange.
  destruct (targetShiftsOf P S (dr_start range) name) as [|cover rest] eqn:Htarget.
  - split; [|done]. split; [intros _|done].
    intros s Hs%elem_of_targetShiftsOf. rewrite Htarget in Hs.
    by apply elem_of_nil in Hs.
  - assert (matches cover) as Hcover.
    { apply elem_of_targetShiftsOf. rewrite Htarget. left. }
    split; [|split; [|done]].
    + split; [done|]. intros Hnone. by destruct (Hnone cover).
    + by intros cov [= <-].
Qed.

Lemma shift_to_cover_found_witness :
  ∃ cov,
    findCoverage Example.utc (Example.sling Example.toCover) "2025-02-15"
                 (Some "jes"%string) = Covered cov ∧
    s_employeeId (shiftToCover cov) = Some Example.JESUS ∧
    toDateString Example.utc (s_start (shiftToCover cov)) = Example.sat ∧
    shiftHours cov =
      hoursBetween (s_start (shiftToCover cov)) (s_end (shiftToCover cov)).
Proof.
  eexists. split; [vm_compute; reflexivity|].
  split; [reflexivity|].
  destruct (shift_to_cover_found Example.utc (Example.sling Example.toCover)
              "2025-02-15" (Some "jes"%string) Example.satRange)
    as (_ & Hcov & _); [vm_compute; reflexivity|].
  lazymatch goal with
  | |- _ ∧ shiftHours ?cov = _ =>
      destruct (Hcov cov) as [(_ & Hday & _) Hhours]; [vm_compute; reflexivity|]
  end.
  split; [exact Hday|exact Hhours].
Defined.

(** ** Historical weekly hours *)


Lemma Qcmax_le x y : (x ≤ Qcmax x y ∧ y ≤ Qcmax x y)%Qc.
Proof.
  unfold Qcmax. case_decide as Hxy; split; try done.
  apply Qclt_le_weak. by apply Qcnot_le_lt.
Qed.








(** ** Looking up users and positions by name *)

Lemma includes_empty s : Js.includes s "" = true.
Proof. by destruct s. Qed.

(** X10. A name that is blank once trimmed matches everybody:
    [findUserByName] then returns the first user of the list, and
    [findPositionByName] the first position. *)
Theorem blank_name_finds_first (u : User) (us : list User) (p : Group)
    (ps : list Group) (name : string) :
  Js.trim (Js.toLowerCase name) = ""%string →
  findUserByName (u :: us) name = Some u ∧
  findPositionByName (p :: ps) name = Some p.
Proof.
  intros Hblank. unfold findUserByName, findPositionByName. rewrite Hblank.
  cbn [list_find]. rewrite !decide_True; [done|apply includes_empty|].
  right. right. apply includes_empty.
Qed.

Lemma blank_name_finds_first_witness :
  findUserByName Example.staff "  " = head Example.staff ∧
  findPositionByName Example.places "  " = head Example.places.
Proof.
  apply (blank_name_finds_first _ _ _ _ "  "). vm_compute. reflexivity.
Defined.

(** ** GET /schedule/consecutive/:userId *)

Section ConsecutiveFacts.
Context (P : Platform) (workDates : gset Z) (centerKey : Z).

Lemma closeRun_lengths st k :
  (length (Consecutive.centerStreak st) ≤ length (Consecutive.longestStreak st))%nat →
  (length (Consecutive.longestStreak st) ≤ k)%nat →
  (length (Consecutive.activeStreak st) ≤ k)%nat →
  let st' := Consecutive.closeRun centerKey st in
  (length (Consecutive.centerStreak st') ≤ length (Consecutive.longestStreak st'))%nat ∧
  (length (Consecutive.longestStreak st') ≤ k)%nat.
Proof.
  intros H1 H2 H3. unfold Consecutive.closeRun.
  cbn [Consecutive.centerStreak Consecutive.longestStreak].
  repeat case_decide; lia.
Qed.

Lemma visit_lengths st k day :
  (length (Consecutive.centerStreak st) ≤ length (Consecutive.longestStreak st))%nat →
  (length (Consecutive.longestStreak st) ≤ k)%nat →
  (length (Consecutive.activeStreak st) ≤ k)%nat →
  let st' := Consecutive.visit P workDates centerKey st day in
  (length (Consecutive.centerStreak st') ≤ length (Consecutive.longestStreak st'))%nat ∧
  (length (Consecutive.longestStreak st') ≤ Datatypes.S k)%nat ∧
  (length (Consecutive.activeStreak st') ≤ Datatypes.S k)%nat.
Proof.
  intros H1 H2 H3. unfold Consecutive.visit. case_decide.
  - cbn [Consecutive.centerStreak Consecutive.longestStreak Consecutive.activeStreak].
    rewrite length_app. simpl. lia.
  - destruct (closeRun_lengths st k H1 H2 H3) as [H4 H5]. cbv zeta in H4, H5.
    cbn [Consecutive.centerStreak Consecutive.longestStreak Consecutive.activeStreak
         length].
    split; [done|]. split; lia.
Qed.

Lemma walk_lengths l st k :
  (length (Consecutive.centerStreak st) ≤ length (Consecutive.longestStreak st))%nat →
  (length (Consecutive.longestStreak st) ≤ k)%nat →
  (length (Consecutive.activeStreak st) ≤ k)%nat →
  let st' := foldl (Consecutive.visit P workDates centerKey) st l in
  (length (Consecutive.centerStreak st') ≤ length (Consecutive.longestStreak st'))%nat ∧
  (length (Consecutive.longestStreak st') ≤ k + length l)%nat ∧
  (length (Consecutive.activeStreak st') ≤ k + length l)%nat.
Proof.
  revert st k. induction l as [|day l IH]; intros st k H1 H2 H3.
  - simpl. repeat split; lia.
  - cbn [foldl length].
    destruct (visit_lengths st k day H1 H2 H3) as (H4 & H5 & H6).
    destruct (IH _ _ H4 H5 H6) as (H7 & H8 & H9).
    split; [done|]. split; lia.
Qed.

(** The dates of the three arrays are labels of work dates that were
    visited, and the centre streak is empty or holds the centre date. *)
Lemma closeRun_dates (known : Z → Prop) st :
  (Consecutive.centerStreak st = [] ∨ centerKey ∈ Consecutive.centerStreak st) →
  (∀ x, x ∈ Consecutive.centerStreak st ∨ x ∈ Consecutive.longestStreak st ∨
        x ∈ Consecutive.activeStreak st → known x) →
  let st' := Consecutive.closeRun centerKey st in
  (Consecutive.centerStreak st' = [] ∨ centerKey ∈ Consecutive.centerStreak st') ∧
  (∀ x, x ∈ Consecutive.centerStreak st' ∨ x ∈ Consecutive.longestStreak st' →
        known x).
Proof.
  intros Hcenter Hknown. unfold Consecutive.closeRun.
  cbn [Consecutive.centerStreak Consecutive.longestStreak].
  repeat case_decide; split; try done; try (by right); intros x [?|?]; apply Hknown; tauto.
Qed.

Lemma walk_dates l st (known : Z → Prop) :
  (∀ d, d ∈ l → d ∈ workDates → known (Consecutive.label P d)) →
  (Consecutive.centerStreak st = [] ∨ centerKey ∈ Consecutive.centerStreak st) →
  (∀ x, x ∈ Consecutive.centerStreak st ∨ x ∈ Consecutive.longestStreak st ∨
        x ∈ Consecutive.activeStreak st → known x) →
  let st' := foldl (Consecutive.visit P workDates centerKey) st l in
  (Consecutive.centerStreak st' = [] ∨ centerKey ∈ Consecutive.centerStreak st') ∧
  (∀ x, x ∈ Consecutive.centerStreak st' ∨ x ∈ Consecutive.longestStreak st' ∨
        x ∈ Consecutive.activeStreak st' → known x).
Proof.
  revert st. induction l as [|day l IH]; intros st Hl Hcenter Hknown; [done|].
  cbn [foldl]. apply IH.
  - intros d Hd. apply Hl. by right.
  - unfold Consecutive.visit. case_decide; [done|].
    by apply (closeRun_dates known).
  - unfold Consecutive.visit. case_decide as Hday.
    + cbn [Consecutive.centerStreak Consecutive.longestStreak Consecutive.activeStreak].
      intros x [?|[?|[?| ->%list_elem_of_singleton]%elem_of_app]];
        [apply Hknown; tauto..|].
      apply Hl; [left|done].
    + destruct (closeRun_dates known st Hcenter Hknown) as [_ Hk].
      cbn [Consecutive.centerStreak Consecutive.longestStreak Consecutive.activeStreak].
      intros x [?|[?|?%elem_of_nil]]; [apply Hk; tauto..|done].
Qed.

End ConsecutiveFacts.

Lemma consecutive_report P S userId date r :
  Consecutive.report P S userId date = Some r →
  ∃ centerDate empShifts, r = Consecutive.reportOf P userId centerDate empShifts.
Proof.
  unfold Consecutive.report.
  destruct (match date with Some _ => _ | None => _ end) as [centerDate|]; [|done].
  cbn. intros [= <-]. by eexists _, _.
Qed.

(** X11. In the answer of the consecutive-days endpoint the current streak
    is never longer than the longest streak, which is at most the 21 days
    looked at; a hard block is reported from 7 days on, a need for approval
    at exactly 6, and never both. *)
Theorem consecutive_flags (P : Platform) (S : Sling) (userId : option Z)
    (date : option string) (r : Consecutive.Report) :
  Consecutive.report P S userId date = Some r →
  (Consecutive.currentStreak r ≤ Consecutive.r_longestStreak r ≤ 21)%nat ∧
  (Consecutive.hardBlock r = true ↔ (7 ≤ Consecutive.currentStreak r)%nat) ∧
  (Consecutive.needsApproval r = true ↔ Consecutive.currentStreak r = 6%nat) ∧
  Consecutive.hardBlock r && Consecutive.needsApproval r = false.
Proof.
  intros (centerDate & empShifts & ->)%consecutive_report.
  unfold Consecutive.reportOf.
  cbn [Consecutive.currentStreak Consecutive.r_longestStreak Consecutive.hardBlock
       Consecutive.needsApproval].
  unfold Consecutive.streaksOf.
  set (key := toISODatePT P centerDate). set (workDates := list_to_set _).
  set (l := seqZ _ 21).
  set (start := {| Consecutive.centerStreak := [] |}).
  destruct (walk_lengths P workDates key l start 0) as (H1 & H2 & H3);
    [simpl; lia..|].
  destruct (closeRun_lengths key (foldl (Consecutive.visit P workDates key) start l)
              (0 + length l) H1 H2 H3) as [H4 H5].
  cbv zeta in H4, H5.
  set (st := Consecutive.closeRun key _) in *.
  assert (length l = 21%nat) as Hl by (subst l; by rewrite length_seqZ).
  rewrite Hl in H5.
  unfold MAX_CONSECUTIVE_DAYS, WARN_CONSECUTIVE_DAYS.
  split; [lia|].
  destruct (Z.leb_spec 7 (Z.of_nat (length (Consecutive.centerStreak st))));
    destruct (Z.leb_spec 6 (Z.of_nat (length (Consecutive.centerStreak st))));
    destruct (Z.ltb_spec (Z.of_nat (length (Consecutive.centerStreak st))) 7);
    cbn [andb]; repeat split; (lia || done).
Qed.

Lemma consecutive_flags_witness :
  ∃ r, Consecutive.report Example.utc (Example.sling Example.monToFri)
         (Some Example.JESUS) (Some "2025-02-15"%string) = Some r ∧
       (Consecutive.currentStreak r ≤ Consecutive.r_longestStreak r ≤ 21)%nat ∧
       Consecutive.hardBlock r && Consecutive.needsApproval r = false.
Proof.
  eexists. split; [vm_compute; reflexivity|].
  lazymatch goal with
  | |- _ ∧ Consecutive.hardBlock ?r && _ = _ =>
      destruct (consecutive_flags Example.utc (Example.sling Example.monToFri)
                  (Some Example.JESUS) (Some "2025-02-15"%string) r)
        as (H1 & _ & _ & H2); [vm_compute; reflexivity|]
  end.
  split; [exact H1|exact H2].
Defined.

(** X12. The current streak of the consecutive-days endpoint is either empty
    or holds the centre date; every date of the current and of the longest
    streak is one of the work dates in range; so a centre date that is not
    a work date gives a current streak of 0: the day asked about is not
    counted as worked. *)
Theorem current_streak_holds_center (P : Platform) (S : Sling) (userId : option Z)
    (date : option string) (r : Consecutive.Report) :
  Consecutive.report P S userId date = Some r →
  (Consecutive.currentStreakDates r = [] ∨
   Consecutive.centerDate r ∈ Consecutive.currentStreakDates r) ∧
  (∀ x, x ∈ Consecutive.currentStreakDates r ∨ x ∈ Consecutive.longestStreakDates r →
        x ∈ Consecutive.workDatesInRange r) ∧
  (Consecutive.centerDate r ∉ Consecutive.workDatesInRange r →
   Consecutive.currentStreak r = 0%nat).
Proof.
  intros (centerDate & empShifts & ->)%consecutive_report.
  unfold Consecutive.reportOf.
  cbn [Consecutive.currentStreak Consecutive.currentStreakDates
       Consecutive.longestStreakDates Consecutive.centerDate
       Consecutive.workDatesInRange].
  unfold Consecutive.streaksOf.
  set (key := toISODatePT P centerDate).
  set (worked := (λ s, toDateString P (s_start s)) <$> empShifts).
  set (l := seqZ _ 21).
  set (start := {| Consecutive.centerStreak := [] |}).
  set (known := λ x, x ∈ Js.sort (λ a b, Qc_of_Z (a - b))
                           (Consecutive.label P <$> foldl setAdd [] worked)).
  destruct (walk_dates P (list_to_set worked) key l start known) as [H1 H2].
  { intros d _ Hd%elem_of_list_to_set. subst known. cbv beta.
    apply elem_of_sort, list_elem_of_fmap. exists d. split; [done|].
    apply foldl_setAdd_elem. by right. }
  { by left. }
  { intros x [?%elem_of_nil|[?%elem_of_nil|?%elem_of_nil]]; done. }
  cbv zeta in H1, H2.
  destruct (closeRun_dates key known _ H1 H2) as [H3 H4]. cbv zeta in H3, H4.
  set (st := Consecutive.closeRun key _) in *.
  split; [done|]. split; [exact H4|].
  intros Hout. destruct H3 as [->|Hin]; [done|].
  destruct Hout. apply H4. by left.
Qed.

Lemma current_streak_holds_center_witness :
  ∃ r, Consecutive.report Example.utc (Example.sling Example.monToFri)
         (Some Example.JESUS) (Some "2025-02-15"%string) = Some r ∧
       (Consecutive.centerDate r ∉ Consecutive.workDatesInRange r →
        Consecutive.currentStreak r = 0%nat).
Proof.
  eexists. split; [vm_compute; reflexivity|].
  lazymatch goal with
  | |- Consecutive.centerDate ?r ∉ _ → _ =>
      destruct (current_streak_holds_center Example.utc
                  (Example.sling Example.monToFri)
                  (Some Example.JESUS) (Some "2025-02-15"%string) r)
        as (_ & _ & H); [vm_compute; reflexivity|]
  end.
  exact H.
Defined.

(** ** GET /weekly-hours/:userId *)

Lemma round2_nonneg x : (0 ≤ x)%Qc → (0 ≤ round2 x)%Qc.
Proof.
  intros Hx. unfold round2. unfold Qcdiv.
  apply Qcmult_nonneg_nonneg.
  - rewrite <- Z2Qc_inj_0. apply (proj1 (Z2Qc_inj_le _ _)).
    change 0 with (Qfloor 0). apply Qfloor_resp_le.
    change (0 ≤ x * Qc_of_Z 100 + Q2Qc (1 # 2))%Qc.
    apply Qcplus_nonneg_nonneg; [|by apply (bool_decide_unpack _)].
    apply Qcmult_nonneg_nonneg; [done|by apply (bool_decide_unpack _)].
  - apply Qclt_le_weak, Qcinv_pos. by apply (bool_decide_unpack _).
Qed.

Lemma round2_0 : round2 0 = 0%Qc.
Proof. apply Qc_is_canon. reflexivity. Qed.

Lemma weekly_report P S userId week r :
  WeeklyHours.report P S userId week = Some r →
  ∃ empShifts, r = WeeklyHours.reportOf P userId empShifts.
Proof.
  unfold WeeklyHours.report.
  destruct (getWeekRangeOf P _) as [range|]; [|done].
  cbn. intros [= <-]. by eexists.
Qed.

(** X13. The weekly-hours endpoint never reports negative hours left before
    overtime, and reports none left whenever it says the cap is exceeded. *)
Theorem hours_left_before_overtime (P : Platform) (S : Sling) (userId : option Z)
    (week : option string) (r : WeeklyHours.Report) :
  WeeklyHours.report P S userId week = Some r →
  (0 ≤ WeeklyHours.remainingBeforeOT r)%Qc ∧
  (WeeklyHours.wouldExceedCap r = true → WeeklyHours.remainingBeforeOT r = 0%Qc).
Proof.
  intros (empShifts & ->)%weekly_report. unfold WeeklyHours.reportOf.
  cbn [WeeklyHours.remainingBeforeOT WeeklyHours.wouldExceedCap].
  set (total := WeeklyHours.totalHours _). split.
  - apply round2_nonneg. by destruct (Qcmax_le 0 (MAX_WEEKLY_HOURS - total)).
  - intros Hover%bool_decide_eq_true. unfold Qcmax.
    rewrite decide_False; [apply round2_0|].
    intros Hle. apply (Qclt_not_le _ _ Hover).
    apply Qcle_minus_iff. done.
Qed.

Lemma hours_left_before_overtime_witness :
  ∃ r, WeeklyHours.report Example.utc (Example.sling Example.thirtyFive)
         (Some Example.JESUS) (Some "2025-02-15"%string) = Some r ∧
       (0 ≤ WeeklyHours.remainingBeforeOT r)%Qc.
Proof.
  eexists. split; [vm_compute; reflexivity|].
  lazymatch goal with
  | |- (0 ≤ WeeklyHours.remainingBeforeOT ?r)%Qc =>
      destruct (hours_left_before_overtime Example.utc
                  (Example.sling Example.thirtyFive)
                  (Some Example.JESUS) (Some "2025-02-15"%string) r)
        as [H _]; [vm_compute; reflexivity|]
  end.
  exact H.
Defined.


Lemma addToDay_keys dateKey sh hours breakdown :
  (WeeklyHours.addToDay dateKey sh hours breakdown).*1 =
  if decide (dateKey ∈ breakdown.*1) then breakdown.*1 else breakdown.*1 ++ [dateKey].
Proof.
  induction breakdown as [|[k d] rest IH]; [done|].
  cbn [WeeklyHours.addToDay]. destruct (decide (k = dateKey)) as [->|Hk].
  - csimpl. rewrite decide_True by left. done.
  - csimpl. rewrite IH.
    destruct (decide (dateKey ∈ rest.*1)) as [Hin|Hout].
    + by rewrite decide_True by by right.
    + rewrite decide_False; [done|].
      intros [?|?]%elem_of_cons; [congruence|done].
Qed.

Lemma addToDay_count dateKey sh hours breakdown :
  sum_list ((λ kd, length (WeeklyHours.d_shifts kd.2)) <$>
            WeeklyHours.addToDay dateKey sh hours breakdown) =
  Datatypes.S (sum_list ((λ kd, length (WeeklyHours.d_shifts kd.2)) <$> breakdown)).
Proof.
  induction breakdown as [|[k d] rest IH]; [done|].
  cbn [WeeklyHours.addToDay]. destruct (decide (k = dateKey)) as [->|Hk]; csimpl.
  - rewrite length_app. simpl. lia.
  - rewrite IH. lia.
Qed.

Lemma sumsOf_breakdown P l acc :
  NoDup (WeeklyHours.dailyBreakdown acc).*1 →
  let sums := foldl (WeeklyHours.addShift P) acc l in
  NoDup (WeeklyHours.dailyBreakdown sums).*1 ∧
  sum_list ((λ kd, length (WeeklyHours.d_shifts kd.2)) <$>
            WeeklyHours.dailyBreakdown sums) =
  (sum_list ((λ kd, length (WeeklyHours.d_shifts kd.2)) <$>
             WeeklyHours.dailyBreakdown acc) + length l)%nat ∧
  WeeklyHours.totalHours sums =
  foldl (λ sum s,
           (sum + orNum (s_duration s) (hoursBetween (s_start s) (s_end s)))%Qc)
        (WeeklyHours.totalHours acc) l.
Proof.
  revert acc. induction l as [|s l IH]; intros acc Hacc.
  - simpl. split; [done|]. split; [lia|done].
  - cbn [foldl length].
    destruct (IH (WeeklyHours.addShift P acc s)) as (H1 & H2 & H3).
    + unfold WeeklyHours.addShift. cbn [WeeklyHours.dailyBreakdown].
      rewrite addToDay_keys. case_decide as Hin; [done|].
      apply NoDup_app. split; [done|]. split; [|apply NoDup_singleton].
      by intros x Hx ->%list_elem_of_singleton.
    + split; [done|]. split; [|done].
      cbv zeta in H2. rewrite H2. unfold WeeklyHours.addShift.
      cbn [WeeklyHours.dailyBreakdown]. rewrite addToDay_count. lia.
Qed.

(** X14. In the answer of the weekly-hours endpoint the daily breakdown
    has one entry per Pacific date, and the shifts listed under the dates
    are as many as the shift count: each shift of the week is listed under
    one date. *)
Theorem breakdown_lists_every_shift (P : Platform) (S : Sling) (userId : option Z)
    (week : option string) (r : WeeklyHours.Report) :
  WeeklyHours.report P S userId week = Some r →
  NoDup (WeeklyHours.r_dailyBreakdown r).*1 ∧
  sum_list ((λ kd, length (WeeklyHours.d_shifts kd.2)) <$>
            WeeklyHours.r_dailyBreakdown r) = WeeklyHours.shiftCount r.
Proof.
  intros (empShifts & ->)%weekly_report. unfold WeeklyHours.reportOf.
  cbn [WeeklyHours.r_dailyBreakdown WeeklyHours.shiftCount].
  unfold WeeklyHours.sumsOf.
  set (init := {| WeeklyHours.totalHours := 0%Qc |}).
  destruct (sumsOf_breakdown P empShifts init) as (H1 & H2 & _); [constructor|].
  cbv zeta in H1, H2. rewrite <- !list_fmap_compose.
  split; [exact H1|]. etrans; [exact H2|reflexivity].
Qed.

Lemma breakdown_lists_every_shift_witness :
  ∃ r, WeeklyHours.report Example.utc (Example.sling Example.thirtyFive)
         (Some Example.JESUS) (Some "2025-02-15"%string) = Some r ∧
       WeeklyHours.shiftCount r = 5%nat ∧
       NoDup (WeeklyHours.r_dailyBreakdown r).*1 ∧
       sum_list ((λ kd, length (WeeklyHours.d_shifts kd.2)) <$>
                 WeeklyHours.r_dailyBreakdown r) = WeeklyHours.shiftCount r.
Proof.
  eexists. split; [vm_compute; reflexivity|]. split; [reflexivity|].
  apply (breakdown_lists_every_shift Example.utc (Example.sling Example.thirtyFive)
           (Some Example.JESUS) (Some "2025-02-15"%string)).
  vm_compute. reflexivity.
Defined.

(** X15. Asked about the week of the date of a validated request, the
    weekly-hours endpoint reports as total hours the weekly hours of the
    verdict of Validate for that employee. *)
Theorem weekly_hours_match_validate (P : Platform) (S : Sling) (req : Request)
    (userId : Z) (range : DayRange) (week : string) :
  accepted P req userId range →
  week ≠ ""%string →
  resolveTarget P week = Some (isoDate range * MS_DAY) →
  ∃ v r,
    validate P S req = Some (Ok v) ∧
    WeeklyHours.report P S (Some userId) (Some week) = Some r ∧
    WeeklyHours.r_totalHours r = weeklyHours v.
Proof.
  intros Hacc Hweek Htarget.
  destruct (validate_verdict P S req userId range Hacc)
    as (v & streak & Hv & _ & _ & _ & _ & Hweekly & _).
  exists v. unfold WeeklyHours.report.
  apply String.eqb_neq in Hweek as ->.
  unfold getWeekRangeOf, getDayRange. rewrite Htarget.
  cbn [fmap option_fmap option_map fst snd].
  eexists. split; [done|]. split; [done|].
  rewrite Hweekly. unfold WeeklyHours.reportOf. cbn [WeeklyHours.r_totalHours].
  f_equal. unfold WeeklyHours.sumsOf.
  set (init := {| WeeklyHours.totalHours := 0%Qc |}).
  destruct (sumsOf_breakdown P
              (shiftsOfUser (Some userId)
                 (shifts (getOrgCalendar S
                    (getWeekRange P (isoDate range)).1
                    (getWeekRange P (isoDate range)).2))) init) as (_ & _ & H);
    [constructor|].
  exact H.
Qed.

Lemma weekly_hours_match_validate_witness :
  ∃ v r,
    validate Example.utc (Example.sling Example.thirtyFive) Example.satRequest
      = Some (Ok v) ∧
    WeeklyHours.report Example.utc (Example.sling Example.thirtyFive)
      (Some Example.JESUS) (Some "2025-02-15"%string) = Some r ∧
    WeeklyHours.r_totalHours r = weeklyHours v.
Proof.
  apply (weekly_hours_match_validate Example.utc (Example.sling Example.thirtyFive)
           Example.satRequest Example.JESUS Example.satRange "2025-02-15").
  - accept.
  - done.
  - vm_compute. reflexivity.
Defined.

(** ** GET /availability/:date *)

(** X16. On the leaves and availability records of one day, the status the
    availability endpoint shows for an employee agrees with gate 1 of
    Validate: ON_LEAVE exactly when gate 1 raises LEAVE-001;
    NO_AVAILABILITY_SUBMITTED exactly when gate 1 gives the AVAIL-FALLBACK
    warning; and AVAIL-001 is raised only for an employee shown as
    AVAILABLE_PARTIAL or, the leave hiding the windows, as ON_LEAVE. *)
Theorem availability_status_and_gate1 (P : Platform) (leaves : list Leave)
    (availability : list Availability) (uid : Z) (nm : string)
    (startTime endTime : option HM) :
  let e := AvailabilityDay.entryOf leaves availability (uid, nm) in
  let g := gate1 P uid leaves availability startTime endTime in
  (AvailabilityDay.status e = AvailabilityDay.ON_LEAVE ↔
   flag LEAVE_001 RED ∈ g.1) ∧
  (AvailabilityDay.status e = AvailabilityDay.NO_AVAILABILITY_SUBMITTED ↔
   flag AVAIL_FALLBACK YELLOW ∈ g.2) ∧
  (flag AVAIL_001 RED ∈ g.1 →
   AvailabilityDay.status e = AvailabilityDay.ON_LEAVE ∨
   AvailabilityDay.status e = AvailabilityDay.AVAILABLE_PARTIAL).
Proof.
  intros e g. subst e g. unfold AvailabilityDay.entryOf, gate1. cbn [fst snd].
  destruct (list_find _ leaves) as [[i hasLeave]|];
    destruct (filter _ availability) as [|a l];
    destruct startTime as [st|], endTime as [et|];
    cbn [length AvailabilityDay.status]; try rewrite decide_True by (simpl; lia);
    try rewrite decide_False by (simpl; lia);
    try destruct (existsb a_fullDay (a :: l)); cbn [negb];
    try match goal with
      | |- context [if negb ?b then _ else _] => destruct b
      end;
    cbn [negb fst snd app AvailabilityDay.status]; unfold flag;
    rewrite ?elem_of_cons, ?elem_of_nil; intuition congruence.
Qed.

(** ** GET /schedule/coverage/:date *)

Lemma floor_report P S date r :
  Floor.report P S date = Some r →
  ∃ range shifts, r = Floor.reportOf P range shifts.
Proof.
  unfold Floor.report. destruct (getDayRange P date) as [range|]; [|done].
  cbn. intros [= <-]. by eexists _, _.
Qed.

(** X17. Every warning of the floor-coverage endpoint is about a location
    with exactly one person on the floor where two are required; a 9th St
    warning is only ever given on a weekend, the weekday minimum there
    being one. *)
Theorem understaffed_means_one (P : Platform) (S : Sling) (date : string)
    (r : Floor.Report) :
  Floor.report P S date = Some r →
  ∀ w, w ∈ Floor.warnings r →
    Floor.issue w = Floor.ClementStaff 1 2 ∨
    (Floor.r_isWeekend r = true ∧ Floor.issue w = Floor.NinthStaff 1 2).
Proof.
  intros (range & shifts & ->)%floor_report w. unfold Floor.reportOf.
  cbn [Floor.warnings Floor.r_isWeekend].
  intros (h & -> & [Hshort _]%list_elem_of_filter)%list_elem_of_fmap.
  unfold Floor.warningOf. cbn [Floor.issue].
  unfold Floor.COVERAGE_MINS_CLEMENT_WEEKEND, Floor.COVERAGE_MINS_CLEMENT_WEEKDAY,
    Floor.COVERAGE_MINS_NINTH_WEEKEND, Floor.COVERAGE_MINS_NINTH_WEEKDAY in *.
  assert (∀ side least, Floor.short side least = true →
                        (0 < Floor.count side < least)%nat) as Hcount.
  { intros side least [?%bool_decide_eq_true ?%bool_decide_eq_true]%andb_true_iff.
    lia. }
  destruct (Floor.short (Floor.clement h) (if isWeekend range then 2%nat else 2%nat))
    eqn:Hclement.
  - left. apply Hcount in Hclement.
    destruct (isWeekend range); f_equal; lia.
  - right. cbn [orb] in Hshort. apply Hcount in Hshort.
    destruct (isWeekend range); [|lia]. split; [done|]. f_equal. lia.
Qed.

Lemma understaffed_means_one_witness :
  ∃ r, Floor.report Example.utc (Example.sling Example.toCover) "2025-02-15"
         = Some r ∧
       Floor.warnings r ≠ [] ∧
       ∀ w, w ∈ Floor.warnings r →
         Floor.issue w = Floor.ClementStaff 1 2 ∨
         (Floor.r_isWeekend r = true ∧ Floor.issue w = Floor.NinthStaff 1 2).
Proof.
  eexists. split; [vm_compute; reflexivity|]. split; [done|].
  apply (understaffed_means_one Example.utc (Example.sling Example.toCover)
           "2025-02-15").
  vm_compute. reflexivity.
Defined.

Lemma peakOf_ge xs x : x ∈ xs → (x ≤ Floor.peakOf xs)%nat.
Proof.
  destruct xs as [|y xs]; [by intros ?%elem_of_nil|]. simpl.
  induction xs as [|z xs IH]; simpl.
  - by intros ->%list_elem_of_singleton.
  - intros [->|[->|Hx]%elem_of_cons]%elem_of_cons; [|lia|].
    + assert (y ≤ foldr Nat.max y xs)%nat by (apply IH; left). lia.
    + assert (x ≤ foldr Nat.max y xs)%nat by (apply IH; by right). lia.
Qed.

Lemma leastOf_le xs x : x ∈ xs → (Floor.leastOf xs ≤ x)%nat.
Proof.
  destruct xs as [|y xs]; [by intros ?%elem_of_nil|]. simpl.
  induction xs as [|z xs IH]; simpl.
  - by intros ->%list_elem_of_singleton.
  - intros [->|[->|Hx]%elem_of_cons]%elem_of_cons; [|lia|].
    + assert (foldr Nat.min y xs ≤ y)%nat by (apply IH; left). lia.
    + assert (foldr Nat.min y xs ≤ x)%nat by (apply IH; by right). lia.
Qed.

Lemma length_omap_le {A B} (f : A → option B) (l : list A) :
  (length (omap f l) ≤ length l)%nat.
Proof.
  induction l as [|x l IH]; [done|]. csimpl. destruct (f x); simpl; lia.
Qed.

(** X18. The floor-coverage endpoint lists at most the 26 half hours from
    06:00 to 18:30, and only those with somebody on the floor; in its
    summary no half hour has more people at a location than the peak of
    that location, none with somebody at Clement has fewer than the Clement
    minimum, and there are no more warnings than half hours listed. *)
Theorem floor_summary_bounds (P : Platform) (S : Sling) (date : string)
    (r : Floor.Report) :
  Floor.report P S date = Some r →
  (length (Floor.coverage r) ≤ 26)%nat ∧
  (Floor.warningCount (Floor.summary r) ≤ length (Floor.coverage r))%nat ∧
  ∀ h, h ∈ Floor.coverage r →
    Floor.time h ∈ Floor.times ∧
    (0 < Floor.count (Floor.clement h) ∨ 0 < Floor.count (Floor.ninthSt h))%nat ∧
    (Floor.count (Floor.clement h) ≤ Floor.clementPeak (Floor.summary r))%nat ∧
    (Floor.count (Floor.ninthSt h) ≤ Floor.ninthStPeak (Floor.summary r))%nat ∧
    ((0 < Floor.count (Floor.clement h))%nat →
     (Floor.clementMin (Floor.summary r) ≤ Floor.count (Floor.clement h))%nat).
Proof.
  intros (range & shifts & ->)%floor_report. unfold Floor.reportOf.
  cbn [Floor.coverage Floor.summary Floor.warningCount Floor.clementPeak
       Floor.ninthStPeak Floor.clementMin].
  set (hours := omap _ Floor.times).
  split; [apply (length_omap_le _ Floor.times)|].
  split; [rewrite length_fmap; apply length_filter|].
  intros h Hh.
  assert (Floor.time h ∈ Floor.times ∧
          (0 < Floor.count (Floor.clement h) ∨ 0 < Floor.count (Floor.ninthSt h))%nat)
    as [Htime Hsome].
  { subst hours. apply list_elem_of_omap in Hh as (t & Ht & Hslot).
    unfold Floor.slotOf in Hslot.
    destruct (_ || _) eqn:Hany; [|done]. injection Hslot as <-.
    cbn [Floor.time Floor.clement Floor.ninthSt Floor.sideOf Floor.count].
    split; [done|].
    apply orb_true_iff in Hany as [?%bool_decide_eq_true|?%bool_decide_eq_true]; auto. }
  split; [done|]. split; [done|].
  assert (∀ side : Floor.Slot → Floor.Side,
            (0 < Floor.count (side h))%nat →
            Floor.count (side h)
              ∈ (λ h, Floor.count (side h)) <$>
                filter (λ h, (0 < Floor.count (side h))%nat) hours) as Hin.
  { intros side Hpos. apply list_elem_of_fmap. exists h. split; [done|].
    by apply list_elem_of_filter. }
  split; [|split].
  - destruct (decide (0 < Floor.count (Floor.clement h))%nat) as [Hpos|]; [|lia].
    apply peakOf_ge, (Hin Floor.clement Hpos).
  - destruct (decide (0 < Floor.count (Floor.ninthSt h))%nat) as [Hpos|]; [|lia].
    apply peakOf_ge, (Hin Floor.ninthSt Hpos).
  - intros Hpos. apply leastOf_le, (Hin Floor.clement Hpos).
Qed.

Lemma floor_summary_bounds_witness :
  ∃ r, Floor.report Example.utc (Example.sling Example.toCover) "2025-02-15"
         = Some r ∧
       (0 < length (Floor.coverage r) ≤ 26)%nat ∧
       (Floor.warningCount (Floor.summary r) ≤ length (Floor.coverage r))%nat.
Proof.
  eexists. split; [vm_compute; reflexivity|]. split; [split; [vm_compute; lia|]|].
  all: lazymatch goal with
       | |- context [Floor.coverage ?r] =>
           destruct (floor_summary_bounds Example.utc (Example.sling Example.toCover)
                       "2025-02-15" r) as (H1 & H2 & _); [vm_compute; reflexivity|]
       end.
  - exact H1.
  - exact H2.
Defined.

(** ** GET /conflicts *)

Lemma ordered_by_date a b :
  Js.ordered Conflicts.byDate a b ↔ Conflicts.date a ≤ Conflicts.date b.
Proof.
  unfold Js.ordered, Conflicts.byDate. rewrite <- Z2Qc_inj_0, <- Z2Qc_inj_le. lia.
Qed.

Global Instance ordered_by_date_total : Total (Js.ordered Conflicts.byDate).
Proof. intros a b. rewrite !ordered_by_date. lia. Qed.

Global Instance ordered_by_date_trans : Transitive (Js.ordered Conflicts.byDate).
Proof. intros a b c. rewrite !ordered_by_date. lia. Qed.

(** The filter with the [seen] set keeps one conflict of each key that is
    not yet seen, the first one. *)
Lemma uniqueFrom_spec seen l :
  NoDup (Conflicts.keyOf <$> Conflicts.uniqueFrom seen l) ∧
  (∀ c, c ∈ Conflicts.uniqueFrom seen l → c ∈ l ∧ Conflicts.keyOf c ∉ seen) ∧
  (∀ c, c ∈ l →
        Conflicts.keyOf c ∈ seen ∨
        ∃ c', c' ∈ Conflicts.uniqueFrom seen l ∧ Conflicts.keyOf c' = Conflicts.keyOf c).
Proof.
  revert seen. induction l as [|c l IH]; intros seen.
  { simpl. split; [constructor|]. split; by intros c ?%elem_of_nil. }
  cbn [Conflicts.uniqueFrom]. destruct (decide (Conflicts.keyOf c ∈ seen)) as [Hin|Hout].
  - destruct (IH seen) as (H1 & H2 & H3). split; [done|]. split.
    + intros c' Hc'. destruct (H2 c' Hc'). split; [by right|done].
    + intros c' [->|Hc']%elem_of_cons; [by left|]. by apply H3.
  - destruct (IH (Conflicts.keyOf c :: seen)) as (H1 & H2 & H3). split; [|split].
    + csimpl. constructor; [|done].
      intros (c' & Hkey & Hc')%list_elem_of_fmap.
      destruct (H2 c' Hc') as [_ Hnew]. apply Hnew. rewrite Hkey. left.
    + intros c' [->|Hc']%elem_of_cons; [split; [left|done]|].
      destruct (H2 c' Hc') as [? Hnew]. split; [by right|].
      intros ?. apply Hnew. by right.
    + intros c' [->|Hc']%elem_of_cons.
      * right. exists c. split; [left|done].
      * destruct (H3 c' Hc') as [[Heq|?]%elem_of_cons|(c'' & ? & ?)].
        -- right. exists c. split; [left|done].
        -- by left.
        -- right. exists c''. split; [by right|done].
Qed.

Lemma conflicts_report P S daysParam r :
  Conflicts.report P S daysParam = Some r →
  let cal :=
    getOrgCalendar S (Date_now P)
      (endOfDay P (addDays P (Date_now P) (Conflicts.days r))) in
  ∃ found,
    Conflicts.allConflicts P cal = Some found ∧
    Conflicts.conflictCount r = length (Conflicts.unique found) ∧
    Conflicts.conflicts r = Js.sort Conflicts.byDate (Conflicts.unique found).
Proof.
  unfold Conflicts.report.
  destruct (Conflicts.allConflicts P _) as [found|] eqn:Hfound; [|done].
  cbn. intros [= <-]. cbn [Conflicts.days Conflicts.conflictCount Conflicts.conflicts].
  by exists found.
Qed.

Lemma conflictsOf_red P lbud abud assigned shift uid c :
  c ∈ Conflicts.conflictsOf P lbud abud assigned shift uid →
  Conflicts.c_severity c = RED ∧ Conflicts.employeeId c = uid ∧
  Conflicts.date c = toISODatePT P (s_start shift).
Proof.
  unfold Conflicts.conflictsOf. rewrite !elem_of_app.
  intros [Hc|[Hc|Hc]]; repeat case_match;
    try (by apply elem_of_nil in Hc);
    by apply list_elem_of_singleton in Hc as ->.
Qed.

Lemma elem_of_allConflicts P cal found c :
  Conflicts.allConflicts P cal = Some found →
  c ∈ found ↔
  ∃ leaveByUserDate shift uid,
    Conflicts.leaveByUserDateOf P (leaves cal) = Some leaveByUserDate ∧
    shift ∈ Conflicts.assignedOf (shifts cal) ∧ s_employeeId shift = Some uid ∧
    c ∈ Conflicts.conflictsOf P leaveByUserDate
          (Conflicts.availByUserDateOf P (availability cal))
          (Conflicts.assignedOf (shifts cal)) shift uid.
Proof.
  unfold Conflicts.allConflicts.
  destruct (Conflicts.leaveByUserDateOf P (leaves cal)) as [lbud|]; [|done].
  cbn. intros [= <-]. rewrite list_elem_of_bind. split.
  - intros (shift & Hc & Hshift).
    destruct (s_employeeId shift) as [uid|] eqn:Huid; [|by apply elem_of_nil in Hc].
    by exists lbud, shift, uid.
  - intros (? & shift & uid & [= <-] & Hshift & Huid & Hc).
    exists shift. by rewrite Huid.
Qed.

(** What is listed against what was found. *)
Lemma conflicts_found P S daysParam r :
  Conflicts.report P S daysParam = Some r →
  let cal :=
    getOrgCalendar S (Date_now P)
      (endOfDay P (addDays P (Date_now P) (Conflicts.days r))) in
  ∃ found,
    Conflicts.allConflicts P cal = Some found ∧
    NoDup (Conflicts.keyOf <$> Conflicts.conflicts r) ∧
    Conflicts.conflictCount r = length (Conflicts.conflicts r) ∧
    (∀ c, c ∈ Conflicts.conflicts r → c ∈ found) ∧
    (∀ c, c ∈ found →
          ∃ c', c' ∈ Conflicts.conflicts r ∧ Conflicts.keyOf c' = Conflicts.keyOf c).
Proof.
  intros Hr cal. destruct (conflicts_report P S daysParam r Hr)
    as (found & Hfound & Hcount & Hlist).
  fold cal in Hfound. rewrite Hcount, Hlist. clear Hcount Hlist.
  destruct (uniqueFrom_spec [] found) as (H1 & H2 & H3).
  fold (Conflicts.unique found) in H1, H2, H3.
  exists found. split; [done|].
  split; [by rewrite sort_perm|]. split; [by rewrite sort_perm|]. split.
  - intros c Hc%elem_of_sort. by destruct (H2 c Hc).
  - intros c Hc. destruct (H3 c Hc) as [?%elem_of_nil|(c' & Hc' & Hkey)]; [done|].
    exists c'. split; [by apply elem_of_sort|done].
Qed.

(** X19. The conflicts endpoint lists every conflict it found under its key
    (type, employee, Pacific date) once and reports no other: no two listed
    conflicts share a key, the count is the length of the list, every listed
    conflict is RED, and the list is in ascending order of date. *)
Theorem conflicts_listed_once (P : Platform) (S : Sling) (daysParam : option Z)
    (r : Conflicts.Report) :
  Conflicts.report P S daysParam = Some r →
  let cal :=
    getOrgCalendar S (Date_now P)
      (endOfDay P (addDays P (Date_now P) (Conflicts.days r))) in
  NoDup (Conflicts.keyOf <$> Conflicts.conflicts r) ∧
  Conflicts.conflictCount r = length (Conflicts.conflicts r) ∧
  (∀ c, c ∈ Conflicts.conflicts r → Conflicts.c_severity c = RED) ∧
  (∀ i j a b, (i < j)%nat →
     Conflicts.conflicts r !! i = Some a → Conflicts.conflicts r !! j = Some b →
     Conflicts.date a ≤ Conflicts.date b) ∧
  ∃ found,
    Conflicts.allConflicts P cal = Some found ∧
    (∀ c, c ∈ Conflicts.conflicts r → c ∈ found) ∧
    (∀ c, c ∈ found →
          ∃ c', c' ∈ Conflicts.conflicts r ∧ Conflicts.keyOf c' = Conflicts.keyOf c).
Proof.
  intros Hr cal.
  destruct (conflicts_found P S daysParam r Hr)
    as (found & Hfound & Hnodup & Hcount & Hlisted & Hkept).
  fold cal in Hfound.
  split; [done|]. split; [done|]. split; [|split].
  - intros c Hc%Hlisted.
    apply (elem_of_allConflicts P cal found c Hfound) in Hc
      as (? & ? & ? & _ & _ & _ & Hin).
    by apply conflictsOf_red in Hin as [? _].
  - intros i j a b Hij Ha Hb. apply ordered_by_date.
    destruct (conflicts_report P S daysParam r Hr) as (found' & _ & _ & Hlist).
    eapply (sorted_lookup Conflicts.byDate); [|done..].
    rewrite Hlist. exact (sort_sorted Conflicts.byDate _).
  - by exists found.
Qed.

Lemma conflicts_listed_once_witness :
  ∃ r, Conflicts.report Example.utc (Example.sling Example.doubleBooked) None
         = Some r ∧
       Conflicts.conflictCount r = 2%nat ∧
       NoDup (Conflicts.keyOf <$> Conflicts.conflicts r) ∧
       Conflicts.conflictCount r = length (Conflicts.conflicts r).
Proof.
  eexists. split; [vm_compute; reflexivity|]. split; [reflexivity|].
  lazymatch goal with
  | |- _ ∧ Conflicts.conflictCount ?r = _ =>
      destruct (conflicts_listed_once Example.utc
                  (Example.sling Example.doubleBooked) None r)
        as (H1 & H2 & _); [vm_compute; reflexivity|]
  end.
  split; [exact H1|exact H2].
Defined.

Lemma cross_conflictsOf P lbud abud assigned shift uid c :
  c ∈ Conflicts.conflictsOf P lbud abud assigned shift uid ∧
  Conflicts.type c = Conflicts.CROSS_LOCATION_CONFLICT ↔
  c = {| Conflicts.type := Conflicts.CROSS_LOCATION_CONFLICT;
         Conflicts.c_severity := RED; Conflicts.employee := s_employee shift;
         Conflicts.employeeId := uid;
         Conflicts.date := toISODatePT P (s_start shift) |} ∧
  uid ∈ CROSS_LOCATION_POOL ∧
  s_locationId shift = Some LOCATIONS_CLEMENT ∧
  ∃ s, s ∈ assigned ∧ s_employeeId s = Some uid ∧
       toDateString P (s_start s) = toDateString P (s_start shift) ∧
       s_locationId s ≠ s_locationId shift ∧
       is_Some (truthyId (s_locationId s)).
Proof.
  unfold Conflicts.conflictsOf. rewrite !elem_of_app.
  set (sameDay := filter _ assigned).
  assert ((0 < length sameDay)%nat ∧ s_locationId shift = Some LOCATIONS_CLEMENT ↔
          s_locationId shift = Some LOCATIONS_CLEMENT ∧
          ∃ s, s ∈ assigned ∧ s_employeeId s = Some uid ∧
               toDateString P (s_start s) = toDateString P (s_start shift) ∧
               s_locationId s ≠ s_locationId shift ∧
               is_Some (truthyId (s_locationId s))) as Hsame.
  { split.
    - intros [Hlen Hloc]. split; [done|].
      destruct sameDay as [|s rest] eqn:Hs; [simpl in Hlen; lia|].
      assert (s ∈ sameDay) as Hin by (rewrite Hs; left).
      apply list_elem_of_filter in Hin as [(? & ? & ? & ? & ?) ?]. by exists s.
    - intros (Hloc & s & Hs & ? & ? & ? & ?). split; [|done].
      assert (s ∈ sameDay) as Hin.
      { apply list_elem_of_filter. split; [|done]. repeat split; try done.
        rewrite Hloc. by eexists. }
      destruct sameDay; [by apply elem_of_nil in Hin|simpl; lia]. }
  split.
  - intros [[Hc|[Hc|Hc]] Htype].
    + case_match; [apply list_elem_of_singleton in Hc as ->; done|].
      by apply elem_of_nil in Hc.
    + repeat case_match; try (by apply elem_of_nil in Hc).
      by apply list_elem_of_singleton in Hc as ->.
    + destruct (decide (uid ∈ CROSS_LOCATION_POOL)) as [Hpool|];
        [|by apply elem_of_nil in Hc].
      destruct (bool_decide (0 < length sameDay)%nat &&
                bool_decide (s_locationId shift = Some LOCATIONS_CLEMENT)) eqn:Hboth;
        [|by apply elem_of_nil in Hc].
      apply list_elem_of_singleton in Hc as ->. split; [done|]. split; [done|].
      apply Hsame.
      by apply andb_true_iff in Hboth as [?%bool_decide_eq_true ?%bool_decide_eq_true].
  - intros (-> & Hpool & Hrest). split; [|done]. right. right.
    rewrite decide_True by done.
    apply Hsame in Hrest as [Hlen Hloc].
    rewrite (bool_decide_eq_true_2 _ Hlen), (bool_decide_eq_true_2 _ Hloc).
    cbn [andb]. left.
Qed.

Lemma elem_of_assignedOf shifts s :
  s ∈ Conflicts.assignedOf shifts ↔
  s ∈ shifts ∧ ∃ uid, s_employeeId s = Some uid ∧ uid ≠ 0.
Proof.
  unfold Conflicts.assignedOf. rewrite list_elem_of_filter. split.
  - intros [[uid Huid] Hs]. split; [done|].
    destruct (s_employeeId s) as [k|]; [|done]. simpl in Huid.
    destruct (Z.eqb_spec k 0); [done|]. by exists k.
  - intros (Hs & uid & -> & Huid). split; [|done]. simpl.
    apply Z.eqb_neq in Huid as ->. by eexists.
Qed.

(** X20. The conflicts endpoint lists a cross-location conflict for an
    employee and a date exactly when the employee is in the cross-location
    pool and has a shift at the Clement location id that starts on that
    Pacific date, together with a shift that starts on the same local day
    at another location id: the conflict is raised from the Clement shift
    only, so two shifts that are both away from Clement raise none. *)
Theorem cross_location_from_clement (P : Platform) (S : Sling)
    (daysParam : option Z) (r : Conflicts.Report) (uid d : Z) :
  Conflicts.report P S daysParam = Some r →
  let cal :=
    getOrgCalendar S (Date_now P)
      (endOfDay P (addDays P (Date_now P) (Conflicts.days r))) in
  (∃ c, c ∈ Conflicts.conflicts r ∧
        Conflicts.keyOf c = (Conflicts.CROSS_LOCATION_CONFLICT, uid, d)) ↔
  uid ∈ CROSS_LOCATION_POOL ∧ uid ≠ 0 ∧
  ∃ s1 s2,
    s1 ∈ shifts cal ∧ s2 ∈ shifts cal ∧
    s_employeeId s1 = Some uid ∧ s_employeeId s2 = Some uid ∧
    s_locationId s1 = Some LOCATIONS_CLEMENT ∧
    s_locationId s2 ≠ Some LOCATIONS_CLEMENT ∧
    is_Some (truthyId (s_locationId s2)) ∧
    toDateString P (s_start s2) = toDateString P (s_start s1) ∧
    d = toISODatePT P (s_start s1).
Proof.
  intros Hr cal.
  destruct (conflicts_found P S daysParam r Hr)
    as (found & Hfound & _ & _ & Hlisted & Hkept).
  fold cal in Hfound. split.
  - intros (c & Hc%Hlisted & Hkey).
    apply (elem_of_allConflicts P cal found c Hfound) in Hc
      as (lbud & s1 & uid' & _ & Hs1 & Huid & Hc).
    injection Hkey as Htype <- <-.
    destruct (proj1 (cross_conflictsOf P _ _ _ _ _ _) (conj Hc Htype))
      as (-> & Hpool & Hloc & s2 & Hs2 & Huid2 & Hday & Hother & Htruthy).
    cbn [Conflicts.employeeId Conflicts.date].
    apply elem_of_assignedOf in Hs1 as (Hs1 & k & Hk & Hk0).
    apply elem_of_assignedOf in Hs2 as (Hs2 & _).
    rewrite Huid in Hk. injection Hk as <-.
    split; [done|]. split; [done|]. exists s1, s2.
    rewrite Hloc in Hother. done.
  - intros (Hpool & Huid0 & s1 & s2 & Hs1 & Hs2 & Huid1 & Huid2 & Hloc & Hother
            & Htruthy & Hday & ->).
    assert (∃ lbud, Conflicts.leaveByUserDateOf P (leaves cal) = Some lbud)
      as [lbud Hlbud].
    { unfold Conflicts.allConflicts in Hfound.
      destruct (Conflicts.leaveByUserDateOf P (leaves cal)) as [lbud|]; [|done].
      by exists lbud. }
    set (c := {| Conflicts.type := Conflicts.CROSS_LOCATION_CONFLICT;
                 Conflicts.c_severity := RED; Conflicts.employee := s_employee s1;
                 Conflicts.employeeId := uid;
                 Conflicts.date := toISODatePT P (s_start s1) |}).
    assert (c ∈ found) as Hc.
    { apply (elem_of_allConflicts P cal found c Hfound).
      exists lbud, s1, uid. split; [done|].
      split; [apply elem_of_assignedOf; split; [done|by exists uid]|].
      split; [done|].
      apply (cross_conflictsOf P lbud _ _ s1 uid c). split; [done|].
      split; [done|]. split; [done|]. exists s2.
      split; [apply elem_of_assignedOf; split; [done|by exists uid]|].
      rewrite Hloc. done. }
    destruct (Hkept c Hc) as (c' & Hc' & Hkey). exists c'. by rewrite Hkey.
Qed.

Lemma cross_location_from_clement_witness :
  ∃ r, Conflicts.report Example.utc (Example.sling Example.doubleBooked) None
         = Some r ∧
       ∃ c, c ∈ Conflicts.conflicts r ∧
            Conflicts.keyOf c =
              (Conflicts.CROSS_LOCATION_CONFLICT, Example.SARA, Example.sat + 2).
Proof.
  eexists. split; [vm_compute; reflexivity|].
  lazymatch goal with
  | |- ∃ c, c ∈ Conflicts.conflicts ?r ∧ _ =>
      apply (cross_location_from_clement Example.utc
               (Example.sling Example.doubleBooked) None r Example.SARA
               (Example.sat + 2)); [vm_compute; reflexivity|]
  end.
  split; [evaluate|]. split; [done|].
  exists Example.saraClement, Example.saraNinth.
  split; [apply list_elem_of_lookup_2 with 0%nat; vm_compute; reflexivity|].
  split; [apply list_elem_of_lookup_2 with 1%nat; vm_compute; reflexivity|].
  split; [reflexivity|]. split; [reflexivity|]. split; [reflexivity|].
  split; [done|]. split; [by eexists|]. split; reflexivity.
Defined.

Section ConflictsTotal.
Context (P : Platform) (Hday : ∀ t, t + 3600000 ≤ addDays P t 1).

Lemma leaveDaysFrom_total fuel d e :
  (if d <=? e then (e - d) `div` 3600000 + 1 else 0) < Z.of_nat fuel →
  is_Some (Conflicts.leaveDaysFrom P fuel d e).
Proof.
  revert d. induction fuel as [|fuel IH]; intros d Hfuel.
  { destruct (Z.leb_spec d e); [|lia].
    pose proof (Z.div_pos (e - d) 3600000). lia. }
  cbn [Conflicts.leaveDaysFrom]. destruct (Z.leb_spec d e) as [Hle|Hgt]; [|by eexists].
  apply fmap_is_Some, IH.
  pose proof (Hday d) as Hnext.
  pose proof (Z.div_pos (e - d) 3600000 ltac:(lia) ltac:(lia)) as Hpos.
  destruct (Z.leb_spec (addDays P d 1) e) as [Hle'|]; [|lia].
  assert ((e - addDays P d 1) `div` 3600000 ≤ (e - d - 3600000) `div` 3600000)
    as Hmono by (apply Z.div_le_mono; lia).
  replace (e - d - 3600000) with (e - d + (-1) * 3600000) in Hmono by lia.
  rewrite Z.div_add in Hmono by done. lia.
Qed.

Lemma leaveDays_total l : is_Some (Conflicts.leaveDays P l).
Proof.
  unfold Conflicts.leaveDays. apply leaveDaysFrom_total.
  destruct (Z.leb_spec (l_start l) (l_end l)); [|lia].
  pose proof (Z.div_pos (l_end l - l_start l) 3600000 ltac:(lia) ltac:(lia)). lia.
Qed.

Lemma leaveByUserDateOf_total leaves :
  is_Some (Conflicts.leaveByUserDateOf P leaves).
Proof.
  unfold Conflicts.leaveByUserDateOf.
  generalize (Some (∅ : gmap (option Z * Z) Leave)) (ltac:(by eexists) :
    is_Some (Some (∅ : gmap (option Z * Z) Leave))).
  induction leaves as [|l leaves IH]; intros acc Hacc; [done|].
  cbn [foldl]. apply IH.
  destruct Hacc as [m ->]. destruct (leaveDays_total l) as [ds ->]. by eexists.
Qed.

End ConflictsTotal.

(** X21. Where setting a date one day ahead moves it at least an hour
    forward, the loops of the conflicts endpoint over the days of each leave
    come to an end and the endpoint gives its answer. *)
Theorem conflicts_report_returns (P : Platform) (S : Sling) (daysParam : option Z) :
  (∀ t, t + 3600000 ≤ addDays P t 1) →
  is_Some (Conflicts.report P S daysParam).
Proof.
  intros Hday. unfold Conflicts.report, Conflicts.allConflicts.
  destruct (leaveByUserDateOf_total P Hday
              (leaves (getOrgCalendar S (Date_now P)
                 (endOfDay P (addDays P (Date_now P)
                    (if Js.falsyNum daysParam then 7 else default 7 daysParam))))))
    as [lbud ->].
  by eexists.
Qed.

Lemma conflicts_report_returns_witness :
  is_Some (Conflicts.report Example.utc (Example.sling Example.doubleBooked) None).
Proof.
  apply (conflicts_report_returns Example.utc (Example.sling Example.doubleBooked) None).
  intros t. unfold addDays, wall, Example.utc, MS_DAY. cbn [fromWall tzOffset]. lia.
Defined.
